(** * NewsFlowPro: storage layer, HTTP routes and client pages

    A shallow embedding of [server/storage.ts] (the [MemStorage] and
    [DatabaseStorage] classes and the shared schema), of the route
    handlers registered by [registerRoutes], and of the requests and the
    derived lists of the client pages, followed by the properties of the
    specification that concern them and by further properties of the
    code.

    Conventions of the embedding:
    - JavaScript strings are [string]s of 8-bit characters, the code
      units below 256; [toLowerCase] folds the capital letters of that
      range, [A] to [Z] and the accented capitals from 192 to 222.
    - JavaScript numbers that hold counters and millisecond timestamps are
      integers in the safe range and are represented by [Z].
    - [null] and [undefined] in a nullable column are both [None].
    - The results of [randomUUID()] and [new Date()] are inputs of the
      operation that calls them.
    - An [Article] held by [MemStorage] is a mutable object: the store
      keeps a heap of objects and the [Map] holds references into it.
    - The parser of the query string gives the server the pairs that
      [URLSearchParams] wrote, and a JSON body arrives as it was sent. *)

From Stdlib Require Import ZArith List String Ascii Bool Lia Permutation Sorted.
From Stdlib Require Import DecimalString.
From stdpp Require Import base strings option list.
Import ListNotations.

Local Open Scope string_scope.
Local Open Scope list_scope.

Set Warnings "-register-all".

(* ================================================================== *)
(** ** The JavaScript runtime used by the code *)
(* ================================================================== *)

Module JS.

(** [String.prototype.toLowerCase]. Below 256 the capital letters are
    [A] to [Z] (65 to 90) and the accented capitals 192 to 222 without
    the multiplication sign 215; the small letter is 32 further on. *)
Definition lower_char (c : ascii) : ascii :=
  let n := nat_of_ascii c in
  if ((65 <=? n)%nat && (n <=? 90)%nat)
     || ((192 <=? n)%nat && (n <=? 222)%nat && negb (n =? 215)%nat)
  then ascii_of_nat (n + 32) else c.

Fixpoint toLowerCase (s : string) : string :=
  match s with
  | EmptyString => EmptyString
  | String c s' => String (lower_char c) (toLowerCase s')
  end.

(** [String.prototype.includes] *)
Fixpoint includes (s sub : string) : bool :=
  String.prefix sub s
  || match s with
     | EmptyString => false
     | String _ s' => includes s' sub
     end.

(** Truthiness of a string, and of a possibly [undefined] string. *)
Definition truthy (s : string) : bool := negb (String.eqb s "").

Definition truthy_opt (o : option string) : bool :=
  match o with
  | Some s => truthy s
  | None => false
  end.

(** [x || d] for a possibly null number. *)
Definition num_or (o : option Z) (d : Z) : Z :=
  match o with
  | Some n => if (n =? 0)%Z then d else n
  | None => d
  end.

(** [x || null] for a possibly absent string. *)
Definition str_or_null (o : option string) : option string :=
  match o with
  | Some s => if truthy s then Some s else None
  | None => None
  end.

(** *** [Map<string, V>]: keys in insertion order *)
Section JsMap.
Context {V : Type}.

Definition Map := list (string * V).

Fixpoint get (k : string) (m : Map) : option V :=
  match m with
  | [] => None
  | (k', v) :: m' => if String.eqb k k' then Some v else get k m'
  end.

Definition has (k : string) (m : Map) : bool :=
  match get k m with
  | Some _ => true
  | None => false
  end.

(** [set] keeps the position of a key that is already present and
    appends a new key at the end. *)
Fixpoint set (k : string) (v : V) (m : Map) : Map :=
  match m with
  | [] => [(k, v)]
  | (k', v') :: m' =>
      if String.eqb k k' then (k', v) :: m' else (k', v') :: set k v m'
  end.

Fixpoint remove (k : string) (m : Map) : Map :=
  match m with
  | [] => []
  | (k', v') :: m' =>
      if String.eqb k k' then m' else (k', v') :: remove k m'
  end.

(** [delete] returns whether the key was present. *)
Definition delete (k : string) (m : Map) : bool * Map :=
  (has k m, remove k m).

Definition keys (m : Map) : list string := List.map fst m.
Definition values (m : Map) : list V := List.map snd m.
End JsMap.
Arguments Map : clear implicits.

(** *** [Array.prototype.sort]: stable, by a comparison function *)
Section ArraySort.
Context {A : Type} (compareFn : A -> A -> Z).

Fixpoint insert_sorted (x : A) (l : list A) : list A :=
  match l with
  | [] => [x]
  | y :: l' =>
      if (compareFn x y <=? 0)%Z then x :: y :: l'
      else y :: insert_sorted x l'
  end.

Definition sort (l : list A) : list A :=
  List.fold_right insert_sorted [] l.
End ArraySort.

(** The order that sorting by [key b - key a] aims at: larger keys first. *)
Definition descending {A : Type} (key : A -> Z) (a b : A) : Prop :=
  (key b <= key a)%Z.

(** *** [Date.prototype.toISOString().split('T')[0]] *)
Section IsoDate.
Local Open Scope Z_scope.

Definition digit (d : Z) : ascii := ascii_of_nat (48 + Z.to_nat d).

(** [pad w n]: the last [w] decimal digits of [n], most significant
    first. *)
Fixpoint pad (w : nat) (n : Z) : string :=
  match w with
  | O => EmptyString
  | S w' => (pad w' (n / 10) ++ String (digit (n mod 10)) EmptyString)%string
  end.

(** Proleptic Gregorian date of a day number counted from 1970-01-01. *)
Definition civil_from_days (days : Z) : Z * Z * Z :=
  let z := days + 719468 in
  let era := z / 146097 in
  let doe := z - era * 146097 in
  let yoe := (doe - doe / 1460 + doe / 36524 - doe / 146096) / 365 in
  let doy := doe - (365 * yoe + yoe / 4 - yoe / 100) in
  let mp := (5 * doy + 2) / 153 in
  let d := doy - (153 * mp + 2) / 5 + 1 in
  let m := if mp <? 10 then mp + 3 else mp - 9 in
  let y := yoe + era * 400 in
  (if m <=? 2 then y + 1 else y, m, d).

(** Years 0 to 9999 print with four digits, the others with a sign and
    six digits. *)
Definition iso_year (y : Z) : string :=
  if (0 <=? y) && (y <=? 9999) then pad 4 y
  else if y <? 0 then ("-" ++ pad 6 (- y))%string
  else ("+" ++ pad 6 y)%string.

Definition isoDate (ms : Z) : string :=
  let '(y, m, d) := civil_from_days (ms / 86400000) in
  (iso_year y ++ "-" ++ pad 2 m ++ "-" ++ pad 2 d)%string.
End IsoDate.

(** *** Parsed JSON values (a request body) *)
Inductive JSON : Type :=
| JNull
| JBool (b : bool)
| JNum (n : Z)
| JStr (s : string)
| JArr (l : list JSON)
| JObj (fields : list (string * JSON)).

(** Property lookup on a parsed object. *)
Fixpoint prop (k : string) (fields : list (string * JSON)) : option JSON :=
  match fields with
  | [] => None
  | (k', v) :: fields' => if String.eqb k k' then Some v else prop k fields'
  end.

(** *** A value of [req.query]: a string, or an array or object built by
    the query-string parser *)
Inductive QValue : Type :=
| QStr (s : string)
| QArr (l : list string)
| QObj.

(** Truthiness: only the empty string is falsy. *)
Definition q_truthy (v : option QValue) : bool :=
  match v with
  | Some (QStr s) => truthy s
  | Some _ => true
  | None => false
  end.

Fixpoint join (sep : string) (l : list string) : string :=
  match l with
  | [] => ""
  | [s] => s
  | s :: l' => s ++ sep ++ join sep l'
  end.

(** [String(v)] *)
Definition q_String (v : QValue) : string :=
  match v with
  | QStr s => s
  | QArr l => join "," l
  | QObj => "[object Object]"
  end.

(** [v === 'true'] *)
Definition q_is_true (v : QValue) : bool :=
  match v with
  | QStr s => String.eqb s "true"
  | _ => false
  end.

(** *** Strings and numbers of the client code *)

(** [String.prototype.trim] takes white space and line terminators off
    both ends: among the 8-bit characters these are the codes 9 to 13,
    32 and 160. *)
Definition is_white (c : ascii) : bool :=
  let n := nat_of_ascii c in
  ((9 <=? n)%nat && (n <=? 13)%nat) || (n =? 32)%nat || (n =? 160)%nat.

Fixpoint trimStart (s : string) : string :=
  match s with
  | EmptyString => EmptyString
  | String c s' => if is_white c then trimStart s' else s
  end.

Fixpoint trimEnd (s : string) : string :=
  match s with
  | EmptyString => EmptyString
  | String c s' =>
      match trimEnd s' with
      | EmptyString => if is_white c then EmptyString else String c EmptyString
      | t => String c t
      end
  end.

Definition trim (s : string) : string := trimEnd (trimStart s).

(** [s.split(sep)] for a separator of one character: the pieces between
    the separators, the empty ones included. *)
Fixpoint split (sep : ascii) (s : string) : list string :=
  match s with
  | EmptyString => [EmptyString]
  | String c s' =>
      if Ascii.eqb c sep then EmptyString :: split sep s'
      else match split sep s' with
           | piece :: pieces => String c piece :: pieces
           | [] => [String c EmptyString]
           end
  end.

(** [s.replace(/[^a-z0-9]+/g, '-')]: every maximal run of characters
    other than lower-case letters and digits becomes one dash.
    [in_run] tells that the character before was part of such a run. *)
Definition is_lower_alnum (c : ascii) : bool :=
  let n := nat_of_ascii c in
  ((97 <=? n)%nat && (n <=? 122)%nat) || ((48 <=? n)%nat && (n <=? 57)%nat).

Fixpoint replace_runs (in_run : bool) (s : string) : string :=
  match s with
  | EmptyString => EmptyString
  | String c s' =>
      if is_lower_alnum c then String c (replace_runs false s')
      else if in_run then replace_runs true s'
      else String "-" (replace_runs true s')
  end.

(** [String(n)] and [`${n}`] for an integer. *)
Definition Number_toString (n : Z) : string :=
  NilZero.string_of_int (Z.to_int n).

(** [Math.floor(a / b)] and [Math.ceil(a / b)] for integers and a
    positive [b]. *)
Definition floor_div (a b : Z) : Z := (a / b)%Z.
Definition ceil_div (a b : Z) : Z := (- ((- a) / b))%Z.

(** [array.includes(x)] and [array.slice(from, to)] on arrays. *)
Definition arr_includes (l : list string) (x : string) : bool :=
  List.existsb (fun y => String.eqb y x) l.

Definition slice {A : Type} (from to : nat) (l : list A) : list A :=
  List.firstn (to - from) (List.skipn from l).

(** Truthiness of a nullable boolean. *)
Definition truthy_bool (o : option bool) : bool :=
  match o with
  | Some b => b
  | None => false
  end.

End JS.

(* ================================================================== *)
(** ** The shared schema: entities and insert shapes *)
(* ================================================================== *)

(** A row of the [articles] table. *)
Module Article.
Record t : Type := mk {
  id : string;
  title : string;
  content : string;
  excerpt : string;
  author : string;
  authorTitle : string;
  authorImage : option string;
  category : string;
  tags : option (list string);
  imageUrl : option string;
  published : option bool;
  featured : option bool;
  views : option Z;
  likes : option Z;
  createdAt : Z;
  updatedAt : Z
}.

(** Assignment to the [views] property. *)
Definition set_views (v : Z) (a : t) : t :=
  mk (id a) (title a) (content a) (excerpt a) (author a) (authorTitle a)
     (authorImage a) (category a) (tags a) (imageUrl a) (published a)
     (featured a) (Some v) (likes a) (createdAt a) (updatedAt a).

(** Assignment to the [likes] property. *)
Definition set_likes (v : Z) (a : t) : t :=
  mk (id a) (title a) (content a) (excerpt a) (author a) (authorTitle a)
     (authorImage a) (category a) (tags a) (imageUrl a) (published a)
     (featured a) (views a) (Some v) (createdAt a) (updatedAt a).
End Article.

(** [InsertArticle]: the output type of [insertArticleSchema]. An optional
    property is [None] when the key is absent; a nullable one holds an
    inner [None] for [null]. *)
Module InsertArticle.
Record t : Type := mk {
  title : string;
  content : string;
  excerpt : string;
  author : string;
  authorTitle : string;
  authorImage : option (option string);
  category : string;
  tags : option (option (list string));
  imageUrl : option (option string);
  published : option (option bool);
  featured : option (option bool)
}.
End InsertArticle.

(** [Partial<InsertArticle>] *)
Module PartialArticle.
Record t : Type := mk {
  title : option string;
  content : option string;
  excerpt : option string;
  author : option string;
  authorTitle : option string;
  authorImage : option (option string);
  category : option string;
  tags : option (option (list string));
  imageUrl : option (option string);
  published : option (option bool);
  featured : option (option bool)
}.
End PartialArticle.

(** A row of the [comments] table. *)
Module Comment.
Record t : Type := mk {
  id : string;
  articleId : string;
  author : string;
  email : string;
  content : string;
  createdAt : Z
}.
End Comment.

Module InsertComment.
Record t : Type := mk {
  articleId : string;
  author : string;
  email : string;
  content : string
}.
End InsertComment.

(** A row of the [categories] table. *)
Module Category.
Record t : Type := mk {
  id : string;
  name : string;
  slug : string;
  description : option string;
  color : string
}.
End Category.

Module InsertCategory.
Record t : Type := mk {
  name : string;
  slug : string;
  description : option (option string);
  color : string
}.
End InsertCategory.

Module PartialCategory.
Record t : Type := mk {
  name : option string;
  slug : option string;
  description : option (option string);
  color : option string
}.
End PartialCategory.

(** [SearchParams], with the four properties the routes fill in. *)
Module SearchParams.
Record t : Type := mk {
  query : option string;
  category : option string;
  published : option bool;
  featured : option bool
}.
End SearchParams.

(** [params?.p] on a possibly [undefined] parameter object. *)
Definition opt_chain {A : Type} (params : option SearchParams.t)
    (p : SearchParams.t -> option A) : option A :=
  match params with
  | Some ps => p ps
  | None => None
  end.

(** [a === b] on a nullable boolean column against a boolean. *)
Definition strict_eq_bool (a : option bool) (b : bool) : bool :=
  match a with
  | Some x => Bool.eqb x b
  | None => false
  end.

(* ================================================================== *)
(** ** Schema validation ([zod] objects built by [createInsertSchema]) *)
(* ================================================================== *)

Module Zod.
Import JS.

Inductive PathSeg : Type :=
| Key (k : string)
| Index (i : nat).

Record ZodIssue : Type := mkIssue {
  code : string;
  expected : string;
  received : string;
  path : list PathSeg;
  message : string
}.

(** The outcome of [schema.parse]: the issues of the [ZodError] thrown,
    or the parsed value. *)
Definition Parsed (A : Type) : Type := (list ZodIssue + A)%type.

Definition typeName (v : option JSON) : string :=
  match v with
  | None => "undefined"
  | Some JNull => "null"
  | Some (JBool _) => "boolean"
  | Some (JNum _) => "number"
  | Some (JStr _) => "string"
  | Some (JArr _) => "array"
  | Some (JObj _) => "object"
  end.

Definition invalid_type (expect : string) (v : option JSON)
    (p : list PathSeg) : ZodIssue :=
  mkIssue "invalid_type" expect (typeName v) p
    (match v with
     | None => "Required"
     | Some _ => "Expected " ++ expect ++ ", received " ++ typeName v
     end).

Definition Schema (A : Type) : Type := list PathSeg -> option JSON -> Parsed A.

Definition map_parsed {A B : Type} (f : A -> B) (x : Parsed A) : Parsed B :=
  match x with
  | inl e => inl e
  | inr a => inr (f a)
  end.

(** Issues of all the properties are collected. *)
Definition ap {A B : Type} (f : Parsed (A -> B)) (x : Parsed A) : Parsed B :=
  match f, x with
  | inr g, inr a => inr (g a)
  | inl e, inr _ => inl e
  | inr _, inl e => inl e
  | inl e1, inl e2 => inl (e1 ++ e2)
  end.

Definition z_string : Schema string :=
  fun p v =>
    match v with
    | Some (JStr s) => inr s
    | _ => inl [invalid_type "string" v p]
    end.

Definition z_boolean : Schema bool :=
  fun p v =>
    match v with
    | Some (JBool b) => inr b
    | _ => inl [invalid_type "boolean" v p]
    end.

Fixpoint array_items {A : Type} (item : Schema A) (p : list PathSeg)
    (i : nat) (l : list JSON) : Parsed (list A) :=
  match l with
  | [] => inr []
  | x :: l' =>
      ap (map_parsed cons (item (p ++ [Index i]) (Some x)))
         (array_items item p (S i) l')
  end.

Definition z_array {A : Type} (item : Schema A) : Schema (list A) :=
  fun p v =>
    match v with
    | Some (JArr l) => array_items item p 0 l
    | _ => inl [invalid_type "array" v p]
    end.

Definition optional {A : Type} (s : Schema A) : Schema (option A) :=
  fun p v =>
    match v with
    | None => inr None
    | Some _ => map_parsed Some (s p v)
    end.

Definition nullable {A : Type} (s : Schema A) : Schema (option A) :=
  fun p v =>
    match v with
    | Some JNull => inr None
    | _ => map_parsed Some (s p v)
    end.

(** The schema of one property of an object. *)
Definition field {A : Type} (s : Schema A) (k : string)
    (p : list PathSeg) (o : list (string * JSON)) : Parsed A :=
  s (p ++ [Key k]) (prop k o).

(** [z.object]: unknown keys are stripped. *)
Definition z_object {A : Type}
    (shape : list PathSeg -> list (string * JSON) -> Parsed A) : Schema A :=
  fun p v =>
    match v with
    | Some (JObj o) => shape p o
    | _ => inl [invalid_type "object" v p]
    end.

Notation "f <@> x" := (ap f x) (at level 61, left associativity).

(** [createInsertSchema(articles).omit({id, views, likes, createdAt,
    updatedAt})]: the [notNull] columns without a default are required,
    the others optional and nullable. The column [tags] is declared
    [text("tags").array()]; its schema is taken to be an array of the
    schema of a [text] column, which is what the declaration says; the
    version of the library that generates it is not part of the
    repository. *)
Definition insertArticleSchema : Schema InsertArticle.t :=
  z_object (fun p o =>
    inr InsertArticle.mk
      <@> field z_string "title" p o
      <@> field z_string "content" p o
      <@> field z_string "excerpt" p o
      <@> field z_string "author" p o
      <@> field z_string "authorTitle" p o
      <@> field (optional (nullable z_string)) "authorImage" p o
      <@> field z_string "category" p o
      <@> field (optional (nullable (z_array z_string))) "tags" p o
      <@> field (optional (nullable z_string)) "imageUrl" p o
      <@> field (optional (nullable z_boolean)) "published" p o
      <@> field (optional (nullable z_boolean)) "featured" p o).

(** [insertArticleSchema.partial()] *)
Definition insertArticleSchema_partial : Schema PartialArticle.t :=
  z_object (fun p o =>
    inr PartialArticle.mk
      <@> field (optional z_string) "title" p o
      <@> field (optional z_string) "content" p o
      <@> field (optional z_string) "excerpt" p o
      <@> field (optional z_string) "author" p o
      <@> field (optional z_string) "authorTitle" p o
      <@> field (optional (nullable z_string)) "authorImage" p o
      <@> field (optional z_string) "category" p o
      <@> field (optional (nullable (z_array z_string))) "tags" p o
      <@> field (optional (nullable z_string)) "imageUrl" p o
      <@> field (optional (nullable z_boolean)) "published" p o
      <@> field (optional (nullable z_boolean)) "featured" p o).

(** [createInsertSchema(comments).omit({id, createdAt})] *)
Definition insertCommentSchema : Schema InsertComment.t :=
  z_object (fun p o =>
    inr InsertComment.mk
      <@> field z_string "articleId" p o
      <@> field z_string "author" p o
      <@> field z_string "email" p o
      <@> field z_string "content" p o).

(** [createInsertSchema(categories).omit({id})] *)
Definition insertCategorySchema : Schema InsertCategory.t :=
  z_object (fun p o =>
    inr InsertCategory.mk
      <@> field z_string "name" p o
      <@> field z_string "slug" p o
      <@> field (optional (nullable z_string)) "description" p o
      <@> field z_string "color" p o).

(** The parse fails and reports issue [i]. *)
Definition reports {A : Type} (i : ZodIssue) (x : Parsed A) : Prop :=
  exists e, x = inl e /\ In i e.

(** [schema.parse(input)] *)
Definition parse {A : Type} (s : Schema A) (input : option JSON) : Parsed A :=
  s [] input.

End Zod.


(* ================================================================== *)
(** ** [MemStorage]: the in-memory implementation of [IStorage] *)
(* ================================================================== *)

Module MemStorage.
Import JS.

(** A reference to an article object: its index in the heap. *)
Abbreviation ref := nat (only parsing).

(** The three [Map]s of the class, and the heap holding the article
    objects that the [articles] map refers to. Comments and categories are
    never assigned to after they are built, so their maps hold values. *)
Record t : Type := mk {
  heap : list Article.t;
  articles : Map ref;
  comments : Map Comment.t;
  categories : Map Category.t
}.

Definition empty : t := mk [] [] [] [].

(** [this.articles.set(id, obj)] for an object literal [obj]: the object
    is allocated and the map entry refers to it. *)
Definition store_new (id : string) (obj : Article.t) (s : t) : ref * t :=
  let r := length (heap s) in
  (r, mk (heap s ++ [obj]) (set id r (articles s)) (comments s) (categories s)).

(** [this.articles.get(id)]: the reference held under [id], with the
    state of the object it points to. *)
Definition get_object (id : string) (s : t) : option (ref * Article.t) :=
  match get id (articles s) with
  | Some r =>
      match heap s !! r with
      | Some article => Some (r, article)
      | None => None
      end
  | None => None
  end.

(** [Array.from(this.articles.values())] *)
Definition objects (s : t) : list (ref * Article.t) :=
  omap (fun r => match heap s !! r with
                 | Some article => Some (r, article)
                 | None => None
                 end)
       (values (articles s)).

Definition seedCategories : list (string -> Category.t) :=
  [ fun id => Category.mk id "Technology" "technology"
          (Some "Latest tech news and innovations")
          "bg-blue-100 text-blue-700";
    fun id => Category.mk id "Business" "business"
          (Some "Business and finance news")
          "bg-green-100 text-green-700";
    fun id => Category.mk id "Health" "health"
          (Some "Health and medical news")
          "bg-purple-100 text-purple-700";
    fun id => Category.mk id "Sports" "sports"
          (Some "Sports news and updates")
          "bg-orange-100 text-orange-700";
    fun id => Category.mk id "Politics" "politics"
          (Some "Political news and analysis")
          "bg-red-100 text-red-700";
    fun id => Category.mk id "Science" "science"
          (Some "Scientific discoveries and research")
          "bg-indigo-100 text-indigo-700";
    fun id => Category.mk id "Entertainment" "entertainment"
          (Some "Entertainment and celebrity news")
          "bg-pink-100 text-pink-700" ].

Definition sampleArticles : list (string -> Z -> Article.t) :=
  [ fun id now => Article.mk id
        "Revolutionary AI Technology Transforms Urban Planning and City Development"
        "Cities worldwide are adopting advanced artificial intelligence systems to optimize traffic flow, reduce energy consumption, and improve quality of life for millions of residents. This breakthrough technology represents a significant leap forward in urban planning methodologies.

The AI systems analyze vast amounts of data from traffic sensors, weather stations, and citizen feedback to create dynamic city management solutions. Early implementations have shown remarkable results, with traffic congestion reduced by up to 30% and energy consumption decreased by 25%.

Urban planners are now able to simulate various scenarios and predict the impact of infrastructure changes before implementation. This predictive capability has saved cities millions in potential costs and improved the overall planning process.

The technology is being implemented in major cities across North America, Europe, and Asia, with plans for global expansion in the coming years."
        "Cities worldwide are adopting advanced artificial intelligence systems to optimize traffic flow, reduce energy consumption, and improve quality of life for millions of residents."
        "Sarah Chen"
        "Technology Reporter"
        (Some "https://images.unsplash.com/photo-1507003211169-0a1dd7228f2d?ixlib=rb-4.0.3&w=100&h=100&fit=crop")
        "Technology"
        (Some ["AI"; "Urban Planning"; "Smart Cities"])
        (Some "https://images.unsplash.com/photo-1477959858617-67f85cf4f1df?ixlib=rb-4.0.3&w=800&h=500&fit=crop")
        (Some true) (Some true) (Some 1250%Z) (Some 234%Z) now now;
    fun id now => Article.mk id
        "Remote Work Trends Show Significant Impact on Corporate Real Estate Markets"
        "The shift to remote work has fundamentally changed how companies view office space, leading to a major transformation in the corporate real estate market. Industry experts report a 40% decrease in traditional office leasing over the past year.

Companies are downsizing their physical footprints while investing more in technology infrastructure to support distributed teams. This trend has created new opportunities in co-working spaces and flexible office solutions.

Real estate developers are adapting by converting traditional office buildings into mixed-use spaces that combine work, residential, and retail components. The change represents one of the most significant shifts in urban development patterns in decades.

Experts predict this trend will continue, with hybrid work models becoming the new standard for knowledge workers across industries."
        "The shift to remote work has fundamentally changed how companies view office space, leading to major changes in corporate real estate markets."
        "Michael Torres"
        "Business Analyst"
        (Some "https://images.unsplash.com/photo-1472099645785-5658abf4ff4e?ixlib=rb-4.0.3&w=100&h=100&fit=crop")
        "Business"
        (Some ["Remote Work"; "Real Estate"; "Corporate Trends"])
        (Some "https://images.unsplash.com/photo-1497215842964-222b430dc094?ixlib=rb-4.0.3&w=600&h=300&fit=crop")
        (Some true) (Some false) (Some 890%Z) (Some 156%Z) now now;
    fun id now => Article.mk id
        "Global Supply Chain Disruptions Drive Innovation in Logistics Technology"
        "Recent supply chain challenges have accelerated the adoption of advanced logistics technologies, with companies investing heavily in AI-powered tracking systems and automated warehouses. The logistics industry is experiencing its most significant transformation in decades.

Major retailers are implementing blockchain-based tracking systems to provide real-time visibility into their supply chains. These systems help identify potential bottlenecks before they become critical issues.

Investment in robotics and automation has increased by 200% year-over-year, as companies seek to reduce dependence on manual labor and improve efficiency. The technology is proving essential for maintaining operations during disruptions."
        "Supply chain challenges drive massive investment in AI-powered logistics and automated warehouse technologies."
        "Jennifer Park"
        "Supply Chain Reporter"
        (Some "https://images.unsplash.com/photo-1494790108755-2616b612b77c?ixlib=rb-4.0.3&w=100&h=100&fit=crop")
        "Business"
        (Some ["Supply Chain"; "Logistics"; "Automation"])
        (Some "https://images.unsplash.com/photo-1586528116311-ad8dd3c8310d?ixlib=rb-4.0.3&w=600&h=300&fit=crop")
        (Some true) (Some false) (Some 654%Z) (Some 89%Z) now now;
    fun id now => Article.mk id
        "Cryptocurrency Market Volatility Sparks New Regulatory Framework Discussions"
        "Financial regulators worldwide are developing comprehensive frameworks to address cryptocurrency market volatility and protect investors. The discussions come as digital assets continue to gain mainstream adoption among institutional investors.

Central banks are exploring digital currency alternatives while maintaining oversight of private cryptocurrency markets. The regulatory clarity is expected to provide stability for long-term institutional investment.

Major financial institutions are adjusting their cryptocurrency strategies based on emerging regulatory guidelines, with many increasing their compliance teams and risk management protocols."
        "Global regulators develop new frameworks as cryptocurrency gains institutional adoption amid market volatility."
        "Robert Kim"
        "Financial Markets Reporter"
        (Some "https://images.unsplash.com/photo-1507003211169-0a1dd7228f2d?ixlib=rb-4.0.3&w=100&h=100&fit=crop")
        "Business"
        (Some ["Cryptocurrency"; "Financial Regulation"; "Markets"])
        (Some "https://images.unsplash.com/photo-1621761191319-c6fb62004040?ixlib=rb-4.0.3&w=600&h=300&fit=crop")
        (Some true) (Some false) (Some 1120%Z) (Some 203%Z) now now;
    fun id now => Article.mk id
        "Sustainable Energy Investments Reach Record High as Companies Prioritize ESG Goals"
        "Corporate investment in renewable energy projects has reached unprecedented levels, with companies allocating over $500 billion globally to sustainable energy initiatives. Environmental, Social, and Governance (ESG) considerations are driving fundamental changes in business strategy.

Major corporations are setting ambitious carbon neutrality targets, with many committing to net-zero emissions by 2030. The transition requires significant infrastructure investment and operational changes across industries.

Investors are increasingly prioritizing companies with strong ESG credentials, creating competitive advantages for early adopters of sustainable business practices."
        "Record $500 billion in corporate renewable energy investment as ESG priorities reshape business strategies."
        "Lisa Martinez"
        "Sustainability Reporter"
        (Some "https://images.unsplash.com/photo-1438761681033-6461ffad8d80?ixlib=rb-4.0.3&w=100&h=100&fit=crop")
        "Business"
        (Some ["Sustainable Energy"; "ESG"; "Corporate Investment"])
        (Some "https://images.unsplash.com/photo-1466611653911-95081537e5b7?ixlib=rb-4.0.3&w=600&h=300&fit=crop")
        (Some true) (Some false) (Some 845%Z) (Some 167%Z) now now;
    fun id now => Article.mk id
        "E-commerce Growth Drives Major Retail Infrastructure Investments"
        "The continued expansion of e-commerce is prompting retailers to invest billions in warehouse automation, last-mile delivery solutions, and customer experience technologies. The retail landscape is undergoing a fundamental transformation.

Online sales now represent over 35% of total retail transactions, driving demand for sophisticated fulfillment centers and delivery networks. Companies are racing to reduce delivery times while maintaining cost efficiency.

Retail technology investments focus on personalization engines, inventory management systems, and seamless omnichannel experiences that integrate online and offline shopping."
        "E-commerce expansion drives billions in retail infrastructure investment as online sales reach 35% of total transactions."
        "David Chen"
        "Retail Industry Analyst"
        (Some "https://images.unsplash.com/photo-1472099645785-5658abf4ff4e?ixlib=rb-4.0.3&w=100&h=100&fit=crop")
        "Business"
        (Some ["E-commerce"; "Retail Technology"; "Logistics"])
        (Some "https://images.unsplash.com/photo-1556742049-0cfed4f6a45d?ixlib=rb-4.0.3&w=600&h=300&fit=crop")
        (Some true) (Some false) (Some 932%Z) (Some 124%Z) now now;
    fun id now => Article.mk id
        "Breakthrough Medical Device Approved for Early Cancer Detection"
        "A revolutionary medical device that can detect cancer cells up to two years before traditional methods has received regulatory approval. The device uses advanced biomarker analysis to identify cellular changes at the earliest stages.

Clinical trials involving over 10,000 patients showed a 95% accuracy rate in detecting various types of cancer, including lung, breast, and colorectal cancers. The non-invasive test requires only a simple blood sample.

Medical professionals are calling this breakthrough a game-changer for cancer treatment, as early detection significantly improves survival rates and treatment outcomes. The device will be available in major medical centers within the next six months.

The technology represents years of research and development, with potential applications extending beyond cancer detection to other serious medical conditions."
        "A revolutionary medical device that can detect cancer cells up to two years before traditional methods has received regulatory approval."
        "Dr. Amanda Foster"
        "Medical Correspondent"
        (Some "https://images.unsplash.com/photo-1559839734-2b71ea197ec2?ixlib=rb-4.0.3&w=100&h=100&fit=crop")
        "Health"
        (Some ["Medical Technology"; "Cancer Detection"; "Healthcare Innovation"])
        (Some "https://images.unsplash.com/photo-1576091160399-112ba8d25d1f?ixlib=rb-4.0.3&w=600&h=300&fit=crop")
        (Some true) (Some false) (Some 2100%Z) (Some 445%Z) now now;
    fun id now => Article.mk id
        "Olympic Training Methods Revolutionize Amateur Athletics Programs"
        "Training techniques developed for Olympic athletes are being adapted for community sports programs, showing remarkable improvements in performance and injury prevention among amateur athletes.

Sports scientists have created scaled-down versions of professional training protocols that can be implemented in local gyms and community centers. The programs focus on movement quality, injury prevention, and sustainable performance improvement.

Early results from pilot programs show a 60% reduction in sports-related injuries and significant improvements in athletic performance across all age groups. The approach emphasizes proper form and gradual progression over high-intensity training.

Coaches across the country are being trained in these new methodologies, with plans to expand the program to schools and recreational leagues nationwide."
        "Professional coaching techniques are being adapted for community sports programs, showing remarkable improvements in performance and injury prevention."
        "Coach Martinez"
        "Sports Performance Specialist"
        (Some "https://images.unsplash.com/photo-1566492031773-4f4e44671d66?ixlib=rb-4.0.3&w=100&h=100&fit=crop")
        "Sports"
        (Some ["Olympic Training"; "Amateur Athletics"; "Sports Science"])
        (Some "https://images.unsplash.com/photo-1544717297-fa95b6ee9643?ixlib=rb-4.0.3&w=600&h=300&fit=crop")
        (Some true) (Some false) (Some 756%Z) (Some 89%Z) now now;
    fun id now => Article.mk id
        "Renewable Energy Storage Breakthrough Promises Grid Stability"
        "Scientists have developed a new battery technology that could solve the intermittency problem of solar and wind power, making renewable energy more reliable than ever before.

The breakthrough involves a novel approach to energy storage that can maintain charge for weeks without significant loss. The technology uses abundant materials and has shown promising results in large-scale testing.

Energy companies are already planning pilot installations, with the first commercial deployments expected within two years. The technology could accelerate the transition to renewable energy by addressing one of its biggest challenges.

Experts believe this development could be the key to achieving carbon neutrality goals while maintaining reliable power grids. The implications for climate change mitigation are substantial."
        "New battery technology could solve the intermittency problem of solar and wind power, making renewable energy more reliable than ever before."
        "Dr. Lisa Park"
        "Energy Research Scientist"
        (Some "https://images.unsplash.com/photo-1573496359142-b8d87734a5a2?ixlib=rb-4.0.3&w=100&h=100&fit=crop")
        "Science"
        (Some ["Renewable Energy"; "Battery Technology"; "Climate Change"])
        (Some "https://images.unsplash.com/photo-1582719508461-905c673771fd?ixlib=rb-4.0.3&w=600&h=300&fit=crop")
        (Some true) (Some false) (Some 1340%Z) (Some 267%Z) now now ].

(** [seedData()]: [uuid i] is the result of the [i]-th call of
    [randomUUID()], [clock j] the date read for the [j]-th article. *)
Definition seedData (uuid : nat -> string) (clock : nat -> Z) (s : t) : t :=
  let s1 :=
    List.fold_left
      (fun st '(i, cat) =>
         let id := uuid i in
         mk (heap st) (articles st) (comments st)
            (set id (cat id) (categories st)))
      (combine (seq 0 (length seedCategories)) seedCategories) s in
  List.fold_left
    (fun st '(j, article) =>
       let id := uuid (length seedCategories + j)%nat in
       let now := clock j in
       snd (store_new id (article id now) st))
    (combine (seq 0 (length sampleArticles)) sampleArticles) s1.

(** [new MemStorage()] *)
Definition construct (uuid : nat -> string) (clock : nat -> Z) : t :=
  seedData uuid clock empty.

(** *** Articles *)

Definition getArticles (params : option SearchParams.t) (s : t) : list ref :=
  let articles := objects s in
  let articles :=
    match opt_chain params SearchParams.query with
    | Some q =>
        if truthy q then
          let query := toLowerCase q in
          List.filter
            (fun x : ref * Article.t =>
               includes (toLowerCase (Article.title x.2)) query
               || includes (toLowerCase (Article.content x.2)) query
               || includes (toLowerCase (Article.author x.2)) query)
            articles
        else articles
    | None => articles
    end in
  let articles :=
    match opt_chain params SearchParams.category with
    | Some c =>
        if truthy c then
          List.filter
            (fun x : ref * Article.t =>
               String.eqb (toLowerCase (Article.category x.2)) (toLowerCase c))
            articles
        else articles
    | None => articles
    end in
  let articles :=
    match opt_chain params SearchParams.published with
    | Some b =>
        List.filter
          (fun x : ref * Article.t => strict_eq_bool (Article.published x.2) b)
          articles
    | None => articles
    end in
  let articles :=
    match opt_chain params SearchParams.featured with
    | Some b =>
        List.filter
          (fun x : ref * Article.t => strict_eq_bool (Article.featured x.2) b)
          articles
    | None => articles
    end in
  List.map fst
    (sort (fun a b : ref * Article.t =>
             (Article.createdAt b.2 - Article.createdAt a.2)%Z)
          articles).

Definition getArticle (id : string) (s : t) : option ref :=
  match get_object id s with
  | Some (r, _) => Some r
  | None => None
  end.

Definition getArticleBySlug (slug : string) (s : t) : option ref :=
  fst <$> List.find
            (fun article : ref * Article.t =>
               String.eqb
                 (replace_runs false (toLowerCase (Article.title article.2)))
                 slug)
            (objects s).

Definition createArticle (uuid : string) (now : Z)
    (insertArticle : InsertArticle.t) (s : t) : ref * t :=
  let id := uuid in
  let article :=
    Article.mk id
      (InsertArticle.title insertArticle)
      (InsertArticle.content insertArticle)
      (InsertArticle.excerpt insertArticle)
      (InsertArticle.author insertArticle)
      (InsertArticle.authorTitle insertArticle)
      (str_or_null (mjoin (InsertArticle.authorImage insertArticle)))
      (InsertArticle.category insertArticle)
      (Some (default [] (mjoin (InsertArticle.tags insertArticle))))
      (str_or_null (mjoin (InsertArticle.imageUrl insertArticle)))
      (mjoin (InsertArticle.published insertArticle))
      (mjoin (InsertArticle.featured insertArticle))
      (Some 0%Z)
      (Some 0%Z)
      now
      now in
  store_new id article s.

(** [{...article, ...updates, updatedAt: new Date()}] *)
Definition spread_updates (article : Article.t) (updates : PartialArticle.t)
    (now : Z) : Article.t :=
  Article.mk
    (Article.id article)
    (default (Article.title article) (PartialArticle.title updates))
    (default (Article.content article) (PartialArticle.content updates))
    (default (Article.excerpt article) (PartialArticle.excerpt updates))
    (default (Article.author article) (PartialArticle.author updates))
    (default (Article.authorTitle article) (PartialArticle.authorTitle updates))
    (default (Article.authorImage article) (PartialArticle.authorImage updates))
    (default (Article.category article) (PartialArticle.category updates))
    (default (Article.tags article) (PartialArticle.tags updates))
    (default (Article.imageUrl article) (PartialArticle.imageUrl updates))
    (default (Article.published article) (PartialArticle.published updates))
    (default (Article.featured article) (PartialArticle.featured updates))
    (Article.views article)
    (Article.likes article)
    (Article.createdAt article)
    now.

Definition updateArticle (now : Z) (id : string) (updates : PartialArticle.t)
    (s : t) : option ref * t :=
  match get_object id s with
  | None => (None, s)
  | Some (_, article) =>
      let updated := spread_updates article updates now in
      let '(r, s') := store_new id updated s in
      (Some r, s')
  end.

Definition deleteArticle (id : string) (s : t) : bool * t :=
  let '(existed, m) := delete id (articles s) in
  (existed, mk (heap s) m (comments s) (categories s)).

Definition incrementViews (id : string) (s : t) : t :=
  match get_object id s with
  | Some (r, article) =>
      mk (<[r := Article.set_views (num_or (Article.views article) 0 + 1)%Z
                   article]> (heap s))
         (set id r (articles s)) (comments s) (categories s)
  | None => s
  end.

Definition toggleLike (id : string) (s : t) : option ref * t :=
  match get_object id s with
  | Some (r, article) =>
      (Some r,
       mk (<[r := Article.set_likes (num_or (Article.likes article) 0 + 1)%Z
                    article]> (heap s))
          (set id r (articles s)) (comments s) (categories s))
  | None => (None, s)
  end.

(** *** Comments *)

Definition getCommentsByArticleId (articleId : string) (s : t)
    : list Comment.t :=
  sort (fun a b => (Comment.createdAt b - Comment.createdAt a)%Z)
       (List.filter
          (fun comment => String.eqb (Comment.articleId comment) articleId)
          (values (comments s))).

Definition createComment (uuid : string) (now : Z)
    (insertComment : InsertComment.t) (s : t) : Comment.t * t :=
  let id := uuid in
  let comment :=
    Comment.mk id
      (InsertComment.articleId insertComment)
      (InsertComment.author insertComment)
      (InsertComment.email insertComment)
      (InsertComment.content insertComment)
      now in
  (comment, mk (heap s) (articles s) (set id comment (comments s))
               (categories s)).

Definition deleteComment (id : string) (s : t) : bool * t :=
  let '(existed, m) := delete id (comments s) in
  (existed, mk (heap s) (articles s) m (categories s)).

(** *** Categories *)

Definition getCategories (s : t) : list Category.t := values (categories s).

Definition getCategory (id : string) (s : t) : option Category.t :=
  get id (categories s).

Definition getCategoryBySlug (slug : string) (s : t) : option Category.t :=
  List.find (fun cat => String.eqb (Category.slug cat) slug)
            (values (categories s)).

Definition createCategory (uuid : string) (insertCategory : InsertCategory.t)
    (s : t) : Category.t * t :=
  let id := uuid in
  let category :=
    Category.mk id
      (InsertCategory.name insertCategory)
      (InsertCategory.slug insertCategory)
      (str_or_null (mjoin (InsertCategory.description insertCategory)))
      (InsertCategory.color insertCategory) in
  (category, mk (heap s) (articles s) (comments s)
                (set id category (categories s))).

Definition updateCategory (id : string) (updates : PartialCategory.t) (s : t)
    : option Category.t * t :=
  match get id (categories s) with
  | None => (None, s)
  | Some category =>
      let updated :=
        Category.mk
          (Category.id category)
          (default (Category.name category) (PartialCategory.name updates))
          (default (Category.slug category) (PartialCategory.slug updates))
          (default (Category.description category)
                   (PartialCategory.description updates))
          (default (Category.color category) (PartialCategory.color updates)) in
      (Some updated, mk (heap s) (articles s) (comments s)
                        (set id updated (categories s)))
  end.

Definition deleteCategory (id : string) (s : t) : bool * t :=
  let '(existed, m) := delete id (categories s) in
  (existed, mk (heap s) (articles s) (comments s) m).

End MemStorage.


(* ================================================================== *)
(** ** [DatabaseStorage]: the persistent implementation of [IStorage] *)
(* ================================================================== *)

Module DatabaseStorage.
Import JS.

(** The tables, as the rows a sequential scan yields. *)
Record t : Type := mk {
  articles : list Article.t;
  comments : list Comment.t;
  categories : list Category.t
}.

(** The SQL [LIKE] operator: [%] matches any run of characters, [_] any
    one character, and a backslash takes the next character literally. *)
Fixpoint like (pattern : string) : string -> bool :=
  match pattern with
  | EmptyString =>
      fun text => match text with EmptyString => true | _ => false end
  | String c pattern' =>
      if Ascii.eqb c "%" then
        fix any (text : string) : bool :=
          like pattern' text
          || match text with
             | EmptyString => false
             | String _ text' => any text'
             end
      else if Ascii.eqb c "_" then
        fun text =>
          match text with
          | String _ text' => like pattern' text'
          | EmptyString => false
          end
      else if Ascii.eqb c "\" then
        match pattern' with
        | String e pattern'' =>
            fun text =>
              match text with
              | String x text' => Ascii.eqb e x && like pattern'' text'
              | EmptyString => false
              end
        | EmptyString => fun _ => false
        end
      else
        fun text =>
          match text with
          | String x text' => Ascii.eqb c x && like pattern' text'
          | EmptyString => false
          end
  end.

(** [ilike(column, pattern)]: [LIKE] without regard to case. *)
Definition ilike (column pattern : string) : bool :=
  like (toLowerCase pattern) (toLowerCase column).

(** The characters that [LIKE] does not take literally, and the texts
    without any of them. *)
Definition is_wildcard (c : ascii) : bool :=
  Ascii.eqb c "%" || Ascii.eqb c "_" || Ascii.eqb c "\".

Fixpoint literal (text : string) : bool :=
  match text with
  | EmptyString => true
  | String c text' => negb (is_wildcard c) && literal text'
  end.

(** [eq(column, value)] on a nullable boolean column: a null never
    satisfies the comparison. *)
Definition eq (column : option bool) (value : bool) : bool :=
  strict_eq_bool column value.

(** [and(...conditions)] *)
Definition and (conditions : list (Article.t -> bool)) (row : Article.t)
    : bool :=
  List.forallb (fun c => c row) conditions.

(** [orderBy(desc(articles.createdAt))] is done by the database engine,
    which returns the rows newest first and promises nothing about the
    order of rows created at the same time. The engine's sort is a
    parameter of the query. *)
Definition OrderBy : Type := list Article.t -> list Article.t.

Definition sorts_newest_first (orderBy : OrderBy) : Prop :=
  forall rows,
    Permutation (orderBy rows) rows
    /\ StronglySorted (descending Article.createdAt) (orderBy rows).

(** The sort that keeps rows with equal keys in the order of the scan. *)
Definition scan_order : OrderBy :=
  sort (fun a b => (Article.createdAt b - Article.createdAt a)%Z).

Definition getArticles (orderBy : OrderBy) (params : option SearchParams.t)
    (db : t) : list Article.t :=
  let conditions : list (Article.t -> bool) := [] in
  let conditions :=
    match opt_chain params SearchParams.category with
    | Some c =>
        if truthy c then
          conditions ++ [fun row => ilike (Article.category row) ("%" ++ c ++ "%")]
        else conditions
    | None => conditions
    end in
  let conditions :=
    match opt_chain params SearchParams.query with
    | Some q =>
        if truthy q then
          conditions ++ [fun row => ilike (Article.title row) ("%" ++ q ++ "%")]
        else conditions
    | None => conditions
    end in
  let conditions :=
    match opt_chain params SearchParams.featured with
    | Some b => conditions ++ [fun row => eq (Article.featured row) b]
    | None => conditions
    end in
  let query :=
    if (0 <? length conditions)%nat
    then List.filter (and conditions) (articles db)
    else articles db in
  orderBy query.

Definition getCommentsByArticleId (articleId : string) (db : t)
    : list Comment.t :=
  List.filter (fun row => String.eqb (Comment.articleId row) articleId)
              (comments db).

(** [const [row] = await db.select()...; return row || undefined]: the
    first row of the selection. *)
Definition getArticle (id : string) (db : t) : option Article.t :=
  List.head (List.filter (fun row => String.eqb (Article.id row) id)
                         (articles db)).

Definition getArticleBySlug (slug : string) (db : t) : option Article.t :=
  List.head (List.filter (fun row => String.eqb (Article.id row) slug)
                         (articles db)).

Definition getCategories (db : t) : list Category.t := categories db.

Definition getCategory (id : string) (db : t) : option Category.t :=
  List.head (List.filter (fun row => String.eqb (Category.id row) id)
                         (categories db)).

Definition getCategoryBySlug (slug : string) (db : t) : option Category.t :=
  List.head (List.filter (fun row => String.eqb (Category.slug row) slug)
                         (categories db)).

End DatabaseStorage.


(* ================================================================== *)
(** ** The HTTP routes ([registerRoutes]) over [storage = new MemStorage()] *)
(* ================================================================== *)

Module Routes.
Import JS.

(** What a handler sends. *)
Inductive Body : Type :=
| Json_articles (l : list Article.t)
| Json_article (a : Article.t)
| Json_comments (l : list Comment.t)
| Json_comment (c : Comment.t)
| Json_categories (l : list Category.t)
| Json_category (c : Category.t)
| Json_likes (likes : option Z)
| Json_message (message : string)
| Json_error (error : string)
| Json_invalid (error : string) (details : list Zod.ZodIssue)
| Xml_text (text : string)
| No_content.

Record Response : Type := mkResponse {
  status : Z;
  body : Body
}.

(** [req.query] *)
Record Query : Type := mkQuery {
  q_query : option QValue;
  q_category : option QValue;
  q_published : option QValue;
  q_featured : option QValue
}.

(** A request with the [published] or the [featured] parameter replaced. *)
Definition with_published (v : option QValue) (q : Query) : Query :=
  mkQuery (q_query q) (q_category q) v (q_featured q).

Definition with_featured (v : option QValue) (q : Query) : Query :=
  mkQuery (q_query q) (q_category q) (q_published q) v.

(** [process.env] *)
Record Env : Type := mkEnv {
  NODE_ENV : option string;
  PORT : option string
}.

(** [res.json(article)] for a reference: the object is serialised in the
    state it has when the response is sent. A reference held by the map
    always points into the heap, so the last branch is not taken. *)
Definition json_ref (s : MemStorage.t) (article : MemStorage.ref) : Body :=
  match MemStorage.heap s !! article with
  | Some a => Json_article a
  | None => No_content
  end.

(** The objects behind an array of references. *)
Definition read_refs (s : MemStorage.t) (articles : list MemStorage.ref)
    : list Article.t :=
  omap (fun r => MemStorage.heap s !! r) articles.

Definition safeParams (queryParams : Query) : SearchParams.t :=
  SearchParams.mk
    (if q_truthy (q_query queryParams)
     then q_String <$> q_query queryParams else None)
    (if q_truthy (q_category queryParams)
     then q_String <$> q_category queryParams else None)
    (q_is_true <$> q_published queryParams)
    (q_is_true <$> q_featured queryParams).

(** [GET /api/articles] *)
Definition GET_articles (queryParams : Query) (s : MemStorage.t) : Response :=
  let articles := MemStorage.getArticles (Some (safeParams queryParams)) s in
  mkResponse 200 (Json_articles (read_refs s articles)).

(** [GET /api/articles/:id] *)
Definition GET_article (id : string) (s : MemStorage.t)
    : Response * MemStorage.t :=
  match MemStorage.getArticle id s with
  | None => (mkResponse 404 (Json_error "Article not found"), s)
  | Some article =>
      let s' := MemStorage.incrementViews id s in
      (mkResponse 200 (json_ref s' article), s')
  end.

(** [POST /api/articles] *)
Definition POST_articles (uuid : string) (now : Z) (body : option JSON)
    (s : MemStorage.t) : Response * MemStorage.t :=
  match Zod.parse Zod.insertArticleSchema body with
  | inr articleData =>
      let '(article, s') := MemStorage.createArticle uuid now articleData s in
      (mkResponse 201 (json_ref s' article), s')
  | inl errors =>
      (mkResponse 400 (Json_invalid "Invalid article data" errors), s)
  end.

(** [PUT /api/articles/:id] *)
Definition PUT_article (now : Z) (id : string) (body : option JSON)
    (s : MemStorage.t) : Response * MemStorage.t :=
  match Zod.parse Zod.insertArticleSchema_partial body with
  | inr articleData =>
      match MemStorage.updateArticle now id articleData s with
      | (None, s') => (mkResponse 404 (Json_error "Article not found"), s')
      | (Some article, s') => (mkResponse 200 (json_ref s' article), s')
      end
  | inl errors =>
      (mkResponse 400 (Json_invalid "Invalid article data" errors), s)
  end.

(** [DELETE /api/articles/:id] *)
Definition DELETE_article (id : string) (s : MemStorage.t)
    : Response * MemStorage.t :=
  let '(deleted, s') := MemStorage.deleteArticle id s in
  if deleted then (mkResponse 204 No_content, s')
  else (mkResponse 404 (Json_error "Article not found"), s').

(** [POST /api/articles/:id/like] *)
Definition POST_like (id : string) (s : MemStorage.t)
    : Response * MemStorage.t :=
  match MemStorage.toggleLike id s with
  | (None, s') => (mkResponse 404 (Json_error "Article not found"), s')
  | (Some article, s') =>
      (mkResponse 200
         (Json_likes (a ← MemStorage.heap s' !! article; Article.likes a)),
       s')
  end.

(** [POST /api/articles/:id/views] *)
Definition POST_views (id : string) (s : MemStorage.t)
    : Response * MemStorage.t :=
  (mkResponse 200 (Json_message "View counted"),
   MemStorage.incrementViews id s).

(** [GET /api/articles/:articleId/comments] *)
Definition GET_comments (articleId : string) (s : MemStorage.t) : Response :=
  mkResponse 200 (Json_comments (MemStorage.getCommentsByArticleId articleId s)).

(** [{...req.body, articleId}]: the own properties of a body that is not
    an object (array indexes) are not in the schema. *)
Definition with_articleId (body : option JSON) (articleId : string)
    : option JSON :=
  Some (JObj (("articleId", JStr articleId)
              :: match body with
                 | Some (JObj o) => o
                 | _ => []
                 end)).

(** [POST /api/articles/:articleId/comments] *)
Definition POST_comments (uuid : string) (now : Z) (articleId : string)
    (body : option JSON) (s : MemStorage.t) : Response * MemStorage.t :=
  match Zod.parse Zod.insertCommentSchema (with_articleId body articleId) with
  | inr commentData =>
      let '(comment, s') := MemStorage.createComment uuid now commentData s in
      (mkResponse 201 (Json_comment comment), s')
  | inl errors =>
      (mkResponse 400 (Json_invalid "Invalid comment data" errors), s)
  end.

(** [DELETE /api/comments/:id] *)
Definition DELETE_comment (id : string) (s : MemStorage.t)
    : Response * MemStorage.t :=
  let '(deleted, s') := MemStorage.deleteComment id s in
  if deleted then (mkResponse 204 No_content, s')
  else (mkResponse 404 (Json_error "Comment not found"), s').

(** [GET /api/categories] *)
Definition GET_categories (s : MemStorage.t) : Response :=
  mkResponse 200 (Json_categories (MemStorage.getCategories s)).

(** [GET /api/categories/:slug] *)
Definition GET_category (slug : string) (s : MemStorage.t) : Response :=
  match MemStorage.getCategoryBySlug slug s with
  | None => mkResponse 404 (Json_error "Category not found")
  | Some category => mkResponse 200 (Json_category category)
  end.

(** [POST /api/categories] *)
Definition POST_categories (uuid : string) (body : option JSON)
    (s : MemStorage.t) : Response * MemStorage.t :=
  match Zod.parse Zod.insertCategorySchema body with
  | inr categoryData =>
      let '(category, s') := MemStorage.createCategory uuid categoryData s in
      (mkResponse 201 (Json_category category), s')
  | inl errors =>
      (mkResponse 400 (Json_invalid "Invalid category data" errors), s)
  end.

(** [GET /api/search] *)
Definition GET_search (queryParams : Query) (s : MemStorage.t) : Response :=
  let articles := MemStorage.getArticles (Some (safeParams queryParams)) s in
  mkResponse 200 (Json_articles (read_refs s articles)).

(** *** [GET /sitemap.xml] *)

Definition nl : string := String "010"%char EmptyString.
Definition dq : string := String "034"%char EmptyString.

Definition baseUrl (env : Env) : string :=
  match NODE_ENV env with
  | Some "production" => "https://newshub.replit.app"
  | _ =>
      "http://localhost:"
      ++ (if truthy_opt (PORT env) then default "" (PORT env) else "5000")
  end.

(** One [<url>] block of the template literals. *)
Definition url_entry (loc lastmod changefreq priority : string) : string :=
  "  <url>" ++ nl
  ++ "    <loc>" ++ loc ++ "</loc>" ++ nl
  ++ "    <lastmod>" ++ lastmod ++ "</lastmod>" ++ nl
  ++ "    <changefreq>" ++ changefreq ++ "</changefreq>" ++ nl
  ++ "    <priority>" ++ priority ++ "</priority>" ++ nl
  ++ "  </url>" ++ nl.

Definition sitemap_head (baseUrl currentDate : string) : string :=
  "<?xml version=" ++ dq ++ "1.0" ++ dq ++ " encoding=" ++ dq ++ "UTF-8" ++ dq
  ++ "?>" ++ nl
  ++ "<urlset xmlns=" ++ dq ++ "http://www.sitemaps.org/schemas/sitemap/0.9"
  ++ dq ++ ">" ++ nl
  ++ "  <!-- Homepage -->" ++ nl
  ++ url_entry (baseUrl ++ "/") currentDate "daily" "1.0"
  ++ "  " ++ nl
  ++ "  <!-- Search Page -->" ++ nl
  ++ url_entry (baseUrl ++ "/search") currentDate "weekly" "0.6"
  ++ "  " ++ nl
  ++ "  <!-- Admin Panel -->" ++ nl
  ++ url_entry (baseUrl ++ "/admin") currentDate "weekly" "0.4".

(** The texts [f x] of a list, one after the other. *)
Definition join_map {X : Type} (f : X -> string) (l : list X) : string :=
  List.fold_right (fun x r => (f x ++ r)%string) EmptyString l.

Definition GET_sitemap (env : Env) (now : Z) (s : MemStorage.t) : Response :=
  let articles := read_refs s (MemStorage.getArticles None s) in
  let categories := MemStorage.getCategories s in
  let baseUrl := baseUrl env in
  let currentDate := isoDate now in
  let sitemap := sitemap_head baseUrl currentDate in
  let sitemap :=
    List.fold_left
      (fun (sitemap : string) (category : Category.t) =>
         (sitemap
          ++ url_entry (baseUrl ++ "/category/" ++ Category.slug category)
                       currentDate "daily" "0.8")%string)
      categories sitemap in
  let sitemap :=
    List.fold_left
      (fun (sitemap : string) (article : Article.t) =>
         let articleDate := isoDate (Article.updatedAt article) in
         (sitemap
          ++ url_entry (baseUrl ++ "/article/" ++ Article.id article)
                       articleDate "weekly" "0.7")%string)
      articles sitemap in
  let sitemap := (sitemap ++ "</urlset>")%string in
  mkResponse 200 (Xml_text sitemap).

(** *** [GET /robots.txt] *)

(** The text that the handler sends, with status 200. *)
Definition robotsTxt (env : Env) : string :=
  let baseUrl := baseUrl env in
  "User-agent: *" ++ nl
  ++ "Allow: /" ++ nl
  ++ nl
  ++ "# Sitemap location" ++ nl
  ++ "Sitemap: " ++ baseUrl ++ "/sitemap.xml" ++ nl
  ++ nl
  ++ "# Block admin panel from search engines" ++ nl
  ++ "User-agent: *" ++ nl
  ++ "Disallow: /admin" ++ nl
  ++ nl
  ++ "# Allow important pages" ++ nl
  ++ "Allow: /" ++ nl
  ++ "Allow: /category/" ++ nl
  ++ "Allow: /article/" ++ nl
  ++ "Allow: /search" ++ nl
  ++ nl
  ++ "# Crawl delay (optional - 1 second between requests)" ++ nl
  ++ "Crawl-delay: 1".

End Routes.


(* ================================================================== *)
(** ** Well-formedness of an XML document *)
(* ================================================================== *)

(** A checker for the documents the sitemap route can send: an optional
    XML declaration, comments, processing instructions, elements with
    attributes, character data with the predefined and numeric references,
    and CDATA sections. A document type declaration is not accepted. *)
Module Xml.
Import JS.

Inductive Token : Type :=
| Declaration
| Instruction
| Comment_
| CData
| Open (name : string)
| Close (name : string)
| SelfClosing (name : string)
| Chars (text : string).

Definition is_space (c : ascii) : bool :=
  let n := nat_of_ascii c in
  (n =? 32)%nat || (n =? 9)%nat || (n =? 10)%nat || (n =? 13)%nat.

(** The characters a document may hold (the production [Char] of XML
    1.0): tab, line feed, carriage return, and everything from the space
    on; the other control characters are excluded. *)
Definition is_char (c : ascii) : bool :=
  let n := nat_of_ascii c in
  (n =? 9)%nat || (n =? 10)%nat || (n =? 13)%nat || (32 <=? n)%nat.

Definition is_digit (c : ascii) : bool :=
  let n := nat_of_ascii c in (48 <=? n)%nat && (n <=? 57)%nat.

Definition is_hex (c : ascii) : bool :=
  let n := nat_of_ascii c in
  is_digit c || ((65 <=? n)%nat && (n <=? 70)%nat)
  || ((97 <=? n)%nat && (n <=? 102)%nat).

Definition is_letter (c : ascii) : bool :=
  let n := nat_of_ascii c in
  ((65 <=? n)%nat && (n <=? 90)%nat) || ((97 <=? n)%nat && (n <=? 122)%nat).

Definition name_start (c : ascii) : bool :=
  is_letter c || Ascii.eqb c "_" || Ascii.eqb c ":".

Definition name_char (c : ascii) : bool :=
  name_start c || is_digit c || Ascii.eqb c "-" || Ascii.eqb c ".".

Definition valid_name (n : string) : bool :=
  match n with
  | String c _ => name_start c
  | EmptyString => false
  end.

Fixpoint all_chars (p : ascii -> bool) (s : string) : bool :=
  match s with
  | EmptyString => true
  | String c s' => p c && all_chars p s'
  end.

(** The longest prefix whose characters satisfy [p], and the rest. *)
Fixpoint span (p : ascii -> bool) (s : string) : string * string :=
  match s with
  | EmptyString => (EmptyString, EmptyString)
  | String c s' =>
      if p c then let '(a, b) := span p s' in (String c a, b)
      else (EmptyString, s)
  end.

Fixpoint drop (n : nat) (s : string) : string :=
  match n, s with
  | O, _ => s
  | S n', String _ s' => drop n' s'
  | S _, EmptyString => EmptyString
  end.

(** The text before the first occurrence of [pat] and the text after it. *)
Fixpoint find_sub (pat s : string) : option (string * string) :=
  if String.prefix pat s then Some (EmptyString, drop (String.length pat) s)
  else
    match s with
    | EmptyString => None
    | String c s' =>
        match find_sub pat s' with
        | Some (before, after) => Some (String c before, after)
        | None => None
        end
    end.

Definition ends_with_dash (s : string) : bool :=
  match String.rev s with
  | String c _ => Ascii.eqb c "-"
  | EmptyString => false
  end.

(** The name of a reference, between [&] and [;]. *)
Definition ref_ok (r : string) : bool :=
  match r with
  | String c r' =>
      if Ascii.eqb c "#" then
        match r' with
        | String x r'' =>
            if Ascii.eqb x "x"
            then negb (String.eqb r'' "") && all_chars is_hex r''
            else all_chars is_digit r'
        | EmptyString => false
        end
      else
        String.eqb r "amp" || String.eqb r "lt" || String.eqb r "gt"
        || String.eqb r "apos" || String.eqb r "quot"
  | EmptyString => false
  end.

(** Character data and attribute values: only characters of the
    document set, no [<], and every [&] starts a reference. [inref] holds
    the part of a reference read so far. *)
Fixpoint text_ok (inref : option string) (s : string) : bool :=
  match s with
  | EmptyString =>
      match inref with
      | None => true
      | Some _ => false
      end
  | String c s' =>
      if negb (is_char c) then false
      else
        match inref with
        | None =>
            if Ascii.eqb c "<" then false
            else if Ascii.eqb c "&" then text_ok (Some EmptyString) s'
            else text_ok None s'
        | Some acc =>
            if Ascii.eqb c ";" then ref_ok acc && text_ok None s'
            else if Ascii.eqb c "<" || Ascii.eqb c "&" then false
            else text_ok (Some (acc ++ String c EmptyString)%string) s'
        end
  end.

(** The attributes of a start tag up to its closing [>] or [/>]: whether
    the tag is self-closing, and the text after the tag. *)
Fixpoint attributes (fuel : nat) (s : string) (seen : list string)
    : option (bool * string) :=
  match fuel with
  | O => None
  | S fuel' =>
      let '(sp, s1) := span is_space s in
      match s1 with
      | EmptyString => None
      | String c rest =>
          if Ascii.eqb c ">" then Some (false, rest)
          else if Ascii.eqb c "/" then
            match rest with
            | String c' rest' =>
                if Ascii.eqb c' ">" then Some (true, rest') else None
            | EmptyString => None
            end
          else if String.eqb sp "" then None
          else
            let '(n, s2) := span name_char s1 in
            if negb (valid_name n) || existsb (String.eqb n) seen then None
            else
              let '(_, s3) := span is_space s2 in
              match s3 with
              | String e s4 =>
                  if Ascii.eqb e "=" then
                    let '(_, s5) := span is_space s4 in
                    match s5 with
                    | String q s6 =>
                        if Ascii.eqb q "034" || Ascii.eqb q "'" then
                          match find_sub (String q EmptyString) s6 with
                          | Some (v, s7) =>
                              if text_ok None v
                              then attributes fuel' s7 (n :: seen)
                              else None
                          | None => None
                          end
                        else None
                    | EmptyString => None
                    end
                  else None
              | EmptyString => None
              end
      end
  end.

(** The first token of [s] and the text after it. [start] holds at the
    first character of the document only. *)
Definition next_token (start : bool) (s : string) : option (Token * string) :=
  match s with
  | EmptyString => None
  | String c s' =>
      if String.prefix "<!--" s then
        match find_sub "-->" (drop 4 s) with
        | Some (text, rest) =>
            if includes text "--" || ends_with_dash text then None
            else Some (Comment_, rest)
        | None => None
        end
      else if String.prefix "<![CDATA[" s then
        match find_sub "]]>" (drop 9 s) with
        | Some (_, rest) => Some (CData, rest)
        | None => None
        end
      else if String.prefix "<?" s then
        let '(target, _) := span name_char (drop 2 s) in
        match find_sub "?>" (drop 2 s) with
        | Some (_, rest) =>
            if String.eqb (toLowerCase target) "xml" then
              if start && String.eqb target "xml"
              then Some (Declaration, rest)
              else None
            else if valid_name target then Some (Instruction, rest)
            else None
        | None => None
        end
      else if String.prefix "</" s then
        let '(n, s1) := span name_char (drop 2 s) in
        let '(_, s2) := span is_space s1 in
        match s2 with
        | String e rest =>
            if Ascii.eqb e ">" && valid_name n then Some (Close n, rest)
            else None
        | EmptyString => None
        end
      else if Ascii.eqb c "<" then
        let '(n, s1) := span name_char s' in
        if valid_name n then
          match attributes (S (String.length s1)) s1 [] with
          | Some (selfclosing, rest) =>
              Some (if selfclosing then SelfClosing n else Open n, rest)
          | None => None
          end
        else None
      else
        let '(text, rest) := span (fun x => negb (Ascii.eqb x "<")) s in
        if text_ok None text && negb (includes text "]]>")
        then Some (Chars text, rest)
        else None
  end.

(** The effect of one token on the stack of open elements, on the number
    of root elements seen, and on the count of the [url] elements directly
    inside a [urlset] root. Every end tag closes the innermost open
    element; outside the single root element only comments, instructions
    and white space may stand. *)
Definition nest_step (t : Token) (stack : list string) (roots urls : nat)
    : option (list string * nat * nat) :=
  match t with
  | Declaration | Instruction | Comment_ => Some (stack, roots, urls)
  | CData =>
      match stack with
      | [] => None
      | _ => Some (stack, roots, urls)
      end
  | Chars text =>
      match stack with
      | [] => if all_chars is_space text then Some (stack, roots, urls) else None
      | _ => Some (stack, roots, urls)
      end
  | Open n =>
      match stack with
      | [] => if (roots =? 0)%nat then Some ([n], 1%nat, urls) else None
      | [root] =>
          Some (n :: stack, roots,
                if String.eqb root "urlset" && String.eqb n "url"
                then S urls else urls)
      | _ => Some (n :: stack, roots, urls)
      end
  | SelfClosing n =>
      match stack with
      | [] => if (roots =? 0)%nat then Some ([], 1%nat, urls) else None
      | [root] =>
          Some (stack, roots,
                if String.eqb root "urlset" && String.eqb n "url"
                then S urls else urls)
      | _ => Some (stack, roots, urls)
      end
  | Close n =>
      match stack with
      | top :: stack' =>
          if String.eqb n top then Some (stack', roots, urls) else None
      | [] => None
      end
  end.

(** One pass over the document, token by token; every token takes at
    least one character, so the length of the document bounds the number
    of steps. *)
Fixpoint check (fuel : nat) (start : bool) (s : string) (stack : list string)
    (roots urls : nat) : option nat :=
  match fuel with
  | O => None
  | S fuel' =>
      match s with
      | EmptyString =>
          match stack with
          | [] => if (roots =? 1)%nat then Some urls else None
          | _ => None
          end
      | String _ _ =>
          match next_token start s with
          | Some (t, rest) =>
              match nest_step t stack roots urls with
              | Some (stack', roots', urls') =>
                  check fuel' false rest stack' roots' urls'
              | None => None
              end
          | None => None
          end
      end
  end.

(** [None] when [doc] is not a well-formed document, otherwise the number
    of [<url>] elements of its [<urlset>] root. A document holds only
    characters of the document set, in its comments, instructions and
    sections as well as in its text. *)
Definition url_entries (doc : string) : option nat :=
  if all_chars is_char doc
  then check (S (String.length doc)) true doc [] 0%nat 0%nat
  else None.

(** Text that can stand between tags as it is: characters of the
    document set other than [<], [&], [>]. *)
Definition plain_char (c : ascii) : bool :=
  is_char c && negb (Ascii.eqb c "<" || Ascii.eqb c "&" || Ascii.eqb c ">").

Definition plain (s : string) : bool := all_chars plain_char s.

Definition well_formed (doc : string) : bool :=
  match url_entries doc with
  | Some _ => true
  | None => false
  end.

End Xml.


(* ================================================================== *)
(** ** States of the store and the operations that reach them *)
(* ================================================================== *)

Module Trace.
Import JS.

(** The article stored under [id], read through its reference. *)
Definition lookup (s : MemStorage.t) (id : string) : option Article.t :=
  match MemStorage.get_object id s with
  | Some (_, article) => Some article
  | None => None
  end.

(** The articles of the store, in the order of the map. *)
Definition all_articles (s : MemStorage.t) : list Article.t :=
  List.map snd (MemStorage.objects s).

(** A call of a mutating method of [IStorage], with the identifier and
    the date it draws. *)
Inductive Op : Type :=
| CreateArticle (uuid : string) (now : Z) (a : InsertArticle.t)
| UpdateArticle (now : Z) (id : string) (updates : PartialArticle.t)
| DeleteArticle (id : string)
| IncrementViews (id : string)
| ToggleLike (id : string)
| CreateComment (uuid : string) (now : Z) (c : InsertComment.t)
| DeleteComment (id : string)
| CreateCategory (uuid : string) (c : InsertCategory.t)
| UpdateCategory (id : string) (updates : PartialCategory.t)
| DeleteCategory (id : string).

Definition exec (op : Op) (s : MemStorage.t) : MemStorage.t :=
  match op with
  | CreateArticle uuid now a => snd (MemStorage.createArticle uuid now a s)
  | UpdateArticle now id updates =>
      snd (MemStorage.updateArticle now id updates s)
  | DeleteArticle id => snd (MemStorage.deleteArticle id s)
  | IncrementViews id => MemStorage.incrementViews id s
  | ToggleLike id => snd (MemStorage.toggleLike id s)
  | CreateComment uuid now c => snd (MemStorage.createComment uuid now c s)
  | DeleteComment id => snd (MemStorage.deleteComment id s)
  | CreateCategory uuid c => snd (MemStorage.createCategory uuid c s)
  | UpdateCategory id updates => snd (MemStorage.updateCategory id updates s)
  | DeleteCategory id => snd (MemStorage.deleteCategory id s)
  end.

Definition run (ops : list Op) (s : MemStorage.t) : MemStorage.t :=
  List.fold_left (fun st op => exec op st) ops s.

(** The states of [storage]: the seeded store and what the methods make
    of it. *)
Inductive reachable : MemStorage.t -> Prop :=
| reach_construct (uuid : nat -> string) (clock : nat -> Z) :
    reachable (MemStorage.construct uuid clock)
| reach_exec (op : Op) (s : MemStorage.t) :
    reachable s -> reachable (exec op s).

(** The identifiers drawn by the creations of articles in [ops]. *)
Fixpoint drawn (ops : list Op) : list string :=
  match ops with
  | [] => []
  | CreateArticle uuid _ _ :: ops' => uuid :: drawn ops'
  | _ :: ops' => drawn ops'
  end.

(** [randomUUID()] does not repeat: the identifiers drawn by [ops] differ
    from one another and from the keys already in the store. *)
Definition fresh_ids (ops : list Op) (s : MemStorage.t) : Prop :=
  NoDup (keys (MemStorage.articles s) ++ drawn ops).

(** How many times [ops] calls [incrementViews(id)] and [toggleLike(id)]. *)
Fixpoint count_views (id : string) (ops : list Op) : Z :=
  match ops with
  | [] => 0
  | IncrementViews id' :: ops' =>
      ((if String.eqb id' id then 1 else 0) + count_views id ops')%Z
  | _ :: ops' => count_views id ops'
  end.

Fixpoint count_likes (id : string) (ops : list Op) : Z :=
  match ops with
  | [] => 0
  | ToggleLike id' :: ops' =>
      ((if String.eqb id' id then 1 else 0) + count_likes id ops')%Z
  | _ :: ops' => count_likes id ops'
  end.

(** Shape of the store: the map has one entry per key, every reference
    points into the heap, and no object is shared by two entries. *)
Record wf (s : MemStorage.t) : Prop := mk_wf {
  wf_keys : NoDup (keys (MemStorage.articles s));
  wf_refs : NoDup (values (MemStorage.articles s));
  wf_bound : Forall (fun r : nat => (r < length (MemStorage.heap s))%nat)
                    (values (MemStorage.articles s));
  wf_comments : NoDup (keys (MemStorage.comments s));
  wf_categories : NoDup (keys (MemStorage.categories s))
}.

(** Both counters of an article are numbers, not negative. *)
Definition counters_of (a : Article.t) : Prop :=
  exists v l, Article.views a = Some v /\ Article.likes a = Some l
              /\ (0 <= v)%Z /\ (0 <= l)%Z.

Definition counters_ok (s : MemStorage.t) : Prop :=
  forall id a, lookup s id = Some a -> counters_of a.

(** The pair of a reference and the object it points to in [s]. *)
Definition in_heap (s : MemStorage.t) (x : MemStorage.ref * Article.t) : Prop :=
  MemStorage.heap s !! x.1 = Some x.2.

(** The store after an assignment to a property of the object [r] held
    under [id], which leaves the object [a']. *)
Definition poke (id : string) (r : MemStorage.ref) (a' : Article.t)
    (s : MemStorage.t) : MemStorage.t :=
  MemStorage.mk (<[r := a']> (MemStorage.heap s))
                (set id r (MemStorage.articles s))
                (MemStorage.comments s) (MemStorage.categories s).

(** Every entry of the three maps is filed under the [id] it carries. *)
Definition own_ids (s : MemStorage.t) : Prop :=
  (forall id a, lookup s id = Some a -> Article.id a = id)
  /\ (forall id c,
        get id (MemStorage.comments s) = Some c -> Comment.id c = id)
  /\ (forall id c,
        get id (MemStorage.categories s) = Some c -> Category.id c = id).

End Trace.


(* ================================================================== *)
(** ** The client: requests of [lib/api.ts] and what the pages derive *)
(* ================================================================== *)

(** A component reads the array that a route sent; the dates in it are
    the millisecond values that [new Date(article.createdAt).getTime()]
    gives back. *)

Module Client.
Import JS.

(** *** Requests *)

(** A property value of a parameter object of [api.getArticles] and
    [api.search]. *)
Inductive PValue : Type :=
| PUndefined
| PStr (s : string)
| PBool (b : bool).

(** The string a value is turned into when [URLSearchParams] is built
    from an object. *)
Definition String_of (v : PValue) : string :=
  match v with
  | PUndefined => "undefined"
  | PStr s => s
  | PBool true => "true"
  | PBool false => "false"
  end.

(** [new URLSearchParams(params)]: one pair per own property of the
    object, none for [undefined]. *)
Definition URLSearchParams (params : option (list (string * PValue)))
    : list (string * string) :=
  match params with
  | None => []
  | Some o => List.map (fun kv : string * PValue => (kv.1, String_of kv.2)) o
  end.

(** [req.query] for the pairs of a query string: a key given once holds
    its string, a key given several times the array of its strings. *)
Definition req_param (k : string) (pairs : list (string * string))
    : option QValue :=
  match List.map snd
          (List.filter (fun kv : string * string => String.eqb kv.1 k) pairs)
  with
  | [] => None
  | [v] => Some (QStr v)
  | l => Some (QArr l)
  end.

Definition req_query (pairs : list (string * string)) : Routes.Query :=
  Routes.mkQuery (req_param "query" pairs) (req_param "category" pairs)
                 (req_param "published" pairs) (req_param "featured" pairs).

(** [api.getArticles(params)] and [api.search(params)] *)
Definition api_getArticles (params : option (list (string * PValue)))
    (s : MemStorage.t) : Routes.Response :=
  Routes.GET_articles (req_query (URLSearchParams params)) s.

Definition api_search (params : list (string * PValue)) (s : MemStorage.t)
    : Routes.Response :=
  Routes.GET_search (req_query (URLSearchParams (Some params))) s.

(** [x || undefined] for a string. *)
Definition or_undefined (x : string) : PValue :=
  if truthy x then PStr x else PUndefined.

(** *** The search page *)
Module SearchPage.

(** [enabled: !!(searchQuery || selectedCategory)] *)
Definition enabled (searchQuery selectedCategory : string) : bool :=
  truthy searchQuery || truthy selectedCategory.

Definition queryFn (searchQuery selectedCategory : string) (s : MemStorage.t)
    : Routes.Response :=
  api_search [("query", or_undefined searchQuery);
              ("category", or_undefined selectedCategory);
              ("published", PBool true)] s.

End SearchPage.

(** *** The home page *)
Module Home.

Definition queryFn (s : MemStorage.t) : Routes.Response :=
  api_getArticles (Some [("published", PBool true)]) s.

Definition featuredArticles (articles : list Article.t) : list Article.t :=
  List.filter (fun article => truthy_bool (Article.featured article)) articles.

Definition featuredArticle (articles : list Article.t) : option Article.t :=
  List.head (featuredArticles articles).

Definition secondaryArticles (articles : list Article.t) : list Article.t :=
  slice 1 4 (featuredArticles articles).

Definition regularArticles (articles : list Article.t) : list Article.t :=
  List.filter (fun article => negb (truthy_bool (Article.featured article)))
              articles.

Definition categoryArticles (articles : list Article.t)
    (category : Category.t) : list Article.t :=
  slice 0 5
    (List.filter
       (fun article =>
          String.eqb (toLowerCase (Article.category article))
                     (toLowerCase (Category.name category))
          && negb (truthy_bool (Article.featured article)))
       articles).

(** The articles that the main column renders: the hero and the
    secondary articles, the first of the regular articles with the four
    after it, and for each of the first four categories the first of its
    articles with the four after it. *)
Definition rendered (articles : list Article.t) (categories : list Category.t)
    : list Article.t :=
  option_list (featuredArticle articles)
  ++ secondaryArticles articles
  ++ (option_list (List.head (regularArticles articles))
      ++ slice 1 5 (regularArticles articles))
  ++ List.concat
       (List.map
          (fun category =>
             let categoryArticles := categoryArticles articles category in
             option_list (List.head categoryArticles)
             ++ slice 1 5 categoryArticles)
          (slice 0 4 categories)).

End Home.

(** *** The sidebar *)
Module Sidebar.

(** One rendering. [articles.sort(...)] sorts the fetched array itself,
    and the list of recent stories is cut from that array afterwards.
    The result holds the array as the rendering leaves it, the trending
    articles and the recent stories. *)
Definition render (articles : list Article.t)
    : list Article.t * (list Article.t * list Article.t) :=
  let articles :=
    sort (fun a b : Article.t =>
            (num_or (Article.views b) 0 - num_or (Article.views a) 0)%Z)
         articles in
  let trendingArticles := slice 0 5 articles in
  (articles, (trendingArticles, slice 0 4 articles)).

End Sidebar.

(** *** Related articles *)

Definition RelatedArticles (currentArticle : Article.t) (maxResults : nat)
    (allArticles : list Article.t) : list Article.t :=
  let is_category (a : Article.t) : Z :=
    if String.eqb (Article.category a) (Article.category currentArticle)
    then 1%Z else 0%Z in
  slice 0 maxResults
    (sort
       (fun a b : Article.t =>
          let aIsCategory := is_category a in
          let bIsCategory := is_category b in
          if negb (aIsCategory =? bIsCategory)%Z
          then (bIsCategory - aIsCategory)%Z
          else (Article.createdAt b - Article.createdAt a)%Z)
       (List.filter
          (fun article =>
             if String.eqb (Article.id article) (Article.id currentArticle)
             then false
             else if String.eqb (Article.category article)
                                (Article.category currentArticle)
             then true
             else
               let currentTags := default [] (Article.tags currentArticle) in
               let articleTags := default [] (Article.tags article) in
               List.existsb (fun tag => arr_includes articleTags tag)
                            currentTags)
          allArticles)).

(** *** The article card and the article page *)

(** [formatTimeAgo(date)] at the time [now]. *)
Definition formatTimeAgo (now date : Z) : string :=
  let diff := (now - date)%Z in
  let hours := floor_div diff (1000 * 60 * 60) in
  let days := floor_div hours 24 in
  if (0 <? days)%Z then
    Number_toString days ++ " day" ++ (if (1 <? days)%Z then "s" else "")
    ++ " ago"
  else if (0 <? hours)%Z then
    Number_toString hours ++ " hour" ++ (if (1 <? hours)%Z then "s" else "")
    ++ " ago"
  else "Just now".

Definition formatReadingTime (content : string) : string :=
  let wordsPerMinute := 200%Z in
  let wordCount := Z.of_nat (length (split " " content)) in
  let readingTime := ceil_div wordCount wordsPerMinute in
  Number_toString readingTime ++ " min read".

(** *** The category page *)
Module CategoryPage.

(** [articles.find(article => article.featured) || articles[0]] *)
Definition featuredArticle (articles : list Article.t) : option Article.t :=
  match List.find (fun article => truthy_bool (Article.featured article))
                  articles with
  | Some article => Some article
  | None => List.head articles
  end.

(** [article.id !== featuredArticle?.id] *)
Definition regularArticles (articles : list Article.t) : list Article.t :=
  List.filter
    (fun article =>
       match featuredArticle articles with
       | Some featured =>
           negb (String.eqb (Article.id article) (Article.id featured))
       | None => true
       end)
    articles.

End CategoryPage.

(** *** The tags of the article form *)
Module ArticleForm.

(** The text of the tag input and the [tags] value of the form. *)
Record t : Type := mk {
  newTag : string;
  tags : list string
}.

Definition addTag (st : t) : t :=
  if truthy (trim (newTag st))
     && negb (arr_includes (tags st) (trim (newTag st)))
  then mk "" (tags st ++ [trim (newTag st)])
  else st.

Definition removeTag (tagToRemove : string) (st : t) : t :=
  mk (newTag st)
     (List.filter (fun tag => negb (String.eqb tag tagToRemove)) (tags st)).

End ArticleForm.

End Client.


(* ================================================================== *)
(** ** The vocabulary of the specification *)
(* ================================================================== *)

Module Spec.
Import JS.

(** An article passes the filter parameters: the query is a substring of
    the title, the content or the author, the category is the same word,
    both without regard to case, and the flags are the ones asked for. A
    parameter that is absent, or an empty string, does not filter: every
    article passes it. *)
Definition matches_query (params : SearchParams.t) (a : Article.t) : bool :=
  match SearchParams.query params with
  | Some q =>
      if truthy q then
        includes (toLowerCase (Article.title a)) (toLowerCase q)
        || includes (toLowerCase (Article.content a)) (toLowerCase q)
        || includes (toLowerCase (Article.author a)) (toLowerCase q)
      else true
  | None => true
  end.

Definition matches_category (params : SearchParams.t) (a : Article.t) : bool :=
  match SearchParams.category params with
  | Some c =>
      if truthy c
      then String.eqb (toLowerCase (Article.category a)) (toLowerCase c)
      else true
  | None => true
  end.

Definition matches_published (params : SearchParams.t) (a : Article.t)
    : bool :=
  match SearchParams.published params with
  | Some b => strict_eq_bool (Article.published a) b
  | None => true
  end.

Definition matches_featured (params : SearchParams.t) (a : Article.t) : bool :=
  match SearchParams.featured params with
  | Some b => strict_eq_bool (Article.featured a) b
  | None => true
  end.

Definition matches (params : SearchParams.t) (a : Article.t) : bool :=
  matches_query params a && matches_category params a
  && matches_published params a && matches_featured params a.

(** Newest first: no article is followed by one created later. *)
Definition newest_first (l : list Article.t) : Prop :=
  StronglySorted (descending Article.createdAt) l.

(** The properties of a new article that the schema requires. *)
Definition required_article_fields : list string :=
  ["title"; "content"; "excerpt"; "author"; "authorTitle"; "category"].

(** A request body without its [views] and [likes] properties. *)
Definition without_counters (fields : list (string * JSON))
    : list (string * JSON) :=
  List.filter
    (fun kv : string * JSON =>
       negb (String.eqb kv.1 "views" || String.eqb kv.1 "likes"))
    fields.

(** The text a response carries. *)
Definition sent_text (r : Routes.Response) : string :=
  match Routes.body r with
  | Routes.Xml_text text => text
  | _ => EmptyString
  end.

(** Claim C7: the sitemap is a well-formed document whose [urlset] holds
    one [url] per category, one per article, and three more. *)
Definition sitemap_lists_every_page (env : Routes.Env) (now : Z)
    (s : MemStorage.t) : Prop :=
  Xml.url_entries (sent_text (Routes.GET_sitemap env now s))
  = Some (length (MemStorage.getCategories s)
          + length (Trace.all_articles s) + 3)%nat.

(** The strings that the sitemap copies from the environment and the
    store hold only characters that a document may hold, and none of the
    markup characters [<], [&] and [>]. *)
Definition markup_free (env : Routes.Env) (s : MemStorage.t) : Prop :=
  Xml.plain (Routes.baseUrl env) = true
  /\ Forall (fun c => Xml.plain (Category.slug c) = true)
            (MemStorage.getCategories s)
  /\ Forall (fun a => Xml.plain (Article.id a) = true)
            (Trace.all_articles s).

(** The database and the in-memory store hold the same rows in the same
    order. *)
Definition same_rows (db : DatabaseStorage.t) (s : MemStorage.t) : Prop :=
  DatabaseStorage.articles db = Trace.all_articles s
  /\ DatabaseStorage.comments db = values (MemStorage.comments s).

(** Claim C1: on the same rows the two implementations return the same
    articles in the same order for every parameter object, and the same
    comments in the same order for every article. *)
Definition storages_agree (orderBy : DatabaseStorage.OrderBy)
    (db : DatabaseStorage.t) (s : MemStorage.t) : Prop :=
  (forall params,
     DatabaseStorage.getArticles orderBy params db
     = Routes.read_refs s (MemStorage.getArticles params s))
  /\ (forall articleId,
        DatabaseStorage.getCommentsByArticleId articleId db
        = MemStorage.getCommentsByArticleId articleId s).

(** Claim C6: the article of every stored comment is stored. *)
Definition comments_refer_to_articles (s : MemStorage.t) : Prop :=
  forall c,
    In c (values (MemStorage.comments s)) ->
    exists a, Trace.lookup s (Comment.articleId c) = Some a.

(** Claim C9 as it is worded: the article sent by [GET /api/articles/:id]
    is the one read before the view was counted, so that the stored
    counter after the call is one more than the counter sent. *)
Definition response_precedes_increment (s : MemStorage.t) (id : string)
    : Prop :=
  forall a,
    Trace.lookup s id = Some a ->
    exists b s' a' v,
      Routes.GET_article id s
      = (Routes.mkResponse 200 (Routes.Json_article b), s')
      /\ b = a
      /\ Trace.lookup s' id = Some a'
      /\ Article.views b = Some v
      /\ Article.views a' = Some (v + 1)%Z.

End Spec.


(* ================================================================== *)
(** ** Stores and requests used as examples *)
(* ================================================================== *)

Module Examples.
Import JS.

(** A source of identifiers and a clock for the seeded store. *)
Definition uuid (n : nat) : string :=
  "uuid-" ++ String (ascii_of_nat (97 + n)) EmptyString.

Definition clock (n : nat) : Z := 1700000000000.

(** [storage] as the server starts: seven categories under ["uuid-a"] to
    ["uuid-g"], nine articles under ["uuid-h"] to ["uuid-p"]. *)
Definition seeded : MemStorage.t := MemStorage.construct uuid clock.

(** A request body for a new article, with counters in it. *)
Definition article_body : option JSON :=
  Some (JObj [("title", JStr "Budget vote");
              ("content", JStr "The council votes on Monday.");
              ("excerpt", JStr "Council vote");
              ("author", JStr "Ann Lee");
              ("authorTitle", JStr "Reporter");
              ("category", JStr "Politics");
              ("views", JNum 999);
              ("likes", JNum 50)]).

(** The same body without its title. *)
Definition untitled_body : list (string * JSON) :=
  [("content", JStr "The council votes on Monday.");
   ("excerpt", JStr "Council vote");
   ("author", JStr "Ann Lee");
   ("authorTitle", JStr "Reporter");
   ("category", JStr "Politics")].

(** A body for a comment. *)
Definition comment_body : option JSON :=
  Some (JObj [("author", JStr "Bo"); ("email", JStr "bo@example.org");
              ("content", JStr "Well said.")]).

Definition env : Routes.Env := Routes.mkEnv None None.

(** One unpublished article and two comments on it, held by both
    implementations. *)
Definition draft : Article.t :=
  Article.mk "a1" "Budget vote" "The council votes on Monday." "Council vote"
    "Ann Lee" "Reporter" None "Politics" (Some []) None (Some false)
    (Some false) (Some 0%Z) (Some 0%Z) 1000 1000.

Definition older : Comment.t :=
  Comment.mk "c1" "a1" "Bo" "bo@example.org" "First." 2000.

Definition newer : Comment.t :=
  Comment.mk "c2" "a1" "Cy" "cy@example.org" "Second." 3000.

Definition rows_db : DatabaseStorage.t :=
  DatabaseStorage.mk [draft] [older; newer] [].

Definition rows_mem : MemStorage.t :=
  MemStorage.mk [draft] [("a1", 0%nat)] [("c1", older); ("c2", newer)] [].

Definition only_unfeatured : SearchParams.t :=
  SearchParams.mk None None None (Some false).

Definition only_published : SearchParams.t :=
  SearchParams.mk None None (Some true) None.

Definition about_council : SearchParams.t :=
  SearchParams.mk (Some "council") None None None.

Definition in_pol : SearchParams.t :=
  SearchParams.mk None (Some "Pol") None None.

(** Category bodies whose slug holds characters that are markup in XML. *)
Definition ampersand_category : option JSON :=
  Some (JObj [("name", JStr "Q&A"); ("slug", JStr "q&a");
              ("color", JStr "bg-gray-100 text-gray-700")]).

Definition markup_category : option JSON :=
  Some (JObj [("name", JStr "Extra");
              ("slug", JStr "x</loc></url><url><loc>y");
              ("color", JStr "bg-gray-100 text-gray-700")]).

(** A category body whose slug holds a vertical tab, a control character
    that no document may hold. *)
Definition control_slug : string := String "a" (String "011" "b").

Definition control_category : option JSON :=
  Some (JObj [("name", JStr "Tab"); ("slug", JStr control_slug);
              ("color", JStr "bg-gray-100 text-gray-700")]).


(** A run of the store: two views and a like of the first article, around
    an update of it, a creation and a deletion. *)
Definition retitle : PartialArticle.t :=
  PartialArticle.mk (Some "Updated title") None None None None None None None
                    None None None.

Definition new_article : InsertArticle.t :=
  InsertArticle.mk "Budget vote" "The council votes on Monday." "Council vote"
                   "Ann Lee" "Reporter" None "Politics" None None None None.

Definition session : list Trace.Op :=
  [Trace.IncrementViews "uuid-h";
   Trace.UpdateArticle 1700000000005 "uuid-h" retitle;
   Trace.ToggleLike "uuid-h";
   Trace.CreateArticle "uuid-z" 1700000000006 new_article;
   Trace.DeleteArticle "uuid-i";
   Trace.IncrementViews "uuid-h"].

(** A request for the articles of one category. *)
Definition business : Routes.Query :=
  Routes.mkQuery None (Some (QStr "Business")) None None.

(** The properties of [article_body] and of [comment_body]. *)
Definition article_fields : list (string * JSON) :=
  [("title", JStr "Budget vote");
   ("content", JStr "The council votes on Monday.");
   ("excerpt", JStr "Council vote");
   ("author", JStr "Ann Lee");
   ("authorTitle", JStr "Reporter");
   ("category", JStr "Politics");
   ("views", JNum 999);
   ("likes", JNum 50)].

Definition comment_fields : list (string * JSON) :=
  [("author", JStr "Bo"); ("email", JStr "bo@example.org");
   ("content", JStr "Well said.")].

Definition new_comment : InsertComment.t :=
  InsertComment.mk "uuid-h" "Bo" "bo@example.org" "Well said.".

(** A body for a category, and an update of an article. *)
Definition category_body : option JSON :=
  Some (JObj [("name", JStr "Opinion"); ("slug", JStr "opinion");
              ("description", JStr "");
              ("color", JStr "bg-gray-100 text-gray-700")]).

Definition new_category : InsertCategory.t :=
  InsertCategory.mk "Opinion" "opinion" (Some (Some ""))
                    "bg-gray-100 text-gray-700".

Definition retitle_body : option JSON :=
  Some (JObj [("title", JStr "Updated title")]).

Definition recolour : PartialCategory.t :=
  PartialCategory.mk None None None (Some "bg-gray-100 text-gray-700").

(** The database rows of the seeded store. *)
Definition seeded_db : DatabaseStorage.t :=
  DatabaseStorage.mk (Trace.all_articles seeded) []
                     (values (MemStorage.categories seeded)).

Definition politics : SearchParams.t :=
  SearchParams.mk (Some "budget") (Some "Pol") None None.

(** The text of the tag input with blanks around it. *)
Definition tag_input : Client.ArticleForm.t :=
  Client.ArticleForm.mk " budget " ["Politics"].

(** Lists of articles as a page fetches them: a featured article of the
    category of [draft], and copies of [draft] with views. *)
Definition lead : Article.t :=
  Article.mk "a2" "Election night" "The polls close at eight." "Polls"
    "Cy Young" "Editor" None "Politics" (Some ["Vote"]) None (Some true)
    (Some true) (Some 12%Z) (Some 3%Z) 2000 2000.

Definition front_page : list Article.t := [draft; lead].

Definition by_views : list Article.t :=
  List.map (fun v => Article.set_views v draft) [5; 1; 9; 3; 7]%Z.

(** The first of the seeded categories. *)
Definition technology : Category.t :=
  Category.mk "uuid-a" "Technology" "technology"
    (Some "Latest tech news and innovations") "bg-blue-100 text-blue-700".

End Examples.

(* ================================================================== *)
(** * Properties *)
(* ================================================================== *)

(** ** Facts about [Map] *)

Section MapFacts.
Context {V : Type}.
Implicit Types (m : JS.Map V) (k : string) (v : V).

Lemma eqb_false_ne k k' : String.eqb k k' = false <-> k <> k'.
Proof. apply String.eqb_neq. Qed.


Lemma get_None_keys m k : JS.get k m = None <-> k ∉ JS.keys m.
Proof.
  induction m as [|[k' v'] m IH]; simpl.
  - split; [intros _; apply not_elem_of_nil | done].
  - destruct (String.eqb_spec k k') as [->|Hne].
    + split; [discriminate|]. intros H. exfalso. apply H. left.
    + rewrite IH, not_elem_of_cons. tauto.
Qed.

Lemma has_true_keys m k : JS.has k m = true <-> k ∈ JS.keys m.
Proof.
  unfold JS.has. destruct (JS.get k m) eqn:E.
  - split; [|done]. intros _.
    destruct (decide (k ∈ JS.keys m)) as [|Hn]; [done|].
    apply get_None_keys in Hn. congruence.
  - apply get_None_keys in E. split; [discriminate | done].
Qed.

Lemma elem_get_Some m k v :
  NoDup (JS.keys m) -> (k, v) ∈ m -> JS.get k m = Some v.
Proof.
  induction m as [|[k' v'] m IH]; simpl.
  - intros _ H. by apply elem_of_nil in H.
  - intros Hnd H. apply NoDup_cons in Hnd as [Hk Hnd].
    apply elem_of_cons in H as [[= -> ->]|H].
    + by rewrite String.eqb_refl.
    + destruct (String.eqb_spec k k') as [->|Hne]; [|auto].
      exfalso. apply Hk. change (k' ∈ JS.keys m).
      unfold JS.keys. apply list_elem_of_fmap. by exists (k', v).
Qed.

Lemma get_set_eq m k v : JS.get k (JS.set k v m) = Some v.
Proof.
  induction m as [|[k' v'] m IH]; simpl.
  - by rewrite String.eqb_refl.
  - destruct (String.eqb_spec k k') as [->|Hne]; simpl.
    + by rewrite String.eqb_refl.
    + apply String.eqb_neq in Hne. by rewrite Hne.
Qed.

Lemma get_set_ne m k k' v : k <> k' -> JS.get k' (JS.set k v m) = JS.get k' m.
Proof.
  intros Hne. induction m as [|[k0 v0] m IH]; simpl.
  - assert (String.eqb k' k = false) as -> by (apply String.eqb_neq; congruence).
    done.
  - destruct (String.eqb_spec k k0) as [->|Hne0]; simpl.
    + assert (String.eqb k' k0 = false) as -> by (apply String.eqb_neq; congruence).
      done.
    + by rewrite IH.
Qed.

Lemma set_present m k v : JS.get k m = Some v -> JS.set k v m = m.
Proof.
  induction m as [|[k' v'] m IH]; simpl; [discriminate|].
  destruct (String.eqb_spec k k') as [->|Hne].
  - by intros [= ->].
  - intros H. by rewrite IH.
Qed.

Lemma keys_set_present m k v : k ∈ JS.keys m -> JS.keys (JS.set k v m) = JS.keys m.
Proof.
  induction m as [|[k' v'] m IH]; simpl.
  - intros H. by apply elem_of_nil in H.
  - destruct (String.eqb_spec k k') as [->|Hne]; simpl; [done|].
    intros H. apply elem_of_cons in H as [?|H]; [done|].
    f_equal. auto.
Qed.

Lemma keys_set_absent m k v :
  k ∉ JS.keys m -> JS.keys (JS.set k v m) = JS.keys m ++ [k].
Proof.
  induction m as [|[k' v'] m IH]; simpl; [done|].
  intros H. apply not_elem_of_cons in H as [Hne H].
  destruct (String.eqb_spec k k') as [->|_]; [done|].
  simpl. f_equal. auto.
Qed.

Lemma NoDup_keys_set m k v : NoDup (JS.keys m) -> NoDup (JS.keys (JS.set k v m)).
Proof.
  intros Hnd. destruct (decide (k ∈ JS.keys m)) as [Hin|Hnin].
  - by rewrite keys_set_present.
  - rewrite keys_set_absent by done.
    apply NoDup_app. split_and!; [done| |apply NoDup_singleton].
    intros x Hx Hx'. apply list_elem_of_singleton in Hx' as ->. done.
Qed.

(** The values after [set]: the new value takes the place of the old one,
    or comes last. *)
Lemma values_set_elem m k v x :
  x ∈ JS.values (JS.set k v m) -> x = v \/ x ∈ JS.values m.
Proof.
  induction m as [|[k' v'] m IH]; simpl.
  - intros H. apply list_elem_of_singleton in H. by left.
  - destruct (String.eqb_spec k k') as [->|Hne]; simpl; intros H.
    + apply elem_of_cons in H as [->|H]; [by left|]. right. by right.
    + apply elem_of_cons in H as [->|H]; [right; left|].
      destruct (IH H) as [->|?]; [by left|]. right. by right.
Qed.

Lemma NoDup_values_set m k v :
  v ∉ JS.values m -> NoDup (JS.values m) -> NoDup (JS.values (JS.set k v m)).
Proof.
  induction m as [|[k' v'] m IH]; simpl.
  - intros _ _. apply NoDup_singleton.
  - intros Hv Hnd. apply not_elem_of_cons in Hv as [Hne Hv].
    apply NoDup_cons in Hnd as [Hv' Hnd].
    destruct (String.eqb_spec k k') as [->|Hnek]; simpl.
    + apply NoDup_cons. done.
    + apply NoDup_cons. split; [|auto].
      intros H. apply values_set_elem in H as [->|H]; done.
Qed.

Lemma get_remove_ne m k k' : k <> k' -> JS.get k' (JS.remove k m) = JS.get k' m.
Proof.
  intros Hne. induction m as [|[k0 v0] m IH]; simpl; [done|].
  destruct (String.eqb_spec k k0) as [->|Hne0]; simpl.
  - assert (String.eqb k' k0 = false) as -> by (apply String.eqb_neq; congruence).
    done.
  - by rewrite IH.
Qed.

Lemma remove_sublist m k : JS.remove k m `sublist_of` m.
Proof.
  induction m as [|[k0 v0] m IH]; simpl; [done|].
  destruct (String.eqb k k0).
  - by apply sublist_cons.
  - by apply sublist_skip.
Qed.

Lemma remove_absent m k : k ∉ JS.keys m -> JS.remove k m = m.
Proof.
  induction m as [|[k0 v0] m IH]; simpl; [done|].
  intros H. apply not_elem_of_cons in H as [Hne H].
  destruct (String.eqb_spec k k0) as [->|_]; [done|].
  f_equal. auto.
Qed.

Lemma keys_remove_sublist m k : JS.keys (JS.remove k m) `sublist_of` JS.keys m.
Proof.
  induction m as [|[k0 v0] m IH]; simpl; [done|].
  destruct (String.eqb k k0); simpl.
  - by apply sublist_cons.
  - by apply sublist_skip.
Qed.

Lemma values_remove_sublist m k :
  JS.values (JS.remove k m) `sublist_of` JS.values m.
Proof.
  induction m as [|[k0 v0] m IH]; simpl; [done|].
  destruct (String.eqb k k0); simpl.
  - by apply sublist_cons.
  - by apply sublist_skip.
Qed.

Lemma keys_remove_gone m k : NoDup (JS.keys m) -> k ∉ JS.keys (JS.remove k m).
Proof.
  induction m as [|[k0 v0] m IH]; simpl.
  - intros _. apply not_elem_of_nil.
  - intros Hnd. apply NoDup_cons in Hnd as [Hk Hnd].
    destruct (String.eqb_spec k k0) as [->|Hne]; simpl; [done|].
    apply not_elem_of_cons. auto.
Qed.

Lemma keys_remove_other m k k' :
  k <> k' -> k' ∈ JS.keys m -> k' ∈ JS.keys (JS.remove k m).
Proof.
  intros Hne H. destruct (JS.get k' m) eqn:E.
  - assert (JS.get k' (JS.remove k m) = Some v) as E' by by rewrite get_remove_ne.
    destruct (decide (k' ∈ JS.keys (JS.remove k m))) as [|Hn]; [done|].
    apply get_None_keys in Hn. congruence.
  - apply get_None_keys in E. done.
Qed.

End MapFacts.

(** ** Facts about [sort] *)

Section SortFacts.
Context {A : Type} (compareFn : A -> A -> Z).

Lemma insert_sorted_perm x l :
  Permutation (JS.insert_sorted compareFn x l) (x :: l).
Proof.
  induction l as [|y l IH]; simpl; [done|].
  destruct (compareFn x y <=? 0)%Z; [done|].
  rewrite IH. apply perm_swap.
Qed.

Lemma sort_perm l : Permutation (JS.sort compareFn l) l.
Proof.
  induction l as [|x l IH]; simpl; [done|].
  rewrite insert_sorted_perm. by constructor.
Qed.

Lemma sort_In l x : In x (JS.sort compareFn l) <-> In x l.
Proof.
  split; apply Permutation_in; [|symmetry]; apply sort_perm.
Qed.

(** A comparison through a function commutes with mapping it. *)
Lemma sort_map {B : Type} (f : B -> A) l :
  List.map f (JS.sort (fun a b => compareFn (f a) (f b)) l)
  = JS.sort compareFn (List.map f l).
Proof.
  induction l as [|x l IH]; simpl; [done|].
  rewrite <- IH. generalize (JS.sort (fun a b => compareFn (f a) (f b)) l).
  intros s. induction s as [|y s IHs]; simpl; [done|].
  destruct (compareFn (f x) (f y) <=? 0)%Z; simpl; [done|].
  by rewrite IHs.
Qed.

End SortFacts.

(** Sorting by [key b - key a] puts the larger keys first. *)
Section SortDescending.
Context {A : Type} (key : A -> Z).

Lemma insert_sorted_descending x l :
  StronglySorted (JS.descending key) l ->
  StronglySorted (JS.descending key)
    (JS.insert_sorted (fun a b => (key b - key a)%Z) x l).
Proof.
  induction 1 as [|y l Hs IH Hy]; simpl.
  - repeat constructor.
  - destruct (Z.leb_spec (key y - key x) 0) as [Hle|Hgt].
    + constructor; [by constructor|].
      constructor; [unfold JS.descending; lia|].
      eapply Forall_impl; [exact Hy|].
      unfold JS.descending. simpl. intros; lia.
    + constructor; [done|].
      eapply Permutation_Forall;
        [symmetry; apply insert_sorted_perm|].
      constructor; [unfold JS.descending; lia | done].
Qed.

Lemma sort_descending l :
  StronglySorted (JS.descending key) (JS.sort (fun a b => (key b - key a)%Z) l).
Proof.
  induction l as [|x l IH]; simpl; [constructor|].
  by apply insert_sorted_descending.
Qed.

End SortDescending.

(** ** Facts about [filter] *)

Lemma filter_map_snd {A B : Type} (p : B -> bool) (l : list (A * B)) :
  List.map snd (List.filter (fun x => p x.2) l)
  = List.filter p (List.map snd l).
Proof.
  induction l as [|[a b] l IH]; simpl; [done|].
  destruct (p b); simpl; by rewrite IH.
Qed.

Lemma filter_filter {A : Type} (p q : A -> bool) (l : list A) :
  List.filter q (List.filter p l) = List.filter (fun x => p x && q x) l.
Proof.
  induction l as [|x l IH]; simpl; [done|].
  destruct (p x); simpl; [|done].
  destruct (q x); by rewrite IH.
Qed.

Lemma filter_true {A : Type} (l : list A) :
  List.filter (fun _ => true) l = l.
Proof. induction l as [|x l IH]; simpl; by rewrite ?IH. Qed.

Lemma filter_ext_eq {A : Type} (p q : A -> bool) (l : list A) :
  (forall x, p x = q x) -> List.filter p l = List.filter q l.
Proof.
  intros H. induction l as [|x l IH]; simpl; [done|].
  by rewrite H, IH.
Qed.

(** ** What [getArticles] returns *)

Section GetArticles.
Import JS.

Lemma objects_in_heap s : Forall (Trace.in_heap s) (MemStorage.objects s).
Proof.
  unfold MemStorage.objects.
  induction (values (MemStorage.articles s)) as [|r l IH]; simpl; [constructor|].
  destruct (MemStorage.heap s !! r) as [a|] eqn:E; simpl; [|done].
  by constructor.
Qed.

Lemma read_refs_in_heap s l :
  Forall (Trace.in_heap s) l -> Routes.read_refs s (List.map fst l) = List.map snd l.
Proof.
  induction 1 as [|[r a] l H _ IH]; simpl; [done|].
  unfold Trace.in_heap in H. simpl in H. unfold Routes.read_refs in *. simpl.
  rewrite H. simpl. by f_equal.
Qed.

Lemma Forall_list_filter {A : Type} (P : A -> Prop) (p : A -> bool) l :
  Forall P l -> Forall P (List.filter p l).
Proof.
  induction 1 as [|x l H _ IH]; simpl; [constructor|].
  destruct (p x); [by constructor | done].
Qed.

Lemma read_refs_all s :
  Routes.read_refs s (values (MemStorage.articles s)) = Trace.all_articles s.
Proof.
  unfold Routes.read_refs, Trace.all_articles, MemStorage.objects.
  induction (values (MemStorage.articles s)) as [|r l IH]; [done|].
  cbn. destruct (MemStorage.heap s !! r); cbn; [f_equal|]; exact IH.
Qed.

(** The articles a request gets are the stored ones that pass the
    parameters, sorted by the stable sort on the creation time. *)
Lemma getArticles_params p s :
  Routes.read_refs s (MemStorage.getArticles (Some p) s)
  = sort (fun a b => (Article.createdAt b - Article.createdAt a)%Z)
         (List.filter (Spec.matches p) (Trace.all_articles s)).
Proof.
  unfold MemStorage.getArticles, opt_chain.
  set (f1 := fun x : MemStorage.ref * Article.t => Spec.matches_query p x.2).
  set (f2 := fun x : MemStorage.ref * Article.t => Spec.matches_category p x.2).
  set (f3 := fun x : MemStorage.ref * Article.t => Spec.matches_published p x.2).
  set (f4 := fun x : MemStorage.ref * Article.t => Spec.matches_featured p x.2).
  assert (forall l,
    match SearchParams.query p with
    | Some q =>
        if truthy q then
          List.filter (fun x : MemStorage.ref * Article.t =>
            includes (toLowerCase (Article.title x.2)) (toLowerCase q)
            || includes (toLowerCase (Article.content x.2)) (toLowerCase q)
            || includes (toLowerCase (Article.author x.2)) (toLowerCase q)) l
        else l
    | None => l
    end = List.filter f1 l) as E1.
  { intros l. unfold f1, Spec.matches_query.
    destruct (SearchParams.query p) as [q|]; [|by rewrite filter_true].
    destruct (truthy q); [done | by rewrite filter_true]. }
  assert (forall l,
    match SearchParams.category p with
    | Some c =>
        if truthy c then
          List.filter (fun x : MemStorage.ref * Article.t =>
            String.eqb (toLowerCase (Article.category x.2)) (toLowerCase c)) l
        else l
    | None => l
    end = List.filter f2 l) as E2.
  { intros l. unfold f2, Spec.matches_category.
    destruct (SearchParams.category p) as [c|]; [|by rewrite filter_true].
    destruct (truthy c); [done | by rewrite filter_true]. }
  assert (forall l,
    match SearchParams.published p with
    | Some b =>
        List.filter (fun x : MemStorage.ref * Article.t =>
          strict_eq_bool (Article.published x.2) b) l
    | None => l
    end = List.filter f3 l) as E3.
  { intros l. unfold f3, Spec.matches_published.
    destruct (SearchParams.published p); [done | by rewrite filter_true]. }
  assert (forall l,
    match SearchParams.featured p with
    | Some b =>
        List.filter (fun x : MemStorage.ref * Article.t =>
          strict_eq_bool (Article.featured x.2) b) l
    | None => l
    end = List.filter f4 l) as E4.
  { intros l. unfold f4, Spec.matches_featured.
    destruct (SearchParams.featured p); [done | by rewrite filter_true]. }
  cbv zeta. rewrite E1, E2, E3, E4.
  rewrite read_refs_in_heap.
  2:{ eapply Permutation_Forall; [symmetry; apply sort_perm|].
      do 4 apply Forall_list_filter. apply objects_in_heap. }
  rewrite (sort_map (fun a b => (Article.createdAt b - Article.createdAt a)%Z) snd).
  f_equal. rewrite !filter_filter.
  unfold Trace.all_articles.
  rewrite <- (filter_map_snd (Spec.matches p)).
  f_equal. apply filter_ext_eq. intros [r a].
  unfold f1, f2, f3, f4, Spec.matches. simpl. by rewrite !andb_assoc.
Qed.

(** Without parameters every stored article is returned. *)
Lemma getArticles_all s :
  Routes.read_refs s (MemStorage.getArticles None s)
  = sort (fun a b => (Article.createdAt b - Article.createdAt a)%Z)
         (Trace.all_articles s).
Proof.
  unfold MemStorage.getArticles, opt_chain. cbv zeta.
  rewrite read_refs_in_heap.
  2:{ eapply Permutation_Forall; [symmetry; apply sort_perm|].
      apply objects_in_heap. }
  by rewrite (sort_map (fun a b => (Article.createdAt b - Article.createdAt a)%Z) snd).
Qed.

End GetArticles.

(** ** Filtering by the routes *)

Lemma GET_articles_response q s :
  Routes.GET_articles q s
  = Routes.mkResponse 200
      (Routes.Json_articles
         (JS.sort (fun a b => (Article.createdAt b - Article.createdAt a)%Z)
            (List.filter (Spec.matches (Routes.safeParams q))
                         (Trace.all_articles s)))).
Proof. unfold Routes.GET_articles. by rewrite getArticles_params. Qed.

Lemma GET_search_response q s : Routes.GET_search q s = Routes.GET_articles q s.
Proof. reflexivity. Qed.

Lemma strict_eq_bool_Some o b : strict_eq_bool o b = true <-> o = Some b.
Proof.
  destruct o as [x|]; simpl; [|split; discriminate].
  destruct x, b; simpl; split; congruence.
Qed.

(** C2. For every store, the request [category=Technology&published=true]
    is answered with exactly the stored articles whose category is
    "Technology" without regard to case and whose [published] flag is
    true (each as often as it is stored), newest first. *)
Theorem C2_category_and_published_filter (s : MemStorage.t) :
  let request :=
    Routes.mkQuery None (Some (JS.QStr "Technology"))
                   (Some (JS.QStr "true")) None in
  exists l,
    Routes.GET_articles request s
    = Routes.mkResponse 200 (Routes.Json_articles l)
    /\ Permutation l
         (List.filter
            (fun a =>
               String.eqb (JS.toLowerCase (Article.category a))
                          (JS.toLowerCase "Technology")
               && strict_eq_bool (Article.published a) true)
            (Trace.all_articles s))
    /\ (forall a,
          In a l <->
          In a (Trace.all_articles s)
          /\ JS.toLowerCase (Article.category a) = JS.toLowerCase "Technology"
          /\ Article.published a = Some true)
    /\ Spec.newest_first l.
Proof.
  intros request. eexists. split; [apply GET_articles_response|].
  assert (forall a, Spec.matches (Routes.safeParams request) a
            = String.eqb (JS.toLowerCase (Article.category a))
                         (JS.toLowerCase "Technology")
              && strict_eq_bool (Article.published a) true) as Hm.
  { intros a. unfold Spec.matches, Spec.matches_query, Spec.matches_category,
      Spec.matches_published, Spec.matches_featured. simpl.
    by rewrite andb_true_r. }
  rewrite (filter_ext_eq _ _ _ Hm).
  split; [apply sort_perm|]. split.
  - intros a. rewrite sort_In, filter_In, andb_true_iff, String.eqb_eq,
      strict_eq_bool_Some. tauto.
  - apply (sort_descending Article.createdAt).
Qed.

(** C10. In [GET /api/articles] and [GET /api/search], a [published] or
    [featured] parameter that is a string other than "true" becomes the
    boolean [false] and selects, among the articles the request would get
    without the parameter, those whose flag is [false]; without the
    parameter the flag is not looked at. *)
Theorem C10_flag_parameters_coerced (q : Routes.Query) (s : MemStorage.t)
    (str : string) :
  str <> "true" ->
  let given_p := Routes.with_published (Some (JS.QStr str)) q in
  let absent_p := Routes.with_published None q in
  let given_f := Routes.with_featured (Some (JS.QStr str)) q in
  let absent_f := Routes.with_featured None q in
  SearchParams.published (Routes.safeParams given_p) = Some false
  /\ SearchParams.published (Routes.safeParams absent_p) = None
  /\ SearchParams.featured (Routes.safeParams given_f) = Some false
  /\ SearchParams.featured (Routes.safeParams absent_f) = None
  /\ exists lp lp0 lf lf0,
       Routes.GET_articles given_p s
       = Routes.mkResponse 200 (Routes.Json_articles lp)
       /\ Routes.GET_search given_p s
          = Routes.mkResponse 200 (Routes.Json_articles lp)
       /\ Routes.GET_articles absent_p s
          = Routes.mkResponse 200 (Routes.Json_articles lp0)
       /\ Routes.GET_search absent_p s
          = Routes.mkResponse 200 (Routes.Json_articles lp0)
       /\ (forall a, In a lp <-> In a lp0 /\ Article.published a = Some false)
       /\ (forall a,
             In a lp0 <->
             In a (Trace.all_articles s)
             /\ Spec.matches_query (Routes.safeParams q) a = true
             /\ Spec.matches_category (Routes.safeParams q) a = true
             /\ Spec.matches_featured (Routes.safeParams q) a = true)
       /\ Routes.GET_articles given_f s
          = Routes.mkResponse 200 (Routes.Json_articles lf)
       /\ Routes.GET_search given_f s
          = Routes.mkResponse 200 (Routes.Json_articles lf)
       /\ Routes.GET_articles absent_f s
          = Routes.mkResponse 200 (Routes.Json_articles lf0)
       /\ Routes.GET_search absent_f s
          = Routes.mkResponse 200 (Routes.Json_articles lf0)
       /\ (forall a, In a lf <-> In a lf0 /\ Article.featured a = Some false)
       /\ (forall a,
             In a lf0 <->
             In a (Trace.all_articles s)
             /\ Spec.matches_query (Routes.safeParams q) a = true
             /\ Spec.matches_category (Routes.safeParams q) a = true
             /\ Spec.matches_published (Routes.safeParams q) a = true).
Proof.
  intros Hstr given_p absent_p given_f absent_f.
  assert (String.eqb str "true" = false) as Hf by by apply String.eqb_neq.
  assert (SearchParams.published (Routes.safeParams given_p) = Some false) as Hp.
  { unfold given_p, Routes.safeParams. simpl. by rewrite Hf. }
  assert (SearchParams.featured (Routes.safeParams given_f) = Some false) as Hq.
  { unfold given_f, Routes.safeParams. simpl. by rewrite Hf. }
  split_and!; try done.
  do 4 eexists.
  unfold Routes.GET_search, Routes.GET_articles.
  rewrite !getArticles_params.
  split_and!; try reflexivity.
  - intros a. rewrite !sort_In, !filter_In.
    unfold Spec.matches, Spec.matches_published. rewrite Hp.
    rewrite !andb_true_iff, strict_eq_bool_Some.
    unfold Spec.matches_query, Spec.matches_category, Spec.matches_featured.
    simpl. tauto.
  - intros a. rewrite sort_In, filter_In.
    unfold Spec.matches. rewrite !andb_true_iff.
    unfold Spec.matches_query, Spec.matches_category, Spec.matches_published,
      Spec.matches_featured. simpl. tauto.
  - intros a. rewrite !sort_In, !filter_In.
    unfold Spec.matches, Spec.matches_featured. rewrite Hq.
    rewrite !andb_true_iff, strict_eq_bool_Some.
    unfold Spec.matches_query, Spec.matches_category, Spec.matches_published.
    simpl. tauto.
  - intros a. rewrite sort_In, filter_In.
    unfold Spec.matches. rewrite !andb_true_iff.
    unfold Spec.matches_query, Spec.matches_category, Spec.matches_published,
      Spec.matches_featured. simpl. tauto.
Qed.

(** ** The shape of the store *)

Section StoreFacts.
Import JS.
Implicit Types (s : MemStorage.t) (id : string) (r : MemStorage.ref).

Lemma get_values {V : Type} (m : Map V) k (v : V) :
  get k m = Some v -> v ∈ values m.
Proof.
  induction m as [|[k' v'] m IH]; simpl; [discriminate|].
  destruct (String.eqb k k').
  - intros [= ->]. left.
  - intros H. right. auto.
Qed.

Lemma get_same_value {V : Type} (m : Map V) k k' (v : V) :
  NoDup (values m) -> get k m = Some v -> get k' m = Some v -> k = k'.
Proof.
  induction m as [|[k0 v0] m IH]; simpl; [discriminate|].
  intros Hnd. apply NoDup_cons in Hnd as [Hv Hnd].
  destruct (String.eqb_spec k k0) as [->|Hne];
    destruct (String.eqb_spec k' k0) as [->|Hne']; try done.
  - intros [= ->] H. exfalso. apply Hv. by eapply get_values.
  - intros H [= ->]. exfalso. apply Hv. by eapply get_values.
  - auto.
Qed.

Lemma lookup_Some s id a :
  Trace.lookup s id = Some a <->
  exists r, get id (MemStorage.articles s) = Some r
            /\ MemStorage.heap s !! r = Some a.
Proof.
  unfold Trace.lookup, MemStorage.get_object.
  destruct (get id (MemStorage.articles s)) as [r|].
  - destruct (MemStorage.heap s !! r) as [a'|] eqn:E.
    + split; [intros [= ->]; eauto | intros (r' & [= <-] & H); congruence].
    + split; [discriminate | intros (r' & [= <-] & H); congruence].
  - split; [discriminate | intros (r' & H & _); discriminate].
Qed.

Lemma get_object_lookup s id :
  Trace.lookup s id = None <-> MemStorage.get_object id s = None.
Proof.
  unfold Trace.lookup. destruct (MemStorage.get_object id s) as [[r a]|];
    split; congruence.
Qed.

Lemma lookup_None_keys s id :
  Trace.wf s ->
  Trace.lookup s id = None <-> id ∉ keys (MemStorage.articles s).
Proof.
  intros Hwf. rewrite <- get_None_keys.
  unfold Trace.lookup, MemStorage.get_object.
  destruct (get id (MemStorage.articles s)) as [r|] eqn:E; [|done].
  assert (r < length (MemStorage.heap s))%nat as Hr.
  { pose proof (Trace.wf_bound _ Hwf) as Hb.
    rewrite Forall_forall in Hb. apply Hb. by eapply get_values. }
  apply lookup_lt_is_Some in Hr as [a Ha]. rewrite Ha. split; discriminate.
Qed.

Lemma poke_articles s id r a' :
  get id (MemStorage.articles s) = Some r ->
  MemStorage.articles (Trace.poke id r a' s) = MemStorage.articles s.
Proof. intros H. simpl. by apply set_present. Qed.

Lemma wf_poke s id r a' :
  Trace.wf s -> get id (MemStorage.articles s) = Some r ->
  Trace.wf (Trace.poke id r a' s).
Proof.
  intros [H1 H2 H3 H4 H5] Hg. constructor; simpl;
    rewrite ?(set_present _ _ _ Hg), ?length_insert; done.
Qed.

Lemma lookup_poke_eq s id r a a' :
  get id (MemStorage.articles s) = Some r ->
  MemStorage.heap s !! r = Some a ->
  Trace.lookup (Trace.poke id r a' s) id = Some a'.
Proof.
  intros Hg Ha. apply lookup_Some. exists r. simpl.
  rewrite (set_present _ _ _ Hg). split; [done|].
  apply list_lookup_insert_eq. by eapply lookup_lt_Some.
Qed.

Lemma lookup_poke_ne s id id' r a' :
  Trace.wf s -> get id (MemStorage.articles s) = Some r -> id' <> id ->
  Trace.lookup (Trace.poke id r a' s) id' = Trace.lookup s id'.
Proof.
  intros Hwf Hg Hne. unfold Trace.lookup, MemStorage.get_object. simpl.
  rewrite (set_present _ _ _ Hg).
  destruct (get id' (MemStorage.articles s)) as [r'|] eqn:E; [|done].
  rewrite list_lookup_insert_ne; [done|].
  intros ->. apply Hne. eapply get_same_value; eauto using Trace.wf_refs.
Qed.

(** A new object under [id]. *)
Lemma wf_store_new s id a :
  Trace.wf s -> Trace.wf (MemStorage.store_new id a s).2.
Proof.
  intros [H1 H2 H3 H4 H5]. constructor; simpl; try done.
  - by apply NoDup_keys_set.
  - apply NoDup_values_set; [|done].
    intros Hin. rewrite Forall_forall in H3. apply H3 in Hin. lia.
  - rewrite Forall_forall in *. intros r Hr. rewrite length_app. simpl.
    apply values_set_elem in Hr as [->|Hr]; [lia|].
    apply H3 in Hr. lia.
Qed.

Lemma lookup_store_new_eq s id a :
  Trace.lookup (MemStorage.store_new id a s).2 id = Some a.
Proof.
  apply lookup_Some. exists (length (MemStorage.heap s)). simpl.
  split; [apply get_set_eq|].
  rewrite lookup_app_r by lia. by rewrite Nat.sub_diag.
Qed.

Lemma lookup_store_new_ne s id id' a :
  Trace.wf s -> id' <> id ->
  Trace.lookup (MemStorage.store_new id a s).2 id' = Trace.lookup s id'.
Proof.
  intros Hwf Hne. unfold Trace.lookup, MemStorage.get_object. simpl.
  rewrite get_set_ne by done.
  destruct (get id' (MemStorage.articles s)) as [r'|] eqn:E; [|done].
  assert (r' < length (MemStorage.heap s))%nat as Hr.
  { pose proof (Trace.wf_bound _ Hwf) as Hb.
    rewrite Forall_forall in Hb. apply Hb. by eapply get_values. }
  by rewrite lookup_app_l.
Qed.

Lemma keys_store_new s id a :
  keys (MemStorage.articles (MemStorage.store_new id a s).2)
  = if decide (id ∈ keys (MemStorage.articles s))
    then keys (MemStorage.articles s)
    else keys (MemStorage.articles s) ++ [id].
Proof.
  simpl. case_decide.
  - by apply keys_set_present.
  - by apply keys_set_absent.
Qed.

(** Removing the entry of [id]. *)
Lemma wf_deleteArticle s id :
  Trace.wf s -> Trace.wf (MemStorage.deleteArticle id s).2.
Proof.
  intros [H1 H2 H3 H4 H5]. constructor; simpl; try done.
  - exact (sublist_NoDup _ _ H1 (keys_remove_sublist _ _)).
  - exact (sublist_NoDup _ _ H2 (values_remove_sublist _ _)).
  - rewrite Forall_forall in *. intros r Hr. apply H3.
    eapply elem_of_sublist; [done | apply values_remove_sublist].
Qed.

End StoreFacts.

Section StoreSteps.
Import JS.
Implicit Types (s : MemStorage.t) (id : string).

Lemma lookup_deleteArticle_eq s id :
  Trace.wf s -> Trace.lookup (MemStorage.deleteArticle id s).2 id = None.
Proof.
  intros Hwf. apply lookup_None_keys; [by apply wf_deleteArticle|].
  simpl. apply keys_remove_gone, Hwf.
Qed.

Lemma lookup_deleteArticle_ne s id id' :
  id' <> id ->
  Trace.lookup (MemStorage.deleteArticle id s).2 id' = Trace.lookup s id'.
Proof.
  intros Hne. unfold Trace.lookup, MemStorage.get_object. simpl.
  by rewrite get_remove_ne.
Qed.

Lemma deleteArticle_absent s id :
  id ∉ keys (MemStorage.articles s) ->
  MemStorage.deleteArticle id s = (false, s).
Proof.
  intros H. unfold MemStorage.deleteArticle, delete.
  rewrite remove_absent by done.
  assert (has id (MemStorage.articles s) = false) as ->.
  { destruct (has id (MemStorage.articles s)) eqn:E; [|done].
    apply has_true_keys in E. done. }
  by destruct s.
Qed.

(** The methods on articles in terms of [store_new] and [Trace.poke]. *)
Lemma incrementViews_poke s id r a :
  MemStorage.get_object id s = Some (r, a) ->
  MemStorage.incrementViews id s
  = Trace.poke id r (Article.set_views (num_or (Article.views a) 0 + 1) a) s.
Proof. intros H. unfold MemStorage.incrementViews. by rewrite H. Qed.

Lemma toggleLike_poke s id r a :
  MemStorage.get_object id s = Some (r, a) ->
  MemStorage.toggleLike id s
  = (Some r, Trace.poke id r (Article.set_likes (num_or (Article.likes a) 0 + 1) a) s).
Proof. intros H. unfold MemStorage.toggleLike. by rewrite H. Qed.

Lemma updateArticle_store_new s id now updates r a :
  MemStorage.get_object id s = Some (r, a) ->
  MemStorage.updateArticle now id updates s
  = (Some (length (MemStorage.heap s)),
     (MemStorage.store_new id (MemStorage.spread_updates a updates now) s).2).
Proof. intros H. unfold MemStorage.updateArticle. by rewrite H. Qed.

Lemma get_object_Some s id r a :
  MemStorage.get_object id s = Some (r, a) <->
  get id (MemStorage.articles s) = Some r /\ MemStorage.heap s !! r = Some a.
Proof.
  unfold MemStorage.get_object.
  destruct (get id (MemStorage.articles s)) as [r'|].
  - destruct (MemStorage.heap s !! r') as [a'|] eqn:E.
    + split; [intros [= -> ->]; done | intros [[= ->] H]; congruence].
    + split; [discriminate | intros [[= ->] H]; congruence].
  - split; [discriminate | intros [H _]; discriminate].
Qed.

Lemma get_object_lookup_Some s id a :
  Trace.lookup s id = Some a <-> exists r, MemStorage.get_object id s = Some (r, a).
Proof.
  unfold Trace.lookup. destruct (MemStorage.get_object id s) as [[r a']|].
  - split; [intros [= ->]; eauto | intros [r' [= _ ->]]; done].
  - split; [discriminate | intros [r' H]; discriminate].
Qed.

Lemma wf_exec op s : Trace.wf s -> Trace.wf (Trace.exec op s).
Proof.
  intros Hwf. destruct op; simpl.
  - by apply wf_store_new.
  - unfold MemStorage.updateArticle.
    destruct (MemStorage.get_object id s) as [[r a]|]; [|done].
    by apply (wf_store_new s id).
  - by apply wf_deleteArticle.
  - unfold MemStorage.incrementViews.
    destruct (MemStorage.get_object id s) as [[r a]|] eqn:E; [|done].
    apply get_object_Some in E as [E _]. by apply (wf_poke s id r).
  - unfold MemStorage.toggleLike.
    destruct (MemStorage.get_object id s) as [[r a]|] eqn:E; [|done].
    apply get_object_Some in E as [E _]. by apply (wf_poke s id r).
  - destruct Hwf as [H1 H2 H3 H4 H5]. constructor; simpl; try done.
    by apply NoDup_keys_set.
  - destruct Hwf as [H1 H2 H3 H4 H5]. constructor; simpl; try done.
    exact (sublist_NoDup _ _ H4 (keys_remove_sublist _ _)).
  - destruct Hwf as [H1 H2 H3 H4 H5]. constructor; simpl; try done.
    by apply NoDup_keys_set.
  - unfold MemStorage.updateCategory.
    destruct (get id (MemStorage.categories s)); [|done].
    destruct Hwf as [H1 H2 H3 H4 H5]. constructor; simpl; try done.
    by apply NoDup_keys_set.
  - destruct Hwf as [H1 H2 H3 H4 H5]. constructor; simpl; try done.
    exact (sublist_NoDup _ _ H5 (keys_remove_sublist _ _)).
Qed.

Lemma wf_run ops s : Trace.wf s -> Trace.wf (Trace.run ops s).
Proof.
  revert s. induction ops as [|op ops IH]; intros s Hwf; simpl; [done|].
  apply IH. by apply wf_exec.
Qed.

Lemma wf_empty : Trace.wf MemStorage.empty.
Proof. constructor; simpl; try constructor. Qed.

Lemma fold_left_invariant {X : Type} (P : MemStorage.t -> Prop)
    (f : MemStorage.t -> X -> MemStorage.t) (l : list X) s :
  (forall st x, P st -> P (f st x)) -> P s -> P (List.fold_left f l s).
Proof.
  intros Hf. revert s. induction l as [|x l IH]; intros s Hs; simpl; auto.
Qed.

Lemma wf_seedData uuid clock s :
  Trace.wf s -> Trace.wf (MemStorage.seedData uuid clock s).
Proof.
  intros Hwf. unfold MemStorage.seedData.
  generalize (combine (seq 0 (length MemStorage.seedCategories))
                      MemStorage.seedCategories).
  generalize (combine (seq 0 (length MemStorage.sampleArticles))
                      MemStorage.sampleArticles).
  generalize (length MemStorage.seedCategories).
  intros n arts cats.
  apply (fold_left_invariant Trace.wf).
  { intros st [j art] Hst. apply wf_store_new, Hst. }
  apply (fold_left_invariant Trace.wf); [|exact Hwf].
  intros st [i cat] [H1 H2 H3 H4 H5]. constructor; simpl; try assumption.
  apply NoDup_keys_set, H5.
Qed.

Lemma reachable_wf s : Trace.reachable s -> Trace.wf s.
Proof.
  induction 1 as [uuid clock|op s _ IH].
  - exact (wf_seedData uuid clock MemStorage.empty wf_empty).
  - by apply wf_exec.
Qed.

End StoreSteps.

(** ** The counters of the stored articles *)

Section Counters.
Import JS.
Implicit Types (s : MemStorage.t) (id : string).

Lemma counters_ok_alt s :
  Trace.counters_ok s <-> forall id a, Trace.lookup s id = Some a -> Trace.counters_of a.
Proof. reflexivity. Qed.

Lemma counters_store_new s id a :
  Trace.wf s -> Trace.counters_ok s -> Trace.counters_of a ->
  Trace.counters_ok (MemStorage.store_new id a s).2.
Proof.
  intros Hwf Hok Ha id' a' Hl.
  destruct (decide (id' = id)) as [->|Hne].
  - rewrite lookup_store_new_eq in Hl. by injection Hl as <-.
  - rewrite lookup_store_new_ne in Hl by done. eauto.
Qed.

Lemma counters_poke s id r a' :
  Trace.wf s -> Trace.counters_ok s ->
  get id (MemStorage.articles s) = Some r -> Trace.counters_of a' ->
  Trace.counters_ok (Trace.poke id r a' s).
Proof.
  intros Hwf Hok Hg Ha id' a Hl.
  destruct (decide (id' = id)) as [->|Hne].
  - apply lookup_Some in Hl as (r' & Hr' & Hh). simpl in Hr', Hh.
    rewrite (set_present _ _ _ Hg) in Hr'.
    assert (r' = r) as -> by congruence.
    assert (r < length (MemStorage.heap s))%nat as Hlt.
    { apply lookup_lt_Some in Hh. by rewrite length_insert in Hh. }
    rewrite list_lookup_insert_eq in Hh by done. by injection Hh as <-.
  - rewrite lookup_poke_ne in Hl by done. eauto.
Qed.

Lemma num_or_counter v : (0 <= v)%Z -> num_or (Some v) 0 = v.
Proof. intros _. simpl. destruct (Z.eqb_spec v 0); congruence. Qed.

Lemma counters_exec op s :
  Trace.wf s -> Trace.counters_ok s -> Trace.counters_ok (Trace.exec op s).
Proof.
  intros Hwf Hok. destruct op; cbn [Trace.exec]; try exact Hok.
  - apply counters_store_new; try done.
    exists 0%Z, 0%Z. simpl. split_and!; done.
  - unfold MemStorage.updateArticle.
    destruct (MemStorage.get_object id s) as [[r a]|] eqn:E; [|done].
    apply (counters_store_new s id); try done.
    assert (Trace.lookup s id = Some a) as Hl
      by (apply get_object_lookup_Some; eauto).
    destruct (Hok _ _ Hl) as (v & l & ? & ? & ? & ?).
    exists v, l. simpl. split_and!; done.
  - intros id' a Hl. destruct (decide (id' = id)) as [->|Hne].
    + by rewrite lookup_deleteArticle_eq in Hl.
    + rewrite lookup_deleteArticle_ne in Hl by done. eauto.
  - destruct (MemStorage.get_object id s) as [[r a]|] eqn:E.
    2:{ unfold MemStorage.incrementViews. by rewrite E. }
    rewrite (incrementViews_poke _ _ _ _ E).
    assert (Trace.lookup s id = Some a) as Hl
      by (apply get_object_lookup_Some; eauto).
    destruct (Hok _ _ Hl) as (v & l & Hv & ? & ? & ?).
    apply get_object_Some in E as [E _].
    apply counters_poke; try done.
    exists (v + 1)%Z, l. rewrite Hv, num_or_counter by done.
    simpl. split_and!; try done. lia.
  - destruct (MemStorage.get_object id s) as [[r a]|] eqn:E.
    2:{ unfold MemStorage.toggleLike. by rewrite E. }
    rewrite (toggleLike_poke _ _ _ _ E). cbn [snd].
    assert (Trace.lookup s id = Some a) as Hl
      by (apply get_object_lookup_Some; eauto).
    destruct (Hok _ _ Hl) as (v & l & ? & Hlk & ? & ?).
    apply get_object_Some in E as [E _].
    apply counters_poke; try done.
    exists v, (l + 1)%Z. rewrite Hlk, num_or_counter by done.
    simpl. split_and!; try done. lia.
  - unfold MemStorage.updateCategory.
    destruct (get id (MemStorage.categories s)); exact Hok.
Qed.

Lemma sampleArticles_counters :
  Forall (fun f : string -> Z -> Article.t => forall id now, Trace.counters_of (f id now))
         MemStorage.sampleArticles.
Proof.
  unfold MemStorage.sampleArticles.
  repeat (apply Forall_cons; split;
          [intros id now; eexists _, _;
           cbn [Article.views Article.likes];
           split; [reflexivity|]; split; [reflexivity|]; split; lia|]).
  apply Forall_nil. done.
Qed.

Lemma Forall_combine_r {X Y : Type} (P : Y -> Prop) (l : list X) (k : list Y) :
  Forall P k -> Forall (fun p : X * Y => P p.2) (combine l k).
Proof.
  intros Hk. revert l. induction Hk as [|y k Hy _ IH]; intros [|x l]; simpl;
    try constructor; auto.
Qed.

Lemma fold_left_invariant_Forall {X : Type} (P : MemStorage.t -> Prop)
    (Q : X -> Prop) (f : MemStorage.t -> X -> MemStorage.t) (l : list X) s :
  (forall st x, Q x -> P st -> P (f st x)) -> Forall Q l -> P s ->
  P (List.fold_left f l s).
Proof.
  intros Hf Hl. revert s. induction Hl as [|x l Hx _ IH]; intros s Hs; simpl;
    auto.
Qed.

Lemma counters_seedData uuid clock s :
  Trace.wf s -> Trace.counters_ok s ->
  Trace.wf (MemStorage.seedData uuid clock s)
  /\ Trace.counters_ok (MemStorage.seedData uuid clock s).
Proof.
  intros Hwf Hok. unfold MemStorage.seedData.
  pose proof (Forall_combine_r _ (seq 0 (length MemStorage.sampleArticles)) _
                sampleArticles_counters) as Harts.
  revert Harts.
  generalize (combine (seq 0 (length MemStorage.seedCategories))
                      MemStorage.seedCategories).
  generalize (combine (seq 0 (length MemStorage.sampleArticles))
                      MemStorage.sampleArticles).
  generalize (length MemStorage.seedCategories).
  intros n arts cats Harts.
  eapply (fold_left_invariant_Forall
            (fun st => Trace.wf st /\ Trace.counters_ok st));
    [|exact Harts|].
  2:{ apply (fold_left_invariant
             (fun st => Trace.wf st /\ Trace.counters_ok st)); [|done].
    intros st [i cat] [[H1 H2 H3 H4 H5] Hc]. split; [|exact Hc].
    constructor; simpl; try assumption. apply NoDup_keys_set, H5. }
  cbv beta. intros st [j art] Hart [Hst Hc]. split.
  - apply wf_store_new, Hst.
  - apply counters_store_new; try assumption. apply Hart.
Qed.

Lemma reachable_counters s : Trace.reachable s -> Trace.counters_ok s.
Proof.
  induction 1 as [uuid clock|op s Hr IH].
  - refine (proj2 (counters_seedData uuid clock MemStorage.empty wf_empty _)).
    intros id a Hl. discriminate.
  - apply counters_exec; [by apply reachable_wf | done].
Qed.

End Counters.

(** ** Fetching one article *)

Section FetchArticle.
Import JS.
Implicit Types (s : MemStorage.t) (id : string).

Lemma GET_article_absent s id :
  Trace.lookup s id = None ->
  Routes.GET_article id s
  = (Routes.mkResponse 404 (Routes.Json_error "Article not found"), s).
Proof.
  intros H. apply get_object_lookup in H.
  unfold Routes.GET_article, MemStorage.getArticle. by rewrite H.
Qed.

(** The response carries the object as it is after the increment, which
    is also what the store holds. *)
Lemma GET_article_present s id a v :
  Trace.wf s -> Trace.lookup s id = Some a ->
  Article.views a = Some v -> (0 <= v)%Z ->
  exists r,
    get id (MemStorage.articles s) = Some r
    /\ Routes.GET_article id s
       = (Routes.mkResponse 200
            (Routes.Json_article (Article.set_views (v + 1) a)),
          Trace.poke id r (Article.set_views (v + 1) a) s).
Proof.
  intros Hwf Hl Hv Hv0.
  apply get_object_lookup_Some in Hl as [r Hobj].
  pose proof Hobj as Hobj'. apply get_object_Some in Hobj' as [Hg Hh].
  exists r. split; [done|].
  unfold Routes.GET_article, MemStorage.getArticle. rewrite Hobj.
  rewrite (incrementViews_poke _ _ _ _ Hobj), Hv, num_or_counter by done.
  unfold Routes.json_ref, Trace.poke at 1. cbn [MemStorage.heap].
  rewrite list_lookup_insert_eq; [done|]. by eapply lookup_lt_Some.
Qed.

(** C3. In every state of the store, [GET /api/articles/:id] for an id
    that is not stored answers 404 and leaves the store as it is. For an
    id that is stored it answers 200 with the article as it is stored
    afterwards: its views counter is one more than the counter stored
    before and its other properties are as before. Every other article
    is as before, and so are the keys of the articles, the comments and
    the categories. *)
Theorem C3_fetch_counts_one_view (s : MemStorage.t) (id : string) :
  Trace.reachable s ->
  (Trace.lookup s id = None ->
   Routes.GET_article id s
   = (Routes.mkResponse 404 (Routes.Json_error "Article not found"), s))
  /\ (forall a,
        Trace.lookup s id = Some a ->
        exists a' s' v,
          Routes.GET_article id s
          = (Routes.mkResponse 200 (Routes.Json_article a'), s')
          /\ Article.views a = Some v
          /\ Trace.lookup s' id = Some a'
          /\ Article.views a' = Some (v + 1)%Z
          /\ Article.id a' = Article.id a
          /\ Article.title a' = Article.title a
          /\ Article.content a' = Article.content a
          /\ Article.excerpt a' = Article.excerpt a
          /\ Article.author a' = Article.author a
          /\ Article.authorTitle a' = Article.authorTitle a
          /\ Article.authorImage a' = Article.authorImage a
          /\ Article.category a' = Article.category a
          /\ Article.tags a' = Article.tags a
          /\ Article.imageUrl a' = Article.imageUrl a
          /\ Article.published a' = Article.published a
          /\ Article.featured a' = Article.featured a
          /\ Article.likes a' = Article.likes a
          /\ Article.createdAt a' = Article.createdAt a
          /\ Article.updatedAt a' = Article.updatedAt a
          /\ (forall id', id' <> id -> Trace.lookup s' id' = Trace.lookup s id')
          /\ MemStorage.articles s' = MemStorage.articles s
          /\ MemStorage.comments s' = MemStorage.comments s
          /\ MemStorage.categories s' = MemStorage.categories s).
Proof.
  intros Hr. split; [apply GET_article_absent|].
  intros a Hl.
  pose proof (reachable_wf _ Hr) as Hwf.
  destruct (reachable_counters _ Hr _ _ Hl) as (v & l & Hv & _ & Hv0 & _).
  destruct (GET_article_present _ _ _ _ Hwf Hl Hv Hv0) as (r & Hg & Heq).
  pose proof Hl as Hl'. apply lookup_Some in Hl' as (r' & Hg' & Hh).
  assert (r' = r) as -> by congruence.
  eexists _, _, v. split; [exact Heq|]. split_and!; try done.
  - by eapply lookup_poke_eq.
  - intros id' Hne. by apply lookup_poke_ne.
  - by apply poke_articles.
Qed.

End FetchArticle.

Section FetchTwice.
Import JS.
Implicit Types (s : MemStorage.t) (id : string).

Lemma set_views_twice v w a :
  Article.set_views w (Article.set_views v a) = Article.set_views w a.
Proof. reflexivity. Qed.

(** C9 (counterexample). On the seeded store the first article has 1250
    views; the response to its fetch carries 1251, not the article as it
    was read. *)
Lemma C9_response_is_not_the_article_read :
  ~ Spec.response_precedes_increment Examples.seeded "uuid-h".
Proof.
  intros H.
  destruct (Trace.lookup Examples.seeded "uuid-h") as [a|] eqn:Hl;
    [|vm_compute in Hl; discriminate].
  destruct (H a Hl) as (b & s' & a' & v & Heq & Hb & _).
  assert (Article.views <$> Trace.lookup Examples.seeded "uuid-h"
          = Some (Some 1250%Z)) as Hbefore by (vm_compute; reflexivity).
  assert (match Routes.body (fst (Routes.GET_article "uuid-h" Examples.seeded)) with
          | Routes.Json_article x => Article.views x
          | _ => None
          end = Some 1251%Z) as Hsent by (vm_compute; reflexivity).
  rewrite Hl in Hbefore. rewrite Heq in Hsent. simpl in Hbefore, Hsent.
  subst b. congruence.
Qed.

(** C9 (amended). In every state of the store, the article sent by
    [GET /api/articles/:id] for a stored id is the stored article after
    the request has counted its view: its views field is one more than
    the value stored before the call and equal to the value stored after
    it; the next fetch of the same id sends a value one higher again. *)
Theorem C9_response_carries_counted_view (s : MemStorage.t) (id : string)
    (a : Article.t) (v : Z) :
  Trace.reachable s ->
  Trace.lookup s id = Some a ->
  Article.views a = Some v ->
  exists s' s'',
    Routes.GET_article id s
    = (Routes.mkResponse 200
         (Routes.Json_article (Article.set_views (v + 1) a)), s')
    /\ Trace.lookup s' id = Some (Article.set_views (v + 1) a)
    /\ Routes.GET_article id s'
       = (Routes.mkResponse 200
            (Routes.Json_article (Article.set_views (v + 2) a)), s'')
    /\ Trace.lookup s'' id = Some (Article.set_views (v + 2) a).
Proof.
  intros Hr Hl Hv.
  pose proof (reachable_wf _ Hr) as Hwf.
  destruct (reachable_counters _ Hr _ _ Hl) as (v0 & l & Hv' & _ & Hv0 & _).
  assert (v0 = v) as -> by congruence.
  destruct (GET_article_present _ _ _ _ Hwf Hl Hv Hv0) as (r & Hg & Heq).
  pose proof Hl as Hl'. apply lookup_Some in Hl' as (r' & Hg' & Hh).
  assert (r' = r) as -> by congruence.
  set (a1 := Article.set_views (v + 1) a) in *.
  set (s1 := Trace.poke id r a1 s) in *.
  assert (Trace.wf s1) as Hwf1 by by apply wf_poke.
  assert (Trace.lookup s1 id = Some a1) as Hl1 by by eapply lookup_poke_eq.
  assert (Article.views a1 = Some (v + 1)%Z) as Hv1 by reflexivity.
  destruct (GET_article_present _ _ _ _ Hwf1 Hl1 Hv1 ltac:(lia))
    as (r1 & Hg1 & Heq1).
  pose proof Hl1 as Hl1'. apply lookup_Some in Hl1' as (r1' & Hg1' & Hh1).
  assert (r1' = r1) as -> by congruence.
  replace (v + 1 + 1)%Z with (v + 2)%Z in Heq1 by lia.
  unfold a1 in Heq1 at 1 2. rewrite !set_views_twice in Heq1.
  exists s1, (Trace.poke id r1 (Article.set_views (v + 2) a) s1).
  split_and!; try done.
  by eapply lookup_poke_eq.
Qed.

End FetchTwice.

(** ** Updates and deletions *)

Section UpdateDelete.
Import JS.
Implicit Types (s : MemStorage.t) (id : string).

Lemma delete_spec {V : Type} (m : Map V) k :
  NoDup (keys m) ->
  ((fst (delete k m)) = true <-> k ∈ keys m)
  /\ (k ∉ keys (snd (delete k m)))
  /\ (forall k', k' <> k -> get k' (snd (delete k m)) = get k' m)
  /\ ((fst (delete k m)) = false -> (snd (delete k m)) = m).
Proof.
  intros Hnd. unfold delete. simpl. split_and!.
  - apply has_true_keys.
  - by apply keys_remove_gone.
  - intros k' Hne. by apply get_remove_ne.
  - intros Hf. apply remove_absent. intros Hin.
    apply has_true_keys in Hin. congruence.
Qed.

Lemma updateArticle_absent s id now updates :
  Trace.lookup s id = None ->
  MemStorage.updateArticle now id updates s = (None, s).
Proof.
  intros H. apply get_object_lookup in H.
  unfold MemStorage.updateArticle. by rewrite H.
Qed.

(** C8. In every state of the store and for every id that is not
    stored, [updateArticle] returns [undefined] and changes nothing, and
    [PUT /api/articles/:id] with a body that passes the schema of an
    update answers 404 "Article not found" and changes nothing; a body
    that the schema refuses is answered 400 before the store is asked,
    and changes nothing either. [deleteArticle], [deleteComment] and
    [deleteCategory] return [true] exactly when the id is a key of their
    map; afterwards the id is not a key, the other entries are as before,
    and when [false] is returned the store is as before. *)
Theorem C8_missing_id_and_deletes (s : MemStorage.t) (missing id : string)
    (now : Z) :
  Trace.reachable s ->
  Trace.lookup s missing = None ->
  (forall updates,
     MemStorage.updateArticle now missing updates s = (None, s))
  /\ (forall body updates,
        Zod.parse Zod.insertArticleSchema_partial body = inr updates ->
        Routes.PUT_article now missing body s
        = (Routes.mkResponse 404 (Routes.Json_error "Article not found"), s))
  /\ (forall body errors,
        Zod.parse Zod.insertArticleSchema_partial body = inl errors ->
        Routes.PUT_article now missing body s
        = (Routes.mkResponse 400
             (Routes.Json_invalid "Invalid article data" errors), s))
  /\ (((fst (MemStorage.deleteArticle id s)) = true
       <-> id ∈ keys (MemStorage.articles s))
      /\ (id ∉ keys (MemStorage.articles (snd (MemStorage.deleteArticle id s))))
      /\ Trace.lookup (snd (MemStorage.deleteArticle id s)) id = None
      /\ (forall id', id' <> id ->
            Trace.lookup (snd (MemStorage.deleteArticle id s)) id'
            = Trace.lookup s id')
      /\ ((fst (MemStorage.deleteArticle id s)) = false ->
          (snd (MemStorage.deleteArticle id s)) = s))
  /\ (((fst (MemStorage.deleteComment id s)) = true
       <-> id ∈ keys (MemStorage.comments s))
      /\ (id ∉ keys (MemStorage.comments (snd (MemStorage.deleteComment id s))))
      /\ (forall id', id' <> id ->
            get id' (MemStorage.comments (snd (MemStorage.deleteComment id s)))
            = get id' (MemStorage.comments s))
      /\ ((fst (MemStorage.deleteComment id s)) = false ->
          (snd (MemStorage.deleteComment id s)) = s))
  /\ (((fst (MemStorage.deleteCategory id s)) = true
       <-> id ∈ keys (MemStorage.categories s))
      /\ (id ∉ keys (MemStorage.categories (snd (MemStorage.deleteCategory id s))))
      /\ (forall id', id' <> id ->
            get id' (MemStorage.categories (snd (MemStorage.deleteCategory id s)))
            = get id' (MemStorage.categories s))
      /\ ((fst (MemStorage.deleteCategory id s)) = false ->
          (snd (MemStorage.deleteCategory id s)) = s)).
Proof.
  intros Hr Hmiss. pose proof (reachable_wf _ Hr) as Hwf.
  split; [intros; by apply updateArticle_absent|].
  split.
  { intros body updates Hp. unfold Routes.PUT_article. rewrite Hp.
    by rewrite updateArticle_absent. }
  split.
  { intros body errors Hp. unfold Routes.PUT_article. by rewrite Hp. }
  destruct (delete_spec (MemStorage.articles s) id (Trace.wf_keys _ Hwf))
    as (A1 & A2 & A3 & A4).
  destruct (delete_spec (MemStorage.comments s) id (Trace.wf_comments _ Hwf))
    as (B1 & B2 & B3 & B4).
  destruct (delete_spec (MemStorage.categories s) id
              (Trace.wf_categories _ Hwf)) as (C1 & C2 & C3 & C4).
  split_and!; try done.
  - by apply lookup_deleteArticle_eq.
  - intros id' Hne. by apply lookup_deleteArticle_ne.
  - intros Hf. unfold MemStorage.deleteArticle in *. simpl in *.
    rewrite (A4 Hf). by destruct s.
  - intros Hf. unfold MemStorage.deleteComment in *. simpl in *.
    rewrite (B4 Hf). by destruct s.
  - intros Hf. unfold MemStorage.deleteCategory in *. simpl in *.
    rewrite (C4 Hf). by destruct s.
Qed.

End UpdateDelete.

(** ** Counting views and likes along a run *)

Section CountersAlongRuns.
Import JS.
Implicit Types (s : MemStorage.t) (id : string) (ops : list Trace.Op).

Lemma count_views_cons id op ops :
  Trace.count_views id (op :: ops)
  = (Trace.count_views id [op] + Trace.count_views id ops)%Z.
Proof. destruct op; simpl; lia. Qed.

Lemma count_likes_cons id op ops :
  Trace.count_likes id (op :: ops)
  = (Trace.count_likes id [op] + Trace.count_likes id ops)%Z.
Proof. destruct op; simpl; lia. Qed.

Lemma count_views_nonneg id ops : (0 <= Trace.count_views id ops)%Z.
Proof.
  induction ops as [|op ops IH]; simpl; [lia|].
  destruct op; try done. destruct (String.eqb id0 id); lia.
Qed.

Lemma count_likes_nonneg id ops : (0 <= Trace.count_likes id ops)%Z.
Proof.
  induction ops as [|op ops IH]; simpl; [lia|].
  destruct op; try done. destruct (String.eqb id0 id); lia.
Qed.

Lemma lookup_Some_keys s id a :
  Trace.lookup s id = Some a -> id ∈ keys (MemStorage.articles s).
Proof.
  intros H. apply lookup_Some in H as (r & Hg & _).
  destruct (decide (id ∈ keys (MemStorage.articles s))) as [|Hn]; [done|].
  apply get_None_keys in Hn. congruence.
Qed.

(** The keys of the articles after one operation. *)
Lemma keys_exec op s :
  keys (MemStorage.articles (Trace.exec op s))
  = match op with
    | Trace.CreateArticle uuid _ _ =>
        if decide (uuid ∈ keys (MemStorage.articles s))
        then keys (MemStorage.articles s)
        else keys (MemStorage.articles s) ++ [uuid]
    | Trace.DeleteArticle id => keys (remove id (MemStorage.articles s))
    | _ => keys (MemStorage.articles s)
    end.
Proof.
  destruct op; cbn [Trace.exec]; try reflexivity.
  - apply keys_store_new.
  - destruct (MemStorage.get_object id s) as [[r a]|] eqn:E.
    2:{ unfold MemStorage.updateArticle. by rewrite E. }
    rewrite (updateArticle_store_new _ _ _ _ _ _ E).
    apply get_object_Some in E as [E _].
    cbn [snd]. rewrite (keys_store_new s id). rewrite decide_True; [done|].
    destruct (decide (id ∈ keys (MemStorage.articles s))) as [|Hn]; [done|].
    apply get_None_keys in Hn. congruence.
  - unfold MemStorage.incrementViews.
    destruct (MemStorage.get_object id s) as [[r a]|] eqn:E; [|done].
    apply get_object_Some in E as [E _]. simpl. by rewrite (set_present _ _ _ E).
  - unfold MemStorage.toggleLike.
    destruct (MemStorage.get_object id s) as [[r a]|] eqn:E; [|done].
    apply get_object_Some in E as [E _]. simpl. by rewrite (set_present _ _ _ E).
  - unfold MemStorage.updateCategory.
    by destruct (get id (MemStorage.categories s)).
Qed.

Lemma fresh_ids_exec op ops s :
  Trace.fresh_ids (op :: ops) s -> Trace.fresh_ids ops (Trace.exec op s).
Proof.
  unfold Trace.fresh_ids. rewrite keys_exec. intros H.
  destruct op; cbn [Trace.drawn] in H; try exact H.
  - assert (uuid ∉ keys (MemStorage.articles s)) as Hn.
    { apply NoDup_app in H as (_ & H & _). intros Hin.
      apply (H _ Hin). left. }
    rewrite decide_False by done. by rewrite <- app_assoc.
  - apply NoDup_app in H as (H1 & H2 & H3). apply NoDup_app. split_and!.
    + exact (sublist_NoDup _ _ H1 (keys_remove_sublist _ _)).
    + intros x Hx. apply H2.
      eapply elem_of_sublist; [done | apply keys_remove_sublist].
    + done.
Qed.

(** An id that is neither stored nor drawn is not stored afterwards. *)
Lemma absent_run ops s id :
  id ∉ keys (MemStorage.articles s) -> id ∉ Trace.drawn ops ->
  id ∉ keys (MemStorage.articles (Trace.run ops s)).
Proof.
  revert s. induction ops as [|op ops IH]; intros s Hk Hd; simpl; [done|].
  apply IH.
  - rewrite keys_exec. destruct op; try done.
    + cbn [Trace.drawn] in Hd. apply not_elem_of_cons in Hd as [Hne _].
      case_decide; [done|].
      rewrite elem_of_app, list_elem_of_singleton. tauto.
    + intros Hin. apply Hk.
      eapply elem_of_sublist; [done | apply keys_remove_sublist].
  - destruct op; cbn [Trace.drawn] in Hd; try done.
    apply not_elem_of_cons in Hd as [_ Hd]. done.
Qed.

(** One operation on a store that holds [a] under [id]: the entry is
    deleted, or its counters move by the count of the operation. *)
Lemma lookup_exec op s id a v l :
  Trace.wf s -> Trace.lookup s id = Some a ->
  Article.views a = Some v -> Article.likes a = Some l ->
  (0 <= v)%Z -> (0 <= l)%Z ->
  (forall uuid now ia, op = Trace.CreateArticle uuid now ia -> uuid <> id) ->
  Trace.lookup (Trace.exec op s) id = None
  \/ exists a1,
       Trace.lookup (Trace.exec op s) id = Some a1
       /\ Article.views a1 = Some (v + Trace.count_views id [op])%Z
       /\ Article.likes a1 = Some (l + Trace.count_likes id [op])%Z.
Proof.
  intros Hwf Hl Hv Hlk Hv0 Hl0 Hfresh.
  assert (forall a1, Trace.lookup (Trace.exec op s) id = Some a1 ->
            Article.views a1 = Some v -> Article.likes a1 = Some l ->
            Trace.count_views id [op] = 0%Z -> Trace.count_likes id [op] = 0%Z ->
            exists a1,
              Trace.lookup (Trace.exec op s) id = Some a1
              /\ Article.views a1 = Some (v + Trace.count_views id [op])%Z
              /\ Article.likes a1 = Some (l + Trace.count_likes id [op])%Z) as Same.
  { intros a1 H1 H2 H3 -> ->. exists a1. by rewrite !Z.add_0_r. }
  destruct op; cbn [Trace.exec].
  - right. apply (Same a); try done.
    unfold Trace.exec, MemStorage.createArticle.
    rewrite lookup_store_new_ne; [done..|]. symmetry. eauto.
  - right. destruct (MemStorage.get_object id0 s) as [[r a0]|] eqn:E.
    2:{ apply (Same a); try done.
        unfold Trace.exec, MemStorage.updateArticle. by rewrite E. }
    destruct (decide (id = id0)) as [->|Hne].
    + assert (a0 = a) as ->.
      { assert (Trace.lookup s id0 = Some a0) as H'
          by (apply get_object_lookup_Some; eauto). congruence. }
      eapply Same; [| | |done..].
      * unfold Trace.exec. rewrite (updateArticle_store_new _ _ _ _ _ _ E).
        apply (lookup_store_new_eq s id0).
      * done.
      * done.
    + apply (Same a); try done.
      unfold Trace.exec. rewrite (updateArticle_store_new _ _ _ _ _ _ E).
      cbn [snd]. by rewrite (lookup_store_new_ne s id0).
  - destruct (decide (id = id0)) as [->|Hne].
    + left. by apply lookup_deleteArticle_eq.
    + right. apply (Same a); try done.
      unfold Trace.exec. by rewrite lookup_deleteArticle_ne.
  - right. destruct (MemStorage.get_object id0 s) as [[r a0]|] eqn:E.
    2:{ assert (id0 <> id) as Hne.
        { intros ->. apply get_object_lookup in E. congruence. }
        apply String.eqb_neq in Hne.
        apply (Same a); simpl; rewrite ?Hne; try done.
        unfold MemStorage.incrementViews. by rewrite E. }
    rewrite (incrementViews_poke _ _ _ _ E).
    pose proof E as E'. apply get_object_Some in E' as [Hg Hh].
    destruct (decide (id = id0)) as [->|Hne].
    + assert (a0 = a) as ->.
      { assert (Trace.lookup s id0 = Some a0) as H'
          by (apply get_object_lookup_Some; eauto). congruence. }
      eexists. split; [by eapply lookup_poke_eq|].
      simpl. rewrite String.eqb_refl, Hv, num_or_counter by done.
      split; [f_equal; lia | by rewrite Z.add_0_r].
    + assert (String.eqb id0 id = false) as Hf
        by (apply String.eqb_neq; congruence).
      exists a. rewrite lookup_poke_ne by done. simpl. rewrite Hf.
      by rewrite !Z.add_0_r.
  - right. destruct (MemStorage.get_object id0 s) as [[r a0]|] eqn:E.
    2:{ assert (id0 <> id) as Hne.
        { intros ->. apply get_object_lookup in E. congruence. }
        apply String.eqb_neq in Hne.
        apply (Same a); simpl; rewrite ?Hne; try done.
        unfold MemStorage.toggleLike. by rewrite E. }
    rewrite (toggleLike_poke _ _ _ _ E). cbn [snd].
    pose proof E as E'. apply get_object_Some in E' as [Hg Hh].
    destruct (decide (id = id0)) as [->|Hne].
    + assert (a0 = a) as ->.
      { assert (Trace.lookup s id0 = Some a0) as H'
          by (apply get_object_lookup_Some; eauto). congruence. }
      eexists. split; [by eapply lookup_poke_eq|].
      simpl. rewrite String.eqb_refl, Hlk, num_or_counter by done.
      split; [by rewrite Z.add_0_r | f_equal; lia].
    + assert (String.eqb id0 id = false) as Hf
        by (apply String.eqb_neq; congruence).
      exists a. rewrite lookup_poke_ne by done. simpl. rewrite Hf.
      by rewrite !Z.add_0_r.
  - right. by apply (Same a).
  - right. by apply (Same a).
  - right. by apply (Same a).
  - right. apply (Same a); try done. unfold Trace.exec, MemStorage.updateCategory.
    by destruct (get id0 (MemStorage.categories s)).
  - right. by apply (Same a).
Qed.

Lemma lookup_run ops s id a a' v l :
  Trace.wf s -> Trace.fresh_ids ops s ->
  Trace.lookup s id = Some a -> Trace.lookup (Trace.run ops s) id = Some a' ->
  Article.views a = Some v -> Article.likes a = Some l ->
  (0 <= v)%Z -> (0 <= l)%Z ->
  Article.views a' = Some (v + Trace.count_views id ops)%Z
  /\ Article.likes a' = Some (l + Trace.count_likes id ops)%Z.
Proof.
  revert s a v l. induction ops as [|op ops IH];
    intros s a v l Hwf Hfresh Hl Hl' Hv Hlk Hv0 Hl0.
  - simpl in *. rewrite !Z.add_0_r. split; congruence.
  - cbn [Trace.run List.fold_left] in Hl'.
    change (Trace.lookup (Trace.run ops (Trace.exec op s)) id = Some a') in Hl'.
    pose proof (lookup_Some_keys _ _ _ Hl) as Hkey.
    assert (forall uuid now ia, op = Trace.CreateArticle uuid now ia -> uuid <> id)
      as Hne.
    { intros uuid now ia -> ->. unfold Trace.fresh_ids in Hfresh.
      cbn [Trace.drawn] in Hfresh. apply NoDup_app in Hfresh as (_ & H & _).
      apply (H _ Hkey). left. }
    assert (id ∉ Trace.drawn ops) as Hnd.
    { unfold Trace.fresh_ids in Hfresh.
      apply NoDup_app in Hfresh as (_ & H & _). intros Hin. apply (H _ Hkey).
      destruct op; cbn [Trace.drawn]; try done. by right. }
    pose proof (wf_exec op _ Hwf) as Hwf1.
    pose proof (fresh_ids_exec _ _ _ Hfresh) as Hfresh1.
    destruct (lookup_exec op s id a v l Hwf Hl Hv Hlk Hv0 Hl0 Hne)
      as [Hnone|(a1 & Hl1 & Hv1 & Hlk1)].
    + exfalso. apply lookup_None_keys in Hnone; [|done].
      pose proof (absent_run ops _ _ Hnone Hnd) as Habs.
      apply lookup_None_keys in Habs; [|by apply wf_run]. congruence.
    + pose proof (count_views_nonneg id [op]).
      pose proof (count_likes_nonneg id [op]).
      destruct (IH _ _ _ _ Hwf1 Hfresh1 Hl1 Hl' Hv1 Hlk1) as [R1 R2]; [lia..|].
      rewrite count_views_cons, count_likes_cons, !Z.add_assoc. done.
Qed.

Lemma reachable_run ops s : Trace.reachable s -> Trace.reachable (Trace.run ops s).
Proof.
  revert s. induction ops as [|op ops IH]; intros s Hr; simpl; [done|].
  apply IH. by constructor.
Qed.

(** C5. From every state of the store and along every sequence of
    operations whose new identifiers are fresh, the views and likes of
    every stored article are integers that are not negative, and an
    article stored before and after has each counter raised by exactly
    the number of [incrementViews], respectively [toggleLike], calls made
    on its id: no other operation, an update included, changes them, and
    they never go down. *)
Theorem C5_counters_only_count_up (s : MemStorage.t) (ops : list Trace.Op) :
  Trace.reachable s ->
  Trace.fresh_ids ops s ->
  Trace.counters_ok (Trace.run ops s)
  /\ forall id a a',
       Trace.lookup s id = Some a ->
       Trace.lookup (Trace.run ops s) id = Some a' ->
       exists v l,
         Article.views a = Some v /\ Article.likes a = Some l
         /\ (0 <= v)%Z /\ (0 <= l)%Z
         /\ Article.views a' = Some (v + Trace.count_views id ops)%Z
         /\ Article.likes a' = Some (l + Trace.count_likes id ops)%Z
         /\ (0 <= Trace.count_views id ops)%Z
         /\ (0 <= Trace.count_likes id ops)%Z.
Proof.
  intros Hr Hfresh. split.
  - apply reachable_counters, reachable_run, Hr.
  - intros id a a' Hl Hl'.
    destruct (reachable_counters _ Hr _ _ Hl) as (v & l & Hv & Hlk & Hv0 & Hl0).
    exists v, l.
    destruct (lookup_run ops s id a a' v l (reachable_wf _ Hr) Hfresh
                Hl Hl' Hv Hlk Hv0 Hl0) as [R1 R2].
    split_and!; try done.
    + apply count_views_nonneg.
    + apply count_likes_nonneg.
Qed.

End CountersAlongRuns.

(** ** Creating an article *)

Section CreateArticle.
Import JS.

Lemma reports_ap_l {A B : Type} i (f : Zod.Parsed (A -> B)) (x : Zod.Parsed A) :
  Zod.reports i f -> Zod.reports i (Zod.ap f x).
Proof.
  intros (e & -> & Hi). destruct x as [e'|a]; simpl.
  - exists (e ++ e'). split; [done|]. apply in_or_app. by left.
  - by exists e.
Qed.

Lemma reports_ap_r {A B : Type} i (f : Zod.Parsed (A -> B)) (x : Zod.Parsed A) :
  Zod.reports i x -> Zod.reports i (Zod.ap f x).
Proof.
  intros (e & -> & Hi). destruct f as [e'|g]; simpl.
  - exists (e' ++ e). split; [done|]. apply in_or_app. by right.
  - by exists e.
Qed.

Lemma reports_required k path fields :
  prop k fields = None ->
  Zod.reports (Zod.invalid_type "string" None (path ++ [Zod.Key k]))
          (Zod.field Zod.z_string k path fields).
Proof.
  intros H. unfold Zod.field, Zod.z_string. rewrite H.
  eexists. split; [reflexivity|]. by left.
Qed.

Lemma insertArticleSchema_required k fields :
  In k Spec.required_article_fields -> prop k fields = None ->
  Zod.reports (Zod.invalid_type "string" None [Zod.Key k])
          (Zod.parse Zod.insertArticleSchema (Some (JObj fields))).
Proof.
  intros Hk Hp. unfold Zod.parse, Zod.insertArticleSchema, Zod.z_object.
  pose proof (reports_required k [] fields Hp) as Hr. simpl app in Hr.
  unfold Spec.required_article_fields in Hk. simpl in Hk.
  destruct Hk as [<-|[<-|[<-|[<-|[<-|[<-|[]]]]]]];
    repeat first [ apply reports_ap_r; exact Hr | apply reports_ap_l ].
Qed.

Lemma prop_without_counters k fields :
  k <> "views" -> k <> "likes" ->
  prop k (Spec.without_counters fields) = prop k fields.
Proof.
  intros Hv Hl. induction fields as [|[k' x] fields IH]; simpl; [done|].
  destruct (String.eqb_spec k' "views") as [->|Hv']; simpl.
  { apply String.eqb_neq in Hv. by rewrite Hv. }
  destruct (String.eqb_spec k' "likes") as [->|Hl']; simpl.
  { apply String.eqb_neq in Hl. by rewrite Hl. }
  by rewrite IH.
Qed.

Lemma insertArticleSchema_without_counters fields :
  Zod.parse Zod.insertArticleSchema (Some (JObj (Spec.without_counters fields)))
  = Zod.parse Zod.insertArticleSchema (Some (JObj fields)).
Proof.
  unfold Zod.parse, Zod.insertArticleSchema, Zod.z_object, Zod.field.
  by rewrite !prop_without_counters.
Qed.

(** C4. [POST /api/articles] with an object that lacks a required
    property answers 400, Zod.reports the property by its path, and leaves
    the store as it is. With a body that passes the schema it answers 201
    with the stored article, whose id is the identifier drawn and whose
    views and likes are 0. The [views] and [likes] properties of the body
    have no part in the answer or in the store. *)
Theorem C4_create_article (uuid : string) (now : Z) (s : MemStorage.t) :
  (forall fields k,
     In k Spec.required_article_fields ->
     prop k fields = None ->
     exists issues,
       Routes.POST_articles uuid now (Some (JObj fields)) s
       = (Routes.mkResponse 400
            (Routes.Json_invalid "Invalid article data" issues), s)
       /\ In (Zod.invalid_type "string" None [Zod.Key k]) issues)
  /\ (forall body data,
        Zod.parse Zod.insertArticleSchema body = inr data ->
        exists a s',
          Routes.POST_articles uuid now body s
          = (Routes.mkResponse 201 (Routes.Json_article a), s')
          /\ Article.id a = uuid
          /\ Article.views a = Some 0%Z
          /\ Article.likes a = Some 0%Z
          /\ Article.title a = InsertArticle.title data
          /\ Trace.lookup s' uuid = Some a)
  /\ (forall fields,
        Routes.POST_articles uuid now (Some (JObj fields)) s
        = Routes.POST_articles uuid now
            (Some (JObj (Spec.without_counters fields))) s).
Proof.
  split_and!.
  - intros fields k Hk Hp.
    destruct (insertArticleSchema_required k fields Hk Hp) as (e & He & Hi).
    exists e. unfold Routes.POST_articles. by rewrite He.
  - intros body data Hd. unfold Routes.POST_articles. rewrite Hd.
    unfold MemStorage.createArticle.
    set (a := Article.mk uuid _ _ _ _ _ _ _ _ _ _ _ _ _ _ _).
    exists a, (MemStorage.store_new uuid a s).2.
    split_and!; try done.
    + unfold MemStorage.store_new, Routes.json_ref. cbn [MemStorage.heap].
      rewrite lookup_app_r by lia. by rewrite Nat.sub_diag.
    + apply lookup_store_new_eq.
  - intros fields. unfold Routes.POST_articles.
    by rewrite insertArticleSchema_without_counters.
Qed.

End CreateArticle.

(** ** The two implementations of [IStorage] *)

Section TwoStorages.
Import JS.

(** Two lists sorted by a key that no two elements share are equal when
    one is a rearrangement of the other. *)
Lemma sorted_perm_unique {A : Type} (key : A -> Z) (l1 l2 : list A) :
  Permutation l1 l2 ->
  StronglySorted (descending key) l1 ->
  StronglySorted (descending key) l2 ->
  NoDup (List.map key l1) ->
  l1 = l2.
Proof.
  revert l2. induction l1 as [|x l1 IH]; intros l2 Hp Hs1 Hs2 Hnd.
  - apply Permutation_nil in Hp. by subst.
  - destruct l2 as [|y l2].
    { symmetry in Hp. by apply Permutation_nil_cons in Hp. }
    apply StronglySorted_inv in Hs1 as [Hs1 Hx].
    apply StronglySorted_inv in Hs2 as [Hs2 Hy].
    simpl in Hnd. apply NoDup_cons in Hnd as [Hkx Hnd].
    assert (x = y) as <-.
    { assert (In x (y :: l2)) as Hin
        by (eapply Permutation_in; [exact Hp | by left]).
      destruct Hin as [->|Hin]; [done|].
      assert (In y (x :: l1)) as Hin'
        by (eapply Permutation_in; [symmetry; exact Hp | by left]).
      destruct Hin' as [->|Hin']; [done|].
      exfalso. apply Hkx.
      rewrite List.Forall_forall in Hx, Hy.
      pose proof (Hx _ Hin') as H1. pose proof (Hy _ Hin) as H2.
      unfold descending in H1, H2.
      assert (key x = key y) as -> by lia.
      apply list_elem_of_In. by apply in_map. }
    f_equal. apply IH; try done. by apply Permutation_cons_inv in Hp.
Qed.

Lemma NoDup_map_filter {A B : Type} (f : A -> B) (p : A -> bool) (l : list A) :
  NoDup (List.map f l) -> NoDup (List.map f (List.filter p l)).
Proof.
  induction l as [|x l IH]; simpl; [done|].
  intros H. apply NoDup_cons in H as [Hx H].
  destruct (p x); simpl; [|auto].
  apply NoDup_cons. split; [|auto].
  intros Hin. apply Hx. apply list_elem_of_In in Hin. apply list_elem_of_In.
  apply in_map_iff in Hin as (y & <- & Hy). apply in_map.
  apply filter_In in Hy. tauto.
Qed.

Lemma stable_sorts_newest_first :
  DatabaseStorage.sorts_newest_first DatabaseStorage.scan_order.
Proof.
  intros rows. split; [apply sort_perm | apply sort_descending].
Qed.

(** Without a query, a category and a [published] parameter, the
    database keeps the rows that pass the [featured] parameter. *)
Lemma DatabaseStorage_getArticles_flags orderBy params db :
  truthy_opt (opt_chain params SearchParams.query) = false ->
  truthy_opt (opt_chain params SearchParams.category) = false ->
  DatabaseStorage.getArticles orderBy params db
  = orderBy
      (List.filter
         (fun a => match opt_chain params SearchParams.featured with
                   | Some b => strict_eq_bool (Article.featured a) b
                   | None => true
                   end)
         (DatabaseStorage.articles db)).
Proof.
  intros Hq Hc. unfold DatabaseStorage.getArticles.
  destruct (opt_chain params SearchParams.query) as [q|];
    destruct (opt_chain params SearchParams.category) as [c|];
    simpl in Hq, Hc; rewrite ?Hq, ?Hc;
    (destruct (opt_chain params SearchParams.featured) as [b|]; simpl;
     [ f_equal; apply filter_ext_eq; intros a;
       unfold DatabaseStorage.and, DatabaseStorage.eq; simpl;
       by rewrite andb_true_r
     | by rewrite filter_true ]).
Qed.

Lemma MemStorage_getArticles_flags params s :
  truthy_opt (opt_chain params SearchParams.query) = false ->
  truthy_opt (opt_chain params SearchParams.category) = false ->
  opt_chain params SearchParams.published = None ->
  Routes.read_refs s (MemStorage.getArticles params s)
  = sort (fun a b => (Article.createdAt b - Article.createdAt a)%Z)
      (List.filter
         (fun a => match opt_chain params SearchParams.featured with
                   | Some b => strict_eq_bool (Article.featured a) b
                   | None => true
                   end)
         (Trace.all_articles s)).
Proof.
  intros Hq Hc Hp. destruct params as [p|]; simpl in *.
  - rewrite getArticles_params. f_equal. apply filter_ext_eq. intros a.
    unfold Spec.matches, Spec.matches_query, Spec.matches_category,
      Spec.matches_published, Spec.matches_featured. rewrite Hp.
    destruct (SearchParams.query p) as [q|]; simpl in Hq; rewrite ?Hq;
      destruct (SearchParams.category p) as [c|]; simpl in Hc; rewrite ?Hc;
      reflexivity.
  - rewrite getArticles_all. by rewrite filter_true.
Qed.

(** C1 (counterexample). On the same rows, one unpublished article with
    two comments, the two implementations answer differently:
    [{published: true}] gets nothing from memory and the article from the
    database; a query found only in the content gets the article from
    memory and nothing from the database; a category given in part gets
    the article from the database and nothing from memory; and the
    comments come newest first from memory and in table order from the
    database. *)
Lemma C1_database_storage_answers_differently :
  Spec.same_rows Examples.rows_db Examples.rows_mem
  /\ ~ Spec.storages_agree DatabaseStorage.scan_order Examples.rows_db
                           Examples.rows_mem
  /\ Routes.read_refs Examples.rows_mem
       (MemStorage.getArticles (Some Examples.only_published)
                               Examples.rows_mem) = []
  /\ DatabaseStorage.getArticles DatabaseStorage.scan_order
       (Some Examples.only_published) Examples.rows_db = [Examples.draft]
  /\ Routes.read_refs Examples.rows_mem
       (MemStorage.getArticles (Some Examples.about_council)
                               Examples.rows_mem) = [Examples.draft]
  /\ DatabaseStorage.getArticles DatabaseStorage.scan_order
       (Some Examples.about_council) Examples.rows_db = []
  /\ Routes.read_refs Examples.rows_mem
       (MemStorage.getArticles (Some Examples.in_pol) Examples.rows_mem) = []
  /\ DatabaseStorage.getArticles DatabaseStorage.scan_order
       (Some Examples.in_pol) Examples.rows_db = [Examples.draft]
  /\ MemStorage.getCommentsByArticleId "a1" Examples.rows_mem
     = [Examples.newer; Examples.older]
  /\ DatabaseStorage.getCommentsByArticleId "a1" Examples.rows_db
     = [Examples.older; Examples.newer].
Proof.
  split; [by vm_compute|]. split.
  - intros [H _]. specialize (H (Some Examples.only_published)).
    vm_compute in H. discriminate.
  - vm_compute. repeat split.
Qed.

(** C1 (amended). On the same rows, for every parameter object without
    a query, a category and a [published] parameter, and whatever order
    the database gives to rows created at the same time, [getArticles]
    returns from both implementations the same articles, newest first,
    and in the same order when no two articles share a creation time;
    [getCommentsByArticleId] returns the same comments from both. *)
Theorem C1_storages_agree_on_flags (orderBy : DatabaseStorage.OrderBy)
    (db : DatabaseStorage.t) (s : MemStorage.t)
    (params : option SearchParams.t) (articleId : string) :
  DatabaseStorage.sorts_newest_first orderBy ->
  Spec.same_rows db s ->
  truthy_opt (opt_chain params SearchParams.query) = false ->
  truthy_opt (opt_chain params SearchParams.category) = false ->
  opt_chain params SearchParams.published = None ->
  let from_db := DatabaseStorage.getArticles orderBy params db in
  let from_mem := Routes.read_refs s (MemStorage.getArticles params s) in
  Permutation from_db from_mem
  /\ Spec.newest_first from_db
  /\ Spec.newest_first from_mem
  /\ (NoDup (List.map Article.createdAt (Trace.all_articles s)) ->
      from_db = from_mem)
  /\ Permutation (DatabaseStorage.getCommentsByArticleId articleId db)
                 (MemStorage.getCommentsByArticleId articleId s).
Proof.
  intros Hsort [Ha Hc] Hq Hcat Hp from_db from_mem.
  unfold from_db, from_mem.
  rewrite DatabaseStorage_getArticles_flags, MemStorage_getArticles_flags
    by done.
  rewrite Ha.
  set (rows := List.filter _ (Trace.all_articles s)).
  destruct (Hsort rows) as [Hperm Hsorted].
  assert (Permutation (orderBy rows)
            (sort (fun a b => (Article.createdAt b - Article.createdAt a)%Z)
                  rows)) as Hpp.
  { rewrite Hperm. symmetry. apply sort_perm. }
  split_and!.
  - exact Hpp.
  - exact Hsorted.
  - apply (sort_descending Article.createdAt).
  - intros Hnd. apply (sorted_perm_unique Article.createdAt); try done.
    + apply (sort_descending Article.createdAt).
    + assert (Permutation (List.map Article.createdAt (orderBy rows))
                          (List.map Article.createdAt rows)) as ->
        by by apply Permutation_map.
      by apply NoDup_map_filter.
  - unfold DatabaseStorage.getCommentsByArticleId,
      MemStorage.getCommentsByArticleId. rewrite Hc. symmetry. apply sort_perm.
Qed.

End TwoStorages.

(** ** Where the code departs from the specification *)

Section Departures.
Import JS.

(** C6. Stored comments need not refer to a stored article. From the
    seeded store, a comment posted to an id that no article has is
    answered 201 and stored; and a comment posted to the first article is
    still stored after that article is deleted. Both stores are states of
    the running server. *)
Theorem C6_comments_outlive_their_article :
  let posted :=
    Routes.POST_comments "c-1" 1700000000001 "no-such-article"
                         Examples.comment_body Examples.seeded in
  let commented :=
    Routes.POST_comments "c-2" 1700000000002 "uuid-h"
                         Examples.comment_body Examples.seeded in
  let deleted := Routes.DELETE_article "uuid-h" (snd commented) in
  Routes.status (fst posted) = 201%Z
  /\ Trace.reachable (snd posted)
  /\ ~ Spec.comments_refer_to_articles (snd posted)
  /\ Routes.status (fst commented) = 201%Z
  /\ Routes.status (fst deleted) = 204%Z
  /\ Trace.reachable (snd deleted)
  /\ ~ Spec.comments_refer_to_articles (snd deleted).
Proof.
  intros posted commented deleted.
  set (c1 := InsertComment.mk "no-such-article" "Bo" "bo@example.org" "Well said.").
  set (c2 := InsertComment.mk "uuid-h" "Bo" "bo@example.org" "Well said.").
  assert (snd posted
          = Trace.exec (Trace.CreateComment "c-1" 1700000000001 c1)
                       Examples.seeded) as E1 by (vm_compute; reflexivity).
  assert (snd deleted
          = Trace.exec (Trace.DeleteArticle "uuid-h")
              (Trace.exec (Trace.CreateComment "c-2" 1700000000002 c2)
                          Examples.seeded)) as E2 by (vm_compute; reflexivity).
  split_and!.
  - vm_compute. reflexivity.
  - rewrite E1. do 2 constructor.
  - intros H.
    destruct (H (Comment.mk "c-1" "no-such-article" "Bo" "bo@example.org"
                   "Well said." 1700000000001)) as [a Ha].
    + vm_compute. by left.
    + vm_compute in Ha. discriminate.
  - vm_compute. reflexivity.
  - vm_compute. reflexivity.
  - rewrite E2. do 3 constructor.
  - intros H.
    destruct (H (Comment.mk "c-2" "uuid-h" "Bo" "bo@example.org"
                   "Well said." 1700000000002)) as [a Ha].
    + vm_compute. by left.
    + vm_compute in Ha. discriminate.
Qed.

End Departures.

(** ** The sitemap *)

Section SitemapFacts.
Import JS Xml.
#[local] Arguments String.append !_ _ /.

Lemma append_assoc (a b c : string) : ((a ++ b) ++ c)%string = (a ++ b ++ c)%string.
Proof. induction a as [|x a IH]; cbn; [done | by f_equal]. Qed.

Lemma length_append (a b : string) :
  String.length (a ++ b) = (String.length a + String.length b)%nat.
Proof. induction a as [|x a IH]; cbn; [done | by f_equal]. Qed.

Lemma all_chars_append p (a b : string) :
  all_chars p (a ++ b) = all_chars p a && all_chars p b.
Proof.
  induction a as [|x a IH]; cbn; [done|]. rewrite IH. by rewrite andb_assoc.
Qed.

Lemma span_all p (t : string) c r :
  all_chars p t = true -> p c = false ->
  span p (t ++ String c r) = (t, String c r).
Proof.
  intros Ht Hc. induction t as [|x t IH]; simpl in *.
  - by rewrite Hc.
  - apply andb_true_iff in Ht as [Hx Ht]. by rewrite Hx, IH.
Qed.

Lemma plain_char_text c : plain_char c = true ->
  Ascii.eqb c "<" = false /\ Ascii.eqb c "&" = false /\ Ascii.eqb c ">" = false.
Proof.
  unfold plain_char. rewrite andb_true_iff, negb_true_iff, !orb_false_iff.
  tauto.
Qed.

Lemma plain_char_is_char c : plain_char c = true -> is_char c = true.
Proof. unfold plain_char. rewrite andb_true_iff. tauto. Qed.

Lemma plain_chars t : plain t = true -> all_chars is_char t = true.
Proof.
  induction t as [|c t IH]; [done|].
  cbn [plain all_chars]. rewrite !andb_true_iff.
  intros [Hc Ht]. split; [by apply plain_char_is_char | by apply IH].
Qed.

Lemma plain_text_ok t : plain t = true -> text_ok None t = true.
Proof.
  induction t as [|c t IH]; [done|].
  cbn [plain all_chars text_ok].
  intros H. apply andb_true_iff in H as [Hc Ht].
  rewrite (plain_char_is_char _ Hc). cbn [negb].
  apply plain_char_text in Hc as (-> & -> & _). auto.
Qed.

Lemma prefix_cons a (s1 : string) b (s2 : string) :
  String.prefix (String a s1) (String b s2)
  = if Ascii.eqb a b then String.prefix s1 s2 else false.
Proof.
  cbn [String.prefix].
  destruct (ascii_dec a b) as [->|Hne].
  - by rewrite Ascii.eqb_refl.
  - apply Ascii.eqb_neq in Hne. by rewrite Hne.
Qed.

Lemma prefix_nil (a : ascii) (s1 : string) :
  String.prefix (String a s1) EmptyString = false.
Proof. reflexivity. Qed.

Lemma plain_no_section_end t : plain t = true -> includes t "]]>" = false.
Proof.
  induction t as [|c t IH]; [done|].
  intros H. cbn [plain all_chars] in H. apply andb_true_iff in H as [Hc Ht].
  cbn [includes]. rewrite (IH Ht), orb_false_r.
  rewrite prefix_cons. destruct (Ascii.eqb "]" c); [|done].
  destruct t as [|c1 t]; [done|].
  rewrite prefix_cons. destruct (Ascii.eqb "]" c1); [|done].
  destruct t as [|c2 t]; [done|].
  rewrite prefix_cons.
  cbn [plain all_chars] in Ht.
  apply andb_true_iff in Ht as [_ Ht]. apply andb_true_iff in Ht as [Ht _].
  apply plain_char_text in Ht as (_ & _ & Ht).
  rewrite Ascii.eqb_sym, Ht. done.
Qed.

Lemma next_token_text b (t : string) r :
  t <> EmptyString -> plain t = true ->
  next_token b (t ++ String "<" r) = Some (Chars t, String "<" r).
Proof.
  intros Hne Hp. destruct t as [|c t]; [done|].
  pose proof Hp as Hp'. cbn [plain all_chars] in Hp'.
  apply andb_true_iff in Hp' as [Hc Ht].
  apply plain_char_text in Hc as (Hlt & _ & _).
  assert (span (fun x => negb (Ascii.eqb x "<")) (String c t ++ String "<" r)
          = (String c t, String "<" r)) as Hspan.
  { apply span_all; [|done].
    clear -Hp. induction (String c t) as [|x s IH]; [done|].
    cbn [plain all_chars] in *.
    apply andb_true_iff in Hp as [Hx Hs].
    apply plain_char_text in Hx as (-> & _ & _). simpl. auto. }
  cbn [append] in *. unfold next_token.
  rewrite !prefix_cons, (Ascii.eqb_sym "<" c), Hlt, Hspan.
  by rewrite (plain_text_ok _ Hp), (plain_no_section_end _ Hp).
Qed.

Lemma check_step f b s st ro u t rest st' ro' u' :
  next_token b s = Some (t, rest) ->
  nest_step t st ro u = Some (st', ro', u') ->
  check (S f) b s st ro u = check f false rest st' ro' u'.
Proof.
  intros Ht Hn. destruct s as [|c s]; [discriminate|].
  cbn [check]. by rewrite Ht, Hn.
Qed.

(** Character data inside an element is passed over. *)
Lemma check_text f b (t : string) r top st ro u :
  t <> EmptyString -> plain t = true ->
  check (S f) b (t ++ String "<" r) (top :: st) ro u
  = check f false (String "<" r) (top :: st) ro u.
Proof.
  intros Hne Hp. eapply check_step; [by apply next_token_text | done].
Qed.

(** One token whose text is spelled out. *)
Ltac token :=
  erewrite check_step; [|reflexivity|reflexivity];
  cbn [Xml.drop String.length].

(** One [<url>] block below [urlset] counts as one entry. *)
Lemma check_url_entry f (loc lastmod changefreq priority r : string) u :
  loc <> EmptyString -> plain loc = true ->
  lastmod <> EmptyString -> plain lastmod = true ->
  changefreq <> EmptyString -> plain changefreq = true ->
  priority <> EmptyString -> plain priority = true ->
  check (20 + f) false
        (String "010" (Routes.url_entry loc lastmod changefreq priority ++ r))
        ["urlset"] 1 u
  = check f false (String "010" r) ["urlset"] 1 (S u).
Proof.
  intros H1 P1 H2 P2 H3 P3 H4 P4.
  unfold Routes.url_entry, Routes.nl. rewrite !append_assoc.
  cbn [append Nat.add].
  token. token. token. token.
  rewrite check_text by done. token. token. token.
  rewrite check_text by done. token. token. token.
  rewrite check_text by done. token. token. token.
  rewrite check_text by done. token. token. token.
  reflexivity.
Qed.

Lemma fold_left_append {X : Type} (f : X -> string) (l : list X) (acc : string) :
  List.fold_left (fun (a : string) (x : X) => (a ++ f x)%string) l acc
  = (acc ++ Routes.join_map f l)%string.
Proof.
  revert acc. induction l as [|x l IH]; intros acc; cbn [List.fold_left].
  - unfold Routes.join_map. cbn [List.fold_right].
    induction acc as [|c acc IHacc]; cbn [append]; [done | by f_equal].
  - rewrite IH, append_assoc. reflexivity.
Qed.

(** A run of [<url>] blocks below [urlset] counts one entry each. *)
Lemma check_url_entries {X : Type} (loc lastmod : X -> string)
    (changefreq priority : string) (l : list X) f (r : string) u :
  Forall (fun x => loc x <> EmptyString /\ plain (loc x) = true
                   /\ lastmod x <> EmptyString /\ plain (lastmod x) = true) l ->
  changefreq <> EmptyString -> plain changefreq = true ->
  priority <> EmptyString -> plain priority = true ->
  check (20 * length l + f) false
        (String "010"
           (Routes.join_map
              (fun x => Routes.url_entry (loc x) (lastmod x) changefreq priority)
              l
            ++ r))
        ["urlset"] 1 u
  = check f false (String "010" r) ["urlset"] 1 (u + length l).
Proof.
  intros Hl H3 P3 H4 P4. revert u.
  induction Hl as [|x l (H1 & P1 & H2 & P2) _ IH]; intros u.
  - cbn [length Nat.mul Nat.add Routes.join_map List.fold_right append].
    by rewrite Nat.add_0_r.
  - replace (20 * length (x :: l) + f)%nat with (20 + (20 * length l + f))%nat
      by (cbn [length]; lia).
    unfold Routes.join_map. cbn [List.fold_right]. fold (Routes.join_map
      (fun x => Routes.url_entry (loc x) (lastmod x) changefreq priority) l).
    rewrite append_assoc, check_url_entry by done.
    rewrite IH. f_equal. cbn [length]. lia.
Qed.

(** The fixed part of the document: the declaration, the root tag and
    the three static pages. *)
Lemma check_sitemap_head f (base date r : string) :
  plain base = true -> date <> EmptyString -> plain date = true ->
  check (69 + f) true (Routes.sitemap_head base date ++ r) [] 0 0
  = check f false (String "010" r) ["urlset"] 1 3.
Proof.
  intros Pb Hd Pd.
  assert (forall w : string, w <> EmptyString -> plain w = true ->
            (base ++ w)%string <> EmptyString /\ plain (base ++ w) = true) as Hloc.
  { intros w Hw Pw. split.
    - destruct base; cbn [append]; [done | discriminate].
    - unfold plain. rewrite all_chars_append. by apply andb_true_iff. }
  destruct (Hloc "/" ltac:(done) eq_refl) as [L1 Q1].
  destruct (Hloc "/search" ltac:(done) eq_refl) as [L2 Q2].
  destruct (Hloc "/admin" ltac:(done) eq_refl) as [L3 Q3].
  replace (69 + f)%nat
    with (5 + (20 + (2 + (20 + (2 + (20 + f))))))%nat by lia.
  set (f6 := (20 + f)%nat).
  set (f5 := (2 + f6)%nat).
  set (f4 := (20 + f5)%nat).
  set (f3 := (2 + f4)%nat).
  set (f2 := (20 + f3)%nat).
  unfold Routes.sitemap_head, Routes.dq, Routes.nl. rewrite !append_assoc.
  cbn [append Nat.add].
  token. token. token. token. token.
  subst f2.
  rewrite (check_url_entry _ (base ++ "/") date "daily" "1.0") by done.
  subst f3. cbn [append Nat.add]. token. token.
  subst f4.
  rewrite (check_url_entry _ (base ++ "/search") date "weekly" "0.6") by done.
  subst f5. cbn [append Nat.add]. token. token.
  subst f6.
  rewrite (check_url_entry _ (base ++ "/admin") date "weekly" "0.4") by done.
  reflexivity.
Qed.

Lemma check_sitemap_end f u :
  check (3 + f) false (String "010" "</urlset>") ["urlset"] 1 u = Some u.
Proof. cbn [Nat.add]. token. token. reflexivity. Qed.

(** Dates are digits and signs. *)
Lemma digit_plain d : (0 <= d < 10)%Z -> plain_char (digit d) = true.
Proof.
  intros H.
  assert (d = 0 \/ d = 1 \/ d = 2 \/ d = 3 \/ d = 4 \/ d = 5 \/ d = 6
          \/ d = 7 \/ d = 8 \/ d = 9)%Z as Hd by lia.
  repeat (destruct Hd as [->|Hd]; [reflexivity|]). by subst.
Qed.

Lemma pad_plain w n : plain (pad w n) = true.
Proof.
  revert n. induction w as [|w IH]; intros n; [done|].
  cbn [pad]. unfold plain. rewrite all_chars_append.
  apply andb_true_iff. split; [apply IH|].
  cbn [all_chars]. rewrite digit_plain; [done|].
  apply Z.mod_pos_bound. lia.
Qed.

Lemma isoDate_plain ms : plain (isoDate ms) = true.
Proof.
  unfold isoDate. destruct (civil_from_days (ms / 86400000)) as [[y m] d].
  unfold plain. rewrite !all_chars_append. fold (plain (iso_year y)).
  fold (plain (pad 2 m)). fold (plain (pad 2 d)).
  rewrite !pad_plain.
  assert (plain (iso_year y) = true) as ->; [|done].
  unfold iso_year.
  destruct ((0 <=? y)%Z && (y <=? 9999)%Z); [apply pad_plain|].
  destruct (y <? 0)%Z; unfold plain; rewrite all_chars_append;
    apply andb_true_iff; (split; [done | apply pad_plain]).
Qed.

Lemma isoDate_not_empty ms : isoDate ms <> EmptyString.
Proof.
  unfold isoDate. destruct (civil_from_days (ms / 86400000)) as [[y m] d].
  destruct (iso_year y); cbn [append]; discriminate.
Qed.

(** Every character of the document is one that a document may hold. *)
Lemma chars_url_entry (loc lastmod changefreq priority : string) :
  plain loc = true -> plain lastmod = true ->
  plain changefreq = true -> plain priority = true ->
  all_chars is_char (Routes.url_entry loc lastmod changefreq priority) = true.
Proof.
  intros H1 H2 H3 H4. unfold Routes.url_entry, Routes.nl.
  rewrite !all_chars_append.
  by rewrite (plain_chars _ H1), (plain_chars _ H2), (plain_chars _ H3),
    (plain_chars _ H4).
Qed.

Lemma chars_join_map {X : Type} (loc lastmod : X -> string)
    (changefreq priority : string) (l : list X) :
  Forall (fun x => loc x <> EmptyString /\ plain (loc x) = true
                   /\ lastmod x <> EmptyString /\ plain (lastmod x) = true) l ->
  plain changefreq = true -> plain priority = true ->
  all_chars is_char
    (Routes.join_map
       (fun x => Routes.url_entry (loc x) (lastmod x) changefreq priority) l)
  = true.
Proof.
  intros Hl H3 H4. induction Hl as [|x l (_ & P1 & _ & P2) _ IH]; [done|].
  unfold Routes.join_map. cbn [List.fold_right].
  rewrite all_chars_append, chars_url_entry by done.
  exact IH.
Qed.

Lemma chars_sitemap_head (base date : string) :
  plain base = true -> plain date = true ->
  all_chars is_char (Routes.sitemap_head base date) = true.
Proof.
  intros Pb Pd. unfold Routes.sitemap_head, Routes.nl, Routes.dq.
  assert (forall w : string, plain w = true -> plain (base ++ w) = true)
    as Hloc.
  { intros w Pw. unfold plain. rewrite all_chars_append.
    by apply andb_true_iff. }
  rewrite !all_chars_append.
  by rewrite !chars_url_entry by (try apply Hloc; done).
Qed.

(** The document is long enough for the pass to reach its end. *)
Lemma length_url_entry (loc lastmod changefreq priority : string) :
  (20 <= String.length (Routes.url_entry loc lastmod changefreq priority))%nat.
Proof.
  unfold Routes.url_entry, Routes.nl. rewrite !length_append.
  cbn [String.length]. lia.
Qed.

Lemma length_join_map {X : Type} (loc lastmod : X -> string)
    (changefreq priority : string) (l : list X) :
  (20 * length l
   <= String.length
        (Routes.join_map
           (fun x => Routes.url_entry (loc x) (lastmod x) changefreq priority)
           l))%nat.
Proof.
  induction l as [|x l IH]; cbn [length]; [lia|].
  unfold Routes.join_map. cbn [List.fold_right]. rewrite length_append.
  pose proof (length_url_entry (loc x) (lastmod x) changefreq priority).
  unfold Routes.join_map in IH. lia.
Qed.

Lemma length_sitemap_head (base date : string) :
  (72 <= String.length (Routes.sitemap_head base date))%nat.
Proof.
  unfold Routes.sitemap_head, Routes.nl, Routes.dq. rewrite !length_append.
  cbn [String.length]. lia.
Qed.

End SitemapFacts.

Section Sitemap.
Import JS Xml.

Lemma sitemap_text env now s :
  Spec.sent_text (Routes.GET_sitemap env now s)
  = (Routes.sitemap_head (Routes.baseUrl env) (isoDate now)
     ++ Routes.join_map
          (fun c =>
             Routes.url_entry
               (Routes.baseUrl env ++ "/category/" ++ Category.slug c)
               (isoDate now) "daily" "0.8")
          (MemStorage.getCategories s)
     ++ Routes.join_map
          (fun a =>
             Routes.url_entry
               (Routes.baseUrl env ++ "/article/" ++ Article.id a)
               (isoDate (Article.updatedAt a)) "weekly" "0.7")
          (sort (fun a b => (Article.createdAt b - Article.createdAt a)%Z)
                (Trace.all_articles s))
     ++ "</urlset>")%string.
Proof.
  unfold Spec.sent_text, Routes.GET_sitemap. cbv zeta. cbn [Routes.body].
  rewrite getArticles_all.
  rewrite (fold_left_append
             (fun c : Category.t =>
                Routes.url_entry
                  (Routes.baseUrl env ++ "/category/" ++ Category.slug c)
                  (isoDate now) "daily" "0.8")).
  rewrite (fold_left_append
             (fun a : Article.t =>
                Routes.url_entry
                  (Routes.baseUrl env ++ "/article/" ++ Article.id a)
                  (isoDate (Article.updatedAt a)) "weekly" "0.7")).
  by rewrite !append_assoc.
Qed.

Lemma plain_append (a b : string) :
  plain a = true -> plain b = true -> plain (a ++ b) = true.
Proof.
  intros Ha Hb. unfold plain in *. rewrite all_chars_append.
  by apply andb_true_iff.
Qed.

Lemma append_not_empty (a b : string) :
  b <> EmptyString -> (a ++ b)%string <> EmptyString.
Proof.
  intros Hb. destruct a; [done | discriminate].
Qed.

(** X30. For every store and environment in which the base URL, the slugs
    of the categories and the ids of the articles hold only characters of
    the document set and none of the characters [<], [&] and [>], the
    text sent by [GET /sitemap.xml] is a well-formed document whose
    [urlset] holds exactly one [url] element per category, one per
    article and three for the static pages. *)
Theorem sitemap_lists_every_page_of_plain_names (env : Routes.Env) (now : Z)
    (s : MemStorage.t) :
  Spec.markup_free env s ->
  Spec.sitemap_lists_every_page env now s.
Proof.
  intros (Hbase & Hcats & Harts).
  unfold Spec.sitemap_lists_every_page, url_entries.
  rewrite sitemap_text.
  set (base := Routes.baseUrl env) in *.
  set (date := isoDate now).
  set (cats := MemStorage.getCategories s) in *.
  set (arts := sort (fun a b => (Article.createdAt b - Article.createdAt a)%Z)
                    (Trace.all_articles s)).
  assert (Permutation arts (Trace.all_articles s)) as Hperm by apply sort_perm.
  assert (length arts = length (Trace.all_articles s)) as Hlen
    by by apply Permutation_length.
  set (loc_c := fun c : Category.t => (base ++ "/category/" ++ Category.slug c)%string).
  set (loc_a := fun a : Article.t => (base ++ "/article/" ++ Article.id a)%string).
  set (J1 := Routes.join_map
               (fun c => Routes.url_entry (loc_c c) date "daily" "0.8") cats).
  set (J2 := Routes.join_map
               (fun a => Routes.url_entry (loc_a a)
                           (isoDate (Article.updatedAt a)) "weekly" "0.7") arts).
  set (head := Routes.sitemap_head base date).
  change ((if all_chars is_char (head ++ J1 ++ J2 ++ "</urlset>")
           then check (S (String.length (head ++ J1 ++ J2 ++ "</urlset>")))
                      true (head ++ J1 ++ J2 ++ "</urlset>") [] 0 0
           else None)
          = Some (length cats + length (Trace.all_articles s) + 3)%nat).
  assert (Forall (fun c => loc_c c <> EmptyString /\ plain (loc_c c) = true
                           /\ date <> EmptyString /\ plain date = true) cats)
    as Hcats'.
  { eapply Forall_impl; [exact Hcats|]. intros c Hc. cbv beta in *.
    unfold loc_c. split_and!.
    - apply append_not_empty. discriminate.
    - by repeat apply plain_append.
    - apply isoDate_not_empty.
    - apply isoDate_plain. }
  assert (Forall (fun a => loc_a a <> EmptyString /\ plain (loc_a a) = true
                           /\ isoDate (Article.updatedAt a) <> EmptyString
                           /\ plain (isoDate (Article.updatedAt a)) = true)
                 arts) as Harts'.
  { eapply Forall_impl.
    - eapply Permutation_Forall; [symmetry; exact Hperm | exact Harts].
    - intros a Ha. cbv beta in *. unfold loc_a. split_and!.
      + apply append_not_empty. discriminate.
      + by repeat apply plain_append.
      + apply isoDate_not_empty.
      + apply isoDate_plain. }
  assert (all_chars is_char (head ++ J1 ++ J2 ++ "</urlset>") = true) as ->.
  { rewrite !all_chars_append. unfold head, J1, J2.
    rewrite chars_sitemap_head by (done || apply isoDate_plain).
    rewrite (chars_join_map loc_c (fun _ => date) "daily" "0.8") by done.
    by rewrite (chars_join_map loc_a
                  (fun a => isoDate (Article.updatedAt a)) "weekly" "0.7")
      by done. }
  assert (exists k,
            S (String.length (head ++ J1 ++ J2 ++ "</urlset>"))
            = (69 + (20 * length cats + (20 * length arts + (3 + k))))%nat)
    as [k Hk].
  { rewrite !length_append.
    assert (72 <= String.length head)%nat by apply length_sitemap_head.
    assert (20 * length cats <= String.length J1)%nat
      by apply (length_join_map loc_c (fun _ => date) "daily" "0.8" cats).
    assert (20 * length arts <= String.length J2)%nat
      by apply (length_join_map loc_a
                  (fun a => isoDate (Article.updatedAt a)) "weekly" "0.7" arts).
    exists (S (String.length head + (String.length J1 + (String.length J2
               + String.length "</urlset>")))
            - (72 + 20 * length cats + 20 * length arts))%nat.
    lia. }
  rewrite Hk. unfold head.
  rewrite check_sitemap_head;
    [|done | apply isoDate_not_empty | apply isoDate_plain].
  unfold J1.
  rewrite (check_url_entries loc_c (fun _ => date) "daily" "0.8"); try done.
  unfold J2.
  rewrite (check_url_entries loc_a (fun a => isoDate (Article.updatedAt a))
             "weekly" "0.7"); try done.
  rewrite check_sitemap_end. f_equal. lia.
Qed.

(** C7. Slugs are copied into the document as they are, without
    escaping. From the seeded store, whose sitemap has nineteen entries
    for seven categories and nine articles, [POST /api/categories]
    accepts a category with the slug [q&a], and the document sent
    afterwards is not well-formed; it accepts one whose slug holds a
    vertical tab, with the same effect; and it accepts one whose slug
    holds markup, after which the document is well-formed with twenty-one
    entries for eight categories and nine articles. *)
Theorem C7_sitemap_copies_slugs_unescaped :
  let with_ampersand :=
    snd (Routes.POST_categories "cat-1" Examples.ampersand_category
                                Examples.seeded) in
  let with_markup :=
    snd (Routes.POST_categories "cat-2" Examples.markup_category
                                Examples.seeded) in
  let with_control :=
    snd (Routes.POST_categories "cat-3" Examples.control_category
                                Examples.seeded) in
  Xml.url_entries
    (Spec.sent_text
       (Routes.GET_sitemap Examples.env 1700000000000 Examples.seeded))
  = Some 19%nat
  /\ Routes.status
       (fst (Routes.POST_categories "cat-1" Examples.ampersand_category
                                    Examples.seeded)) = 201%Z
  /\ Trace.reachable with_ampersand
  /\ Xml.well_formed
       (Spec.sent_text
          (Routes.GET_sitemap Examples.env 1700000000000 with_ampersand))
     = false
  /\ ~ Spec.sitemap_lists_every_page Examples.env 1700000000000 with_ampersand
  /\ Routes.status
       (fst (Routes.POST_categories "cat-2" Examples.markup_category
                                    Examples.seeded)) = 201%Z
  /\ Trace.reachable with_markup
  /\ length (MemStorage.getCategories with_markup) = 8%nat
  /\ length (Trace.all_articles with_markup) = 9%nat
  /\ Xml.url_entries
       (Spec.sent_text
          (Routes.GET_sitemap Examples.env 1700000000000 with_markup))
     = Some 21%nat
  /\ ~ Spec.sitemap_lists_every_page Examples.env 1700000000000 with_markup
  /\ Routes.status
       (fst (Routes.POST_categories "cat-3" Examples.control_category
                                    Examples.seeded)) = 201%Z
  /\ Trace.reachable with_control
  /\ includes
       (Spec.sent_text
          (Routes.GET_sitemap Examples.env 1700000000000 with_control))
       Examples.control_slug = true
  /\ Xml.well_formed
       (Spec.sent_text
          (Routes.GET_sitemap Examples.env 1700000000000 with_control))
     = false
  /\ ~ Spec.sitemap_lists_every_page Examples.env 1700000000000 with_control.
Proof.
  intros with_ampersand with_markup with_control.
  assert (with_ampersand
          = Trace.exec
              (Trace.CreateCategory "cat-1"
                 (InsertCategory.mk "Q&A" "q&a" None
                    "bg-gray-100 text-gray-700"))
              Examples.seeded) as E1 by (vm_compute; reflexivity).
  assert (with_markup
          = Trace.exec
              (Trace.CreateCategory "cat-2"
                 (InsertCategory.mk "Extra" "x</loc></url><url><loc>y" None
                    "bg-gray-100 text-gray-700"))
              Examples.seeded) as E2 by (vm_compute; reflexivity).
  assert (with_control
          = Trace.exec
              (Trace.CreateCategory "cat-3"
                 (InsertCategory.mk "Tab" Examples.control_slug None
                    "bg-gray-100 text-gray-700"))
              Examples.seeded) as E3 by (vm_compute; reflexivity).
  split_and!.
  - vm_compute. reflexivity.
  - vm_compute. reflexivity.
  - rewrite E1. do 2 constructor.
  - vm_compute. reflexivity.
  - intros H. vm_compute in H. discriminate.
  - vm_compute. reflexivity.
  - rewrite E2. do 2 constructor.
  - vm_compute. reflexivity.
  - vm_compute. reflexivity.
  - vm_compute. reflexivity.
  - intros H. vm_compute in H. discriminate.
  - vm_compute. reflexivity.
  - rewrite E3. do 2 constructor.
  - vm_compute. reflexivity.
  - vm_compute. reflexivity.
  - intros H. vm_compute in H. discriminate.
Qed.

End Sitemap.

(** ** The theorems at work on the seeded store *)

Section Witnesses.
Import JS.

Lemma C3_fetch_counts_one_view_witness :
  Routes.GET_article "no-such-id" Examples.seeded
  = (Routes.mkResponse 404 (Routes.Json_error "Article not found"),
     Examples.seeded)
  /\ exists a a' s',
       Trace.lookup Examples.seeded "uuid-h" = Some a
       /\ Article.views a = Some 1250%Z
       /\ Routes.GET_article "uuid-h" Examples.seeded
          = (Routes.mkResponse 200 (Routes.Json_article a'), s')
       /\ Trace.lookup s' "uuid-h" = Some a'
       /\ Article.views a' = Some 1251%Z
       /\ Article.likes a' = Some 234%Z
       /\ Article.title a' = Article.title a
       /\ Trace.lookup s' "uuid-i" = Trace.lookup Examples.seeded "uuid-i".
Proof.
  split.
  - apply (C3_fetch_counts_one_view Examples.seeded "no-such-id").
    + apply Trace.reach_construct.
    + vm_compute. reflexivity.
  - destruct (C3_fetch_counts_one_view Examples.seeded "uuid-h"
                (Trace.reach_construct _ _)) as [_ H].
    edestruct H
      as (a' & s' & v & Hget & Hv & Hl' & Hv' & _ & Ht & _ & _ & _ & _ & _
          & _ & _ & _ & _ & _ & Hlikes & _ & _ & Hother & _).
    { vm_compute. reflexivity. }
    vm_compute in Hv. injection Hv as <-.
    eexists _, a', s'. split_and!.
    + vm_compute. reflexivity.
    + reflexivity.
    + exact Hget.
    + exact Hl'.
    + exact Hv'.
    + exact Hlikes.
    + exact Ht.
    + apply Hother. discriminate.
Defined.

Lemma C5_counters_only_count_up_witness :
  Trace.counters_ok (Trace.run Examples.session Examples.seeded)
  /\ forall id a a',
       Trace.lookup Examples.seeded id = Some a ->
       Trace.lookup (Trace.run Examples.session Examples.seeded) id = Some a' ->
       exists v l,
         Article.views a = Some v /\ Article.likes a = Some l
         /\ (0 <= v)%Z /\ (0 <= l)%Z
         /\ Article.views a'
            = Some (v + Trace.count_views id Examples.session)%Z
         /\ Article.likes a'
            = Some (l + Trace.count_likes id Examples.session)%Z
         /\ (0 <= Trace.count_views id Examples.session)%Z
         /\ (0 <= Trace.count_likes id Examples.session)%Z.
Proof.
  apply (C5_counters_only_count_up Examples.seeded Examples.session).
  - apply Trace.reach_construct.
  - unfold Trace.fresh_ids. apply (bool_decide_unpack _). vm_compute. exact I.
Defined.

Lemma C8_missing_id_and_deletes_witness :
  MemStorage.updateArticle 0 "no-such-id" Examples.retitle Examples.seeded
  = (None, Examples.seeded)
  /\ Routes.PUT_article 0 "no-such-id" Examples.retitle_body Examples.seeded
     = (Routes.mkResponse 404 (Routes.Json_error "Article not found"),
        Examples.seeded)
  /\ fst (MemStorage.deleteArticle "uuid-h" Examples.seeded) = true
  /\ Trace.lookup (snd (MemStorage.deleteArticle "uuid-h" Examples.seeded))
                  "uuid-h" = None
  /\ MemStorage.deleteArticle "no-such-id" Examples.seeded
     = (false, Examples.seeded).
Proof.
  destruct (C8_missing_id_and_deletes Examples.seeded "no-such-id" "uuid-h" 0)
    as (Hupdate & Hput & _ & (Htrue & _ & Hgone & _) & _).
  { apply Trace.reach_construct. }
  { vm_compute. reflexivity. }
  destruct (C8_missing_id_and_deletes Examples.seeded "no-such-id"
              "no-such-id" 0)
    as (_ & _ & _ & (Hiff & _ & _ & _ & Hsame) & _).
  { apply Trace.reach_construct. }
  { vm_compute. reflexivity. }
  split_and!.
  - apply Hupdate.
  - apply (Hput Examples.retitle_body Examples.retitle).
    vm_compute. reflexivity.
  - apply Htrue. apply (bool_decide_unpack _). vm_compute. exact I.
  - exact Hgone.
  - assert (fst (MemStorage.deleteArticle "no-such-id" Examples.seeded)
            = false) as Hf by (vm_compute; reflexivity).
    rewrite (surjective_pairing
               (MemStorage.deleteArticle "no-such-id" Examples.seeded)).
    rewrite (Hsame Hf), Hf. reflexivity.
Defined.

Lemma C9_response_carries_counted_view_witness :
  exists a,
    Trace.lookup Examples.seeded "uuid-h" = Some a
    /\ exists s' s'',
         Routes.GET_article "uuid-h" Examples.seeded
         = (Routes.mkResponse 200
              (Routes.Json_article (Article.set_views (1250 + 1) a)), s')
         /\ Trace.lookup s' "uuid-h" = Some (Article.set_views (1250 + 1) a)
         /\ Routes.GET_article "uuid-h" s'
            = (Routes.mkResponse 200
                 (Routes.Json_article (Article.set_views (1250 + 2) a)), s'')
         /\ Trace.lookup s'' "uuid-h"
            = Some (Article.set_views (1250 + 2) a).
Proof.
  eexists. split.
  - vm_compute. reflexivity.
  - apply (C9_response_carries_counted_view Examples.seeded "uuid-h").
    + apply Trace.reach_construct.
    + vm_compute. reflexivity.
    + reflexivity.
Defined.

Lemma C10_flag_parameters_coerced_witness :
  SearchParams.published
    (Routes.safeParams
       (Routes.with_published (Some (QStr "TRUE")) Examples.business))
  = Some false.
Proof.
  apply (C10_flag_parameters_coerced Examples.business Examples.seeded "TRUE").
  apply String.eqb_neq. reflexivity.
Defined.

Lemma C4_create_article_witness :
  (exists issues,
     Routes.POST_articles "uuid-z" 1700000000006
       (Some (JObj Examples.untitled_body)) Examples.seeded
     = (Routes.mkResponse 400
          (Routes.Json_invalid "Invalid article data" issues),
        Examples.seeded)
     /\ In (Zod.invalid_type "string" None [Zod.Key "title"]) issues)
  /\ exists a s',
       Routes.POST_articles "uuid-z" 1700000000006 Examples.article_body
                            Examples.seeded
       = (Routes.mkResponse 201 (Routes.Json_article a), s')
       /\ Article.id a = "uuid-z"
       /\ Article.views a = Some 0%Z
       /\ Article.likes a = Some 0%Z
       /\ Article.title a = "Budget vote"
       /\ Trace.lookup s' "uuid-z" = Some a.
Proof.
  destruct (C4_create_article "uuid-z" 1700000000006 Examples.seeded)
    as (H400 & H201 & _).
  split.
  - apply (H400 Examples.untitled_body "title").
    + simpl. left. reflexivity.
    + reflexivity.
  - apply (H201 Examples.article_body Examples.new_article).
    vm_compute. reflexivity.
Defined.

Lemma C1_storages_agree_on_flags_witness :
  let from_db :=
    DatabaseStorage.getArticles DatabaseStorage.scan_order
      (Some Examples.only_unfeatured) Examples.rows_db in
  let from_mem :=
    Routes.read_refs Examples.rows_mem
      (MemStorage.getArticles (Some Examples.only_unfeatured)
                              Examples.rows_mem) in
  Permutation from_db from_mem
  /\ Spec.newest_first from_db
  /\ Spec.newest_first from_mem
  /\ (NoDup (List.map Article.createdAt (Trace.all_articles Examples.rows_mem)) ->
      from_db = from_mem)
  /\ Permutation
       (DatabaseStorage.getCommentsByArticleId "a1" Examples.rows_db)
       (MemStorage.getCommentsByArticleId "a1" Examples.rows_mem).
Proof.
  apply (C1_storages_agree_on_flags DatabaseStorage.scan_order
           Examples.rows_db Examples.rows_mem
           (Some Examples.only_unfeatured) "a1").
  - apply stable_sorts_newest_first.
  - split; reflexivity.
  - reflexivity.
  - reflexivity.
  - reflexivity.
Defined.

End Witnesses.

(* ================================================================== *)
(** * Further properties of the routes and the store *)
(* ================================================================== *)

(** ** Likes and views *)

Section LikesAndViews.
Import JS.
Implicit Types (s : MemStorage.t) (id : string).

Lemma num_or_zero (o : option Z) v : o = Some v -> num_or o 0 = v.
Proof. intros ->. unfold num_or. destruct (Z.eqb_spec v 0); congruence. Qed.

Lemma POST_like_present s id a l :
  Trace.wf s -> Trace.lookup s id = Some a -> Article.likes a = Some l ->
  exists r,
    get id (MemStorage.articles s) = Some r
    /\ Routes.POST_like id s
       = (Routes.mkResponse 200 (Routes.Json_likes (Some (l + 1)%Z)),
          Trace.poke id r (Article.set_likes (l + 1) a) s).
Proof.
  intros Hwf Hl Hv.
  apply get_object_lookup_Some in Hl as [r Hobj].
  pose proof Hobj as Hobj'. apply get_object_Some in Hobj' as [Hg Hh].
  exists r. split; [done|].
  unfold Routes.POST_like.
  rewrite (toggleLike_poke _ _ _ _ Hobj), (num_or_zero _ _ Hv).
  unfold Trace.poke at 1. cbn [MemStorage.heap].
  rewrite list_lookup_insert_eq; [done|]. by eapply lookup_lt_Some.
Qed.

(** X1. [POST /api/articles/:id/like] for an id that is not stored answers
    404 and leaves the store as it is. For a stored id it answers 200 with
    the likes of the article after the like, which is one more than before;
    no other article changes; a second like answers with two more than at
    the start. *)
Theorem like_route_counts_one_like (s : MemStorage.t) (id : string) :
  Trace.reachable s ->
  (Trace.lookup s id = None ->
   Routes.POST_like id s
   = (Routes.mkResponse 404 (Routes.Json_error "Article not found"), s))
  /\ (forall a,
        Trace.lookup s id = Some a ->
        exists l s' s'',
          Article.likes a = Some l
          /\ Routes.POST_like id s
             = (Routes.mkResponse 200 (Routes.Json_likes (Some (l + 1)%Z)), s')
          /\ Trace.lookup s' id = Some (Article.set_likes (l + 1) a)
          /\ (forall id', id' <> id -> Trace.lookup s' id' = Trace.lookup s id')
          /\ MemStorage.articles s' = MemStorage.articles s
          /\ Routes.POST_like id s'
             = (Routes.mkResponse 200 (Routes.Json_likes (Some (l + 2)%Z)), s'')
          /\ Trace.lookup s'' id = Some (Article.set_likes (l + 2) a)).
Proof.
  intros Hr. split.
  - intros H. apply get_object_lookup in H.
    unfold Routes.POST_like, MemStorage.toggleLike. by rewrite H.
  - intros a Hl.
    pose proof (reachable_wf _ Hr) as Hwf.
    destruct (reachable_counters _ Hr _ _ Hl) as (v & l & _ & Hlk & _).
    destruct (POST_like_present _ _ _ _ Hwf Hl Hlk) as (r & Hg & Heq).
    pose proof Hl as Hl'. apply lookup_Some in Hl' as (r' & Hg' & Hh).
    assert (r' = r) as -> by congruence.
    set (a1 := Article.set_likes (l + 1) a).
    set (s1 := Trace.poke id r a1 s).
    assert (Trace.lookup s1 id = Some a1) as Hl1 by by eapply lookup_poke_eq.
    assert (Trace.wf s1) as Hwf1 by by apply wf_poke.
    destruct (POST_like_present s1 id a1 (l + 1) Hwf1 Hl1 eq_refl)
      as (r1 & Hg1 & Heq1).
    assert (Article.set_likes (l + 1 + 1) a1 = Article.set_likes (l + 2) a)
      as Hset.
    { unfold a1, Article.set_likes. cbn. do 2 f_equal. lia. }
    rewrite Hset in Heq1.
    exists l, s1, (Trace.poke id r1 (Article.set_likes (l + 2) a) s1).
    split_and!; try done.
    + intros id' Hne. by apply lookup_poke_ne.
    + by apply poke_articles.
    + by replace (l + 1 + 1)%Z with (l + 2)%Z in Heq1 by lia.
    + pose proof Hl1 as Hl1'. apply lookup_Some in Hl1' as (r1' & Hg1' & Hh1).
      assert (r1' = r1) as -> by congruence.
      by eapply lookup_poke_eq.
Qed.

Lemma POST_views_present s id a v :
  Trace.wf s -> Trace.lookup s id = Some a -> Article.views a = Some v ->
  exists r,
    get id (MemStorage.articles s) = Some r
    /\ MemStorage.heap s !! r = Some a
    /\ MemStorage.incrementViews id s
       = Trace.poke id r (Article.set_views (v + 1) a) s.
Proof.
  intros Hwf Hl Hv.
  apply get_object_lookup_Some in Hl as [r Hobj].
  pose proof Hobj as Hobj'. apply get_object_Some in Hobj' as [Hg Hh].
  exists r. split_and!; [done..|].
  by rewrite (incrementViews_poke _ _ _ _ Hobj), (num_or_zero _ _ Hv).
Qed.

(** X2. [POST /api/articles/:id/views] answers 200 with the same message for
    every id. For an id that is not stored the store stays as it is; for a
    stored id the views of that article go up by one and nothing else
    changes. *)
Theorem views_route_always_answers_200 (s : MemStorage.t) (id : string) :
  Trace.reachable s ->
  fst (Routes.POST_views id s)
  = Routes.mkResponse 200 (Routes.Json_message "View counted")
  /\ (Trace.lookup s id = None -> snd (Routes.POST_views id s) = s)
  /\ (forall a,
        Trace.lookup s id = Some a ->
        exists v a',
          Article.views a = Some v
          /\ Trace.lookup (snd (Routes.POST_views id s)) id = Some a'
          /\ Article.views a' = Some (v + 1)%Z
          /\ a' = Article.set_views (v + 1) a
          /\ (forall id', id' <> id ->
                Trace.lookup (snd (Routes.POST_views id s)) id'
                = Trace.lookup s id')
          /\ MemStorage.articles (snd (Routes.POST_views id s))
             = MemStorage.articles s
          /\ MemStorage.comments (snd (Routes.POST_views id s))
             = MemStorage.comments s
          /\ MemStorage.categories (snd (Routes.POST_views id s))
             = MemStorage.categories s).
Proof.
  intros Hr. split; [done|]. split.
  - intros H. apply get_object_lookup in H.
    unfold Routes.POST_views, MemStorage.incrementViews. by rewrite H.
  - intros a Hl.
    pose proof (reachable_wf _ Hr) as Hwf.
    destruct (reachable_counters _ Hr _ _ Hl) as (v & l & Hv & _).
    destruct (POST_views_present _ _ _ _ Hwf Hl Hv) as (r & Hg & Hh & Heq).
    exists v, (Article.set_views (v + 1) a).
    unfold Routes.POST_views. cbn [snd]. rewrite Heq.
    split_and!; try done.
    + by eapply lookup_poke_eq.
    + intros id' Hne. by apply lookup_poke_ne.
    + by apply poke_articles.
Qed.

(** X3. The two requests that show an article and count its view, the fetch
    [GET /api/articles/:id] followed by [POST /api/articles/:id/views],
    raise the views of a stored article by two; the article sent by the
    fetch carries the first of the two increments. *)
Theorem fetch_then_view_counts_two (s : MemStorage.t) (id : string)
    (a : Article.t) :
  Trace.reachable s ->
  Trace.lookup s id = Some a ->
  exists v s1 a1 a2,
    Article.views a = Some v
    /\ Routes.GET_article id s
       = (Routes.mkResponse 200 (Routes.Json_article a1), s1)
    /\ Article.views a1 = Some (v + 1)%Z
    /\ a1 = Article.set_views (v + 1) a
    /\ Trace.lookup (snd (Routes.POST_views id s1)) id = Some a2
    /\ Article.views a2 = Some (v + 2)%Z
    /\ a2 = Article.set_views (v + 2) a
    /\ (forall id', id' <> id ->
          Trace.lookup (snd (Routes.POST_views id s1)) id'
          = Trace.lookup s id').
Proof.
  intros Hr Hl.
  pose proof (reachable_wf _ Hr) as Hwf.
  destruct (reachable_counters _ Hr _ _ Hl) as (v & l & Hv & _ & Hv0 & _).
  destruct (GET_article_present _ _ _ _ Hwf Hl Hv Hv0) as (r & Hg & Heq).
  pose proof Hl as Hl'. apply lookup_Some in Hl' as (r' & Hg' & Hh).
  assert (r' = r) as -> by congruence.
  set (a1 := Article.set_views (v + 1) a) in *.
  set (s1 := Trace.poke id r a1 s) in *.
  assert (Trace.lookup s1 id = Some a1) as Hl1 by by eapply lookup_poke_eq.
  assert (Trace.wf s1) as Hwf1 by by apply wf_poke.
  destruct (POST_views_present s1 id a1 (v + 1) Hwf1 Hl1 eq_refl)
    as (r1 & Hg1 & Hh1 & Heq1).
  assert (Article.set_views (v + 1 + 1) a1 = Article.set_views (v + 2) a)
    as Hset.
  { unfold a1, Article.set_views. cbn. do 2 f_equal. lia. }
  rewrite Hset in Heq1.
  exists v, s1, a1, (Article.set_views (v + 2) a). split_and!; try done.
  - unfold Routes.POST_views. cbn [snd]. rewrite Heq1.
    by eapply lookup_poke_eq.
  - intros id' Hne. unfold Routes.POST_views. cbn [snd]. rewrite Heq1.
    rewrite lookup_poke_ne by done. by apply lookup_poke_ne.
Qed.

End LikesAndViews.

(** ** Identifiers *)

Section OwnIds.
Import JS.
Implicit Types (s : MemStorage.t) (id : string).

Lemma get_remove_eq {V : Type} (m : Map V) k :
  NoDup (keys m) -> get k (remove k m) = None.
Proof. intros H. apply get_None_keys. by apply keys_remove_gone. Qed.

Lemma get_set_own {V : Type} (key : V -> string) (m : Map V) k v :
  key v = k ->
  (forall k' v', get k' m = Some v' -> key v' = k') ->
  forall k' v', get k' (set k v m) = Some v' -> key v' = k'.
Proof.
  intros Hv Hm k' v' Hg. destruct (decide (k = k')) as [<-|Hne].
  - rewrite get_set_eq in Hg. congruence.
  - rewrite get_set_ne in Hg by done. eauto.
Qed.

Lemma get_remove_own {V : Type} (key : V -> string) (m : Map V) k :
  NoDup (keys m) ->
  (forall k' v', get k' m = Some v' -> key v' = k') ->
  forall k' v', get k' (remove k m) = Some v' -> key v' = k'.
Proof.
  intros Hnd Hm k' v' Hg. destruct (decide (k = k')) as [<-|Hne].
  - by rewrite get_remove_eq in Hg.
  - rewrite get_remove_ne in Hg by done. eauto.
Qed.

Lemma own_ids_store_new s id a :
  Trace.wf s -> Trace.own_ids s -> Article.id a = id ->
  Trace.own_ids (MemStorage.store_new id a s).2.
Proof.
  intros Hwf (Ha & Hc & Hg) Hid. split; [|done].
  intros id' a' Hl. destruct (decide (id' = id)) as [->|Hne].
  - rewrite lookup_store_new_eq in Hl. congruence.
  - rewrite lookup_store_new_ne in Hl by done. eauto.
Qed.

Lemma own_ids_poke s id r a a' :
  Trace.wf s -> Trace.own_ids s ->
  MemStorage.get_object id s = Some (r, a) -> Article.id a' = Article.id a ->
  Trace.own_ids (Trace.poke id r a' s).
Proof.
  intros Hwf (Ha & Hc & Hg) Hobj Hid. split; [|done].
  pose proof Hobj as Hobj'. apply get_object_Some in Hobj' as [Hget Hh].
  assert (Trace.lookup s id = Some a) as Hl
    by (apply get_object_lookup_Some; eauto).
  intros id' a'' Hl'. destruct (decide (id' = id)) as [->|Hne].
  - rewrite (lookup_poke_eq _ _ _ a) in Hl' by done.
    injection Hl' as <-. rewrite Hid. eauto.
  - rewrite lookup_poke_ne in Hl' by done. eauto.
Qed.

Lemma own_ids_exec op s :
  Trace.wf s -> Trace.own_ids s -> Trace.own_ids (Trace.exec op s).
Proof.
  intros Hwf Hok. pose proof Hok as (Ha & Hc & Hg).
  destruct op; cbn [Trace.exec].
  - by apply own_ids_store_new.
  - unfold MemStorage.updateArticle.
    destruct (MemStorage.get_object id s) as [[r a]|] eqn:E; [|done].
    apply (own_ids_store_new s id); try done. cbn.
    apply Ha, get_object_lookup_Some; eauto.
  - split; [|done]. intros id' a Hl. destruct (decide (id' = id)) as [->|Hne].
    + by rewrite lookup_deleteArticle_eq in Hl.
    + rewrite lookup_deleteArticle_ne in Hl by done. eauto.
  - destruct (MemStorage.get_object id s) as [[r a]|] eqn:E.
    2:{ unfold MemStorage.incrementViews. by rewrite E. }
    rewrite (incrementViews_poke _ _ _ _ E). by eapply own_ids_poke.
  - destruct (MemStorage.get_object id s) as [[r a]|] eqn:E.
    2:{ unfold MemStorage.toggleLike. by rewrite E. }
    rewrite (toggleLike_poke _ _ _ _ E). cbn [snd]. by eapply own_ids_poke.
  - split; [done|]. split; [|done]. cbn.
    by apply (get_set_own Comment.id).
  - split; [done|]. split; [|done]. cbn.
    apply (get_remove_own Comment.id); [apply Hwf|done].
  - split; [done|]. split; [done|]. cbn.
    by apply (get_set_own Category.id).
  - unfold MemStorage.updateCategory.
    destruct (get id (MemStorage.categories s)) as [c|] eqn:E; [|done].
    split; [done|]. split; [done|]. cbn.
    apply (get_set_own Category.id); [|done]. cbn. eauto.
  - split; [done|]. split; [done|]. cbn.
    apply (get_remove_own Category.id); [apply Hwf|done].
Qed.

Lemma sampleArticles_ids :
  Forall (fun f : string -> Z -> Article.t =>
            forall id now, Article.id (f id now) = id)
         MemStorage.sampleArticles.
Proof.
  unfold MemStorage.sampleArticles.
  repeat (apply Forall_cons; split; [intros id now; reflexivity|]).
  apply Forall_nil. done.
Qed.

Lemma seedCategories_ids :
  Forall (fun f : string -> Category.t => forall id, Category.id (f id) = id)
         MemStorage.seedCategories.
Proof.
  unfold MemStorage.seedCategories.
  repeat (apply Forall_cons; split; [intros id; reflexivity|]).
  apply Forall_nil. done.
Qed.

Lemma own_ids_seedData uuid clock s :
  Trace.wf s -> Trace.own_ids s ->
  Trace.wf (MemStorage.seedData uuid clock s)
  /\ Trace.own_ids (MemStorage.seedData uuid clock s).
Proof.
  intros Hwf Hok. unfold MemStorage.seedData.
  pose proof (Forall_combine_r _ (seq 0 (length MemStorage.sampleArticles)) _
                sampleArticles_ids) as Harts.
  pose proof (Forall_combine_r _ (seq 0 (length MemStorage.seedCategories)) _
                seedCategories_ids) as Hcats.
  revert Harts Hcats.
  generalize (combine (seq 0 (length MemStorage.seedCategories))
                      MemStorage.seedCategories).
  generalize (combine (seq 0 (length MemStorage.sampleArticles))
                      MemStorage.sampleArticles).
  generalize (length MemStorage.seedCategories).
  intros n arts cats Harts Hcats.
  eapply (fold_left_invariant_Forall
            (fun st => Trace.wf st /\ Trace.own_ids st));
    [|exact Harts|].
  2:{ eapply (fold_left_invariant_Forall
                (fun st => Trace.wf st /\ Trace.own_ids st));
      [|exact Hcats|done].
    cbv beta. intros st [i cat] Hcat [[H1 H2 H3 H4 H5] (Ha & Hc & Hg)]. split.
    - constructor; simpl; try assumption. apply NoDup_keys_set, H5.
    - split; [done|]. split; [done|]. cbn.
      apply (get_set_own Category.id); [apply Hcat|done]. }
  cbv beta. intros st [j art] Hart [Hst Hc]. split.
  - apply wf_store_new, Hst.
  - apply own_ids_store_new; try assumption. apply Hart.
Qed.

Lemma reachable_own_ids s : Trace.reachable s -> Trace.own_ids s.
Proof.
  induction 1 as [uuid clock|op s Hr IH].
  - refine (proj2 (own_ids_seedData uuid clock MemStorage.empty wf_empty _)).
    split_and!; intros id a Hl; discriminate.
  - apply own_ids_exec; [by apply reachable_wf | done].
Qed.

Lemma all_articles_ids s :
  Trace.wf s -> Trace.own_ids s ->
  List.map Article.id (Trace.all_articles s) = keys (MemStorage.articles s).
Proof.
  intros Hwf (Ha & _). rewrite <- read_refs_all.
  assert (forall k r, (k, r) ∈ MemStorage.articles s ->
            exists a, MemStorage.heap s !! r = Some a /\ Article.id a = k)
    as Hm.
  { intros k r Hin.
    assert (get k (MemStorage.articles s) = Some r) as Hg
      by (apply elem_get_Some; [apply Hwf|done]).
    assert (r < length (MemStorage.heap s))%nat as Hlt.
    { pose proof (Trace.wf_bound _ Hwf) as Hb. rewrite Forall_forall in Hb.
      apply Hb. by eapply get_values. }
    apply lookup_lt_is_Some in Hlt as [a Hh]. exists a. split; [done|].
    apply Ha, lookup_Some. eauto. }
  revert Hm. unfold Routes.read_refs.
  generalize (MemStorage.heap s). generalize (MemStorage.articles s).
  intros m h. induction m as [|[k r] m IH]; intros Hm; [done|].
  cbn. destruct (Hm k r) as (a & Hh & Hid); [left|].
  rewrite Hh. cbn. rewrite Hid. f_equal. apply IH.
  intros k' r' Hin. apply Hm. by right.
Qed.

End OwnIds.

Section Identifiers.
Import JS.

(** X4. Each article, comment and category of a state of the store is filed
    under the id it carries. The ids of the articles, comments and
    categories, read in the order of the maps, are therefore the keys of the
    maps, and no two entries of a map share an id. *)
Theorem entries_filed_under_own_id (s : MemStorage.t) :
  Trace.reachable s ->
  Trace.own_ids s
  /\ List.map Article.id (Trace.all_articles s) = keys (MemStorage.articles s)
  /\ List.map Comment.id (values (MemStorage.comments s))
     = keys (MemStorage.comments s)
  /\ List.map Category.id (MemStorage.getCategories s)
     = keys (MemStorage.categories s)
  /\ NoDup (List.map Article.id (Trace.all_articles s))
  /\ NoDup (List.map Comment.id (values (MemStorage.comments s)))
  /\ NoDup (List.map Category.id (MemStorage.getCategories s)).
Proof.
  intros Hr.
  pose proof (reachable_wf _ Hr) as Hwf.
  pose proof (reachable_own_ids _ Hr) as Hown.
  assert (forall (V : Type) (key : V -> string) (m : JS.Map V),
            NoDup (JS.keys m) ->
            (forall k v, JS.get k m = Some v -> key v = k) ->
            List.map key (JS.values m) = JS.keys m) as Hvals.
  { intros V key m Hnd Hm.
    assert (forall k v, (k, v) ∈ m -> key v = k) as Hin
      by (intros k v Hkv; apply Hm; by apply elem_get_Some).
    clear Hnd Hm. induction m as [|[k v] m IH]; [done|].
    cbn. f_equal; [apply Hin; left|]. apply IH.
    intros k' v' H'. apply Hin. by right. }
  pose proof (all_articles_ids s Hwf Hown) as E1.
  pose proof (Hvals _ Comment.id _ (Trace.wf_comments _ Hwf)
                (proj1 (proj2 Hown))) as E2.
  pose proof (Hvals _ Category.id _ (Trace.wf_categories _ Hwf)
                (proj2 (proj2 Hown))) as E3.
  unfold MemStorage.getCategories.
  rewrite E1, E2, E3. split_and!; try done; apply Hwf.
Qed.

End Identifiers.

(** ** Updating an article *)

Section UpdateArticle.
Import JS.
Implicit Types (s : MemStorage.t) (id : string).


Lemma ap_inr {A B : Type} (f : Zod.Parsed (A -> B)) (x : Zod.Parsed A) y :
  Zod.ap f x = inr y -> exists g v, f = inr g /\ x = inr v /\ y = g v.
Proof.
  destruct f as [e|g], x as [e'|v]; simpl; try discriminate.
  intros [= <-]. eauto.
Qed.

Lemma field_string_optional k p o v :
  Zod.field Zod.z_string k p o = inr v ->
  Zod.field (Zod.optional Zod.z_string) k p o = inr (Some v).
Proof.
  unfold Zod.field, Zod.optional, Zod.z_string.
  destruct (prop k o) as [[]|]; try discriminate. by intros [= ->].
Qed.

(** X6. Every body that [insertArticleSchema] accepts is accepted by
    [insertArticleSchema.partial()], with every property of the parsed
    article present in the parsed update. The empty object, which the full
    schema rejects, is accepted as the update that names no property, and
    laying it over an article changes the date of update alone. *)
Theorem partial_schema_accepts_article_bodies :
  (forall body data,
     Zod.parse Zod.insertArticleSchema body = inr data ->
     Zod.parse Zod.insertArticleSchema_partial body
     = inr (PartialArticle.mk
              (Some (InsertArticle.title data))
              (Some (InsertArticle.content data))
              (Some (InsertArticle.excerpt data))
              (Some (InsertArticle.author data))
              (Some (InsertArticle.authorTitle data))
              (InsertArticle.authorImage data)
              (Some (InsertArticle.category data))
              (InsertArticle.tags data)
              (InsertArticle.imageUrl data)
              (InsertArticle.published data)
              (InsertArticle.featured data)))
  /\ (exists issues,
        Zod.parse Zod.insertArticleSchema (Some (JObj [])) = inl issues)
  /\ (exists nothing,
        Zod.parse Zod.insertArticleSchema_partial (Some (JObj [])) = inr nothing
        /\ forall a now,
             MemStorage.spread_updates a nothing now
             = Article.mk (Article.id a) (Article.title a) (Article.content a)
                 (Article.excerpt a) (Article.author a) (Article.authorTitle a)
                 (Article.authorImage a) (Article.category a) (Article.tags a)
                 (Article.imageUrl a) (Article.published a)
                 (Article.featured a) (Article.views a) (Article.likes a)
                 (Article.createdAt a) now).
Proof.
  split_and!.
  - intros body data H.
    destruct body as [[| | | | |o]|]; try discriminate.
    unfold Zod.parse, Zod.insertArticleSchema, Zod.insertArticleSchema_partial,
      Zod.z_object in *.
    repeat (apply ap_inr in H as (? & ? & H & ? & ->)).
    injection H as <-.
    repeat match goal with
           | H : Zod.field Zod.z_string _ _ _ = inr _ |- _ =>
               apply field_string_optional in H
           end.
    repeat match goal with
           | H : Zod.field _ _ _ _ = inr _ |- _ => rewrite H; clear H
           end.
    reflexivity.
  - eexists. vm_compute. reflexivity.
  - eexists. split; [vm_compute; reflexivity|]. intros a now. reflexivity.
Qed.

End UpdateArticle.

(** ** Comments *)

Section Comments.
Import JS.
Implicit Types (s : MemStorage.t) (id : string).

Lemma values_set_absent {V : Type} (m : Map V) k v :
  k ∉ keys m -> values (set k v m) = values m ++ [v].
Proof.
  induction m as [|[k' v'] m IH]; intros Hk; [done|].
  cbn in *. apply not_elem_of_cons in Hk as [Hne Hk].
  apply eqb_false_ne in Hne. rewrite Hne. cbn. f_equal. by apply IH.
Qed.

Lemma remove_set_absent {V : Type} (m : Map V) k v :
  k ∉ keys m -> remove k (set k v m) = m.
Proof.
  induction m as [|[k' v'] m IH]; intros Hk; cbn.
  - by rewrite String.eqb_refl.
  - cbn in Hk. apply not_elem_of_cons in Hk as [Hne Hk].
    apply eqb_false_ne in Hne. rewrite Hne. cbn. rewrite Hne.
    f_equal. by apply IH.
Qed.

Lemma remove_set_set {V : Type} (m : Map V) k1 k2 v1 v2 :
  k1 ∉ keys m -> k1 <> k2 ->
  remove k1 (set k2 v2 (set k1 v1 m)) = set k2 v2 m.
Proof.
  intros Hk Hne. induction m as [|[k' v'] m IH]; cbn.
  - apply eqb_false_ne in Hne as Hne1.
    assert (String.eqb k2 k1 = false) as Hne2
      by (apply eqb_false_ne; congruence).
    cbn. rewrite Hne2. cbn. by rewrite String.eqb_refl.
  - cbn in Hk. apply not_elem_of_cons in Hk as [Hne' Hk].
    apply eqb_false_ne in Hne'. rewrite Hne'. cbn.
    destruct (String.eqb k2 k') eqn:E; cbn; rewrite Hne'.
    + f_equal. by apply remove_set_absent.
    + f_equal. by apply IH.
Qed.

Lemma prop_not_string_field k p o :
  (forall v, prop k o <> Some (JStr v)) ->
  Zod.reports (Zod.invalid_type "string" (prop k o) (p ++ [Zod.Key k]))
              (Zod.field Zod.z_string k p o).
Proof.
  intros H. unfold Zod.field, Zod.z_string.
  destruct (prop k o) as [[| | |v| |]|];
    try (eexists; split; [reflexivity|by left]).
  by destruct (H v).
Qed.

Lemma prop_filter_ne k k0 (fields : list (string * JSON)) :
  k <> k0 ->
  prop k (List.filter (fun kv : string * JSON => negb (String.eqb kv.1 k0))
                      fields)
  = prop k fields.
Proof.
  intros Hne. induction fields as [|[k' x] fields IH]; simpl; [done|].
  destruct (String.eqb_spec k' k0) as [->|Hk']; simpl.
  { apply String.eqb_neq in Hne. by rewrite Hne. }
  by rewrite IH.
Qed.

(** X7. [POST /api/articles/:articleId/comments]. When [author], [email] and
    [content] of the body are strings the answer is 201 with the comment
    that is stored under the identifier drawn: its article is the one of the
    route, its date the date of the request. When one of the three is
    missing or is not a string the answer is 400, the issue names the
    property, and the store stays as it is. An [articleId] property of the
    body has no part in either. *)
Theorem comment_route_files_under_route_article (uuid : string) (now : Z)
    (articleId : string) (fields : list (string * JSON)) (s : MemStorage.t) :
  (forall author email content,
     prop "author" fields = Some (JStr author) ->
     prop "email" fields = Some (JStr email) ->
     prop "content" fields = Some (JStr content) ->
     let comment := Comment.mk uuid articleId author email content now in
     exists s',
       Routes.POST_comments uuid now articleId (Some (JObj fields)) s
       = (Routes.mkResponse 201 (Routes.Json_comment comment), s')
       /\ get uuid (MemStorage.comments s') = Some comment
       /\ (forall id, id <> uuid ->
             get id (MemStorage.comments s') = get id (MemStorage.comments s))
       /\ MemStorage.articles s' = MemStorage.articles s
       /\ MemStorage.heap s' = MemStorage.heap s
       /\ MemStorage.categories s' = MemStorage.categories s)
  /\ (forall k,
        In k ["author"; "email"; "content"] ->
        (forall v, prop k fields <> Some (JStr v)) ->
        exists issues,
          Routes.POST_comments uuid now articleId (Some (JObj fields)) s
          = (Routes.mkResponse 400
               (Routes.Json_invalid "Invalid comment data" issues), s)
          /\ In (Zod.invalid_type "string" (prop k fields) [Zod.Key k]) issues)
  /\ Routes.POST_comments uuid now articleId (Some (JObj fields)) s
     = Routes.POST_comments uuid now articleId
         (Some (JObj (List.filter
                        (fun kv : string * JSON =>
                           negb (String.eqb kv.1 "articleId"))
                        fields))) s.
Proof.
  split_and!.
  - intros author email content Ha He Hc comment.
    unfold Routes.POST_comments, Routes.with_articleId, Zod.parse,
      Zod.insertCommentSchema, Zod.z_object, Zod.field, Zod.z_string.
    cbn [prop]. rewrite !String.eqb_refl.
    change (String.eqb "author" "articleId") with false.
    change (String.eqb "email" "articleId") with false.
    change (String.eqb "content" "articleId") with false.
    cbv iota. rewrite Ha, He, Hc. cbn.
    eexists. split; [reflexivity|]. cbn. split_and!; try done.
    + apply get_set_eq.
    + intros id Hne. by apply get_set_ne.
  - intros k Hk Hnot.
    assert (Zod.reports (Zod.invalid_type "string" (prop k fields) [Zod.Key k])
              (Zod.parse Zod.insertCommentSchema
                 (Routes.with_articleId (Some (JObj fields)) articleId)))
      as (e & He & Hi).
    { unfold Zod.parse, Zod.insertCommentSchema, Zod.z_object,
        Routes.with_articleId.
      assert (k <> "articleId") as Hne.
      { simpl in Hk. destruct Hk as [<-|[<-|[<-|[]]]]; discriminate. }
      pose proof (prop_not_string_field k []
                    (("articleId", JStr articleId) :: fields)) as Hr.
      assert (prop k (("articleId", JStr articleId) :: fields) = prop k fields)
        as Hp.
      { cbn. apply String.eqb_neq in Hne. by rewrite Hne. }
      rewrite Hp in Hr. specialize (Hr Hnot). simpl app in Hr.
      simpl in Hk. destruct Hk as [<-|[<-|[<-|[]]]];
        repeat first [ apply reports_ap_r; exact Hr | apply reports_ap_l ]. }
    exists e. unfold Routes.POST_comments. by rewrite He.
  - unfold Routes.POST_comments, Routes.with_articleId, Zod.parse,
      Zod.insertCommentSchema, Zod.z_object, Zod.field.
    cbn [prop]. rewrite !String.eqb_refl.
    change (String.eqb "author" "articleId") with false.
    change (String.eqb "email" "articleId") with false.
    change (String.eqb "content" "articleId") with false.
    cbv iota. by rewrite !prop_filter_ne.
Qed.

(** X8. [GET /api/articles/:articleId/comments] answers 200 with the stored
    comments whose article is the one of the route, each as often as it is
    stored and no other, newest first. *)
Theorem comments_route_lists_article_comments (s : MemStorage.t)
    (articleId : string) :
  exists l,
    Routes.GET_comments articleId s
    = Routes.mkResponse 200 (Routes.Json_comments l)
    /\ Permutation l
         (List.filter
            (fun c => String.eqb (Comment.articleId c) articleId)
            (values (MemStorage.comments s)))
    /\ (forall c,
          In c l <->
          In c (values (MemStorage.comments s))
          /\ Comment.articleId c = articleId)
    /\ StronglySorted (descending Comment.createdAt) l.
Proof.
  eexists. split; [reflexivity|]. unfold MemStorage.getCommentsByArticleId.
  split_and!.
  - apply sort_perm.
  - intros c. rewrite sort_In, filter_In.
    by rewrite String.eqb_eq.
  - apply sort_descending.
Qed.

Lemma POST_comments_parsed uuid now articleId body s c :
  Zod.parse Zod.insertCommentSchema (Routes.with_articleId body articleId)
  = inr c ->
  Routes.POST_comments uuid now articleId body s
  = (Routes.mkResponse 201
       (Routes.Json_comment
          (Comment.mk uuid (InsertComment.articleId c) (InsertComment.author c)
             (InsertComment.email c) (InsertComment.content c) now)),
     MemStorage.mk (MemStorage.heap s) (MemStorage.articles s)
       (set uuid
          (Comment.mk uuid (InsertComment.articleId c) (InsertComment.author c)
             (InsertComment.email c) (InsertComment.content c) now)
          (MemStorage.comments s))
       (MemStorage.categories s)).
Proof. intros H. unfold Routes.POST_comments. by rewrite H. Qed.

Lemma DELETE_comment_present id s :
  id ∈ keys (MemStorage.comments s) ->
  Routes.DELETE_comment id s
  = (Routes.mkResponse 204 Routes.No_content,
     MemStorage.mk (MemStorage.heap s) (MemStorage.articles s)
       (remove id (MemStorage.comments s)) (MemStorage.categories s)).
Proof.
  intros H. apply has_true_keys in H.
  unfold Routes.DELETE_comment, MemStorage.deleteComment, delete.
  by rewrite H.
Qed.

Lemma keys_set_elem {V : Type} (m : Map V) k v : k ∈ keys (set k v m).
Proof.
  apply has_true_keys. unfold has. by rewrite get_set_eq.
Qed.

Lemma keys_set_other {V : Type} (m : Map V) k k' v :
  k' ∈ keys m -> k' ∈ keys (set k v m).
Proof.
  intros H. destruct (decide (k = k')) as [<-|Hne]; [apply keys_set_elem|].
  apply has_true_keys. apply has_true_keys in H. unfold has in *.
  by rewrite get_set_ne.
Qed.

(** X9. Two comments posted to an article under identifiers that are new to
    the store, and the first of them deleted again: the deletion answers 204
    and the store is the one that the second comment alone would have left.
    The article then shows the comments it had and the second one; when it
    had none, exactly that one. *)
Theorem two_comments_less_one (uuid1 uuid2 : string) (now1 now2 : Z)
    (articleId : string) (body1 body2 : option JSON) (s : MemStorage.t)
    (c1 c2 : InsertComment.t) :
  uuid1 ∉ keys (MemStorage.comments s) ->
  uuid2 ∉ keys (MemStorage.comments s) ->
  uuid1 <> uuid2 ->
  Zod.parse Zod.insertCommentSchema (Routes.with_articleId body1 articleId)
  = inr c1 ->
  Zod.parse Zod.insertCommentSchema (Routes.with_articleId body2 articleId)
  = inr c2 ->
  let s1 := snd (Routes.POST_comments uuid1 now1 articleId body1 s) in
  let s2 := snd (Routes.POST_comments uuid2 now2 articleId body2 s1) in
  let second :=
    Comment.mk uuid2 articleId (InsertComment.author c2)
               (InsertComment.email c2) (InsertComment.content c2) now2 in
  Routes.DELETE_comment uuid1 s2
  = (Routes.mkResponse 204 Routes.No_content,
     snd (Routes.POST_comments uuid2 now2 articleId body2 s))
  /\ values (MemStorage.comments (snd (Routes.DELETE_comment uuid1 s2)))
     = values (MemStorage.comments s) ++ [second]
  /\ (Routes.GET_comments articleId s
      = Routes.mkResponse 200 (Routes.Json_comments []) ->
      Routes.GET_comments articleId (snd (Routes.DELETE_comment uuid1 s2))
      = Routes.mkResponse 200 (Routes.Json_comments [second])).
Proof.
  intros H1 H2 Hne Hp1 Hp2 s1 s2 second.
  assert (InsertComment.articleId c2 = articleId) as Hid.
  { clear -Hp2. unfold Zod.parse, Routes.with_articleId,
      Zod.insertCommentSchema, Zod.z_object in Hp2.
    repeat (apply ap_inr in Hp2 as (? & ? & Hp2 & ? & ->)).
    injection Hp2 as <-. cbn.
    match goal with
    | H : Zod.field _ "articleId" _ _ = _ |- _ =>
        unfold Zod.field in H; cbn in H; by injection H as <-
    end. }
  assert (Routes.DELETE_comment uuid1 s2
          = (Routes.mkResponse 204 Routes.No_content,
             snd (Routes.POST_comments uuid2 now2 articleId body2 s))) as Hdel.
  { unfold s2, s1.
    rewrite (POST_comments_parsed _ _ _ _ s _ Hp1). cbn [snd].
    rewrite !(POST_comments_parsed _ _ _ _ _ _ Hp2). cbn [snd].
    rewrite DELETE_comment_present.
    2:{ cbn. apply keys_set_other, keys_set_elem. }
    cbn. by rewrite remove_set_set. }
  rewrite Hdel. cbn [snd].
  rewrite (POST_comments_parsed _ _ _ _ s _ Hp2). cbn [snd MemStorage.comments].
  rewrite Hid. fold second.
  split_and!; [done| |].
  - by apply values_set_absent.
  - unfold Routes.GET_comments, MemStorage.getCommentsByArticleId.
    cbn [MemStorage.comments]. intros [= Hnone].
    rewrite values_set_absent by done.
    assert (List.filter
              (fun comment => String.eqb (Comment.articleId comment) articleId)
              (values (MemStorage.comments s)) = []) as Hf.
    { pose proof (sort_perm
                    (fun a b => (Comment.createdAt b - Comment.createdAt a)%Z)
                    (List.filter
                       (fun comment =>
                          String.eqb (Comment.articleId comment) articleId)
                       (values (MemStorage.comments s)))) as P.
      rewrite Hnone in P. by apply Permutation.Permutation_nil in P. }
    rewrite List.filter_app, Hf. cbn. by rewrite String.eqb_refl.
Qed.

End Comments.

(** ** Deleting an article *)

Section DeleteArticle.
Import JS.
Implicit Types (s : MemStorage.t) (id : string).

Lemma all_articles_In_lookup s a :
  Trace.wf s -> Trace.own_ids s ->
  In a (Trace.all_articles s) -> Trace.lookup s (Article.id a) = Some a.
Proof.
  intros Hwf Hown. unfold Trace.all_articles, MemStorage.objects.
  rewrite in_map_iff. intros ([r a'] & <- & Hin). cbn.
  apply list_elem_of_In, list_elem_of_omap in Hin as (r' & Hr' & Hm).
  destruct (MemStorage.heap s !! r') as [a''|] eqn:Hh; [|done].
  injection Hm as -> ->.
  apply list_elem_of_fmap in Hr' as ([k r''] & -> & Hkr). cbn in Hh.
  assert (Trace.lookup s k = Some a') as Hl.
  { apply lookup_Some. exists r''. split; [|done].
    apply elem_get_Some; [apply Hwf|done]. }
  destruct Hown as (Ha & _). by rewrite (Ha _ _ Hl).
Qed.

(** X10. [DELETE /api/articles/:id] for a stored id answers 204. From then
    on a fetch, a like, an update and a second deletion of the id answer 404
    and change nothing, and no list of articles holds the id. The comments
    are not touched: the comments of every article, the deleted one
    included, are served as before. *)
Theorem deleted_article_is_gone_but_for_its_comments (s : MemStorage.t)
    (id : string) (a : Article.t) :
  Trace.reachable s ->
  Trace.lookup s id = Some a ->
  exists s',
    Routes.DELETE_article id s = (Routes.mkResponse 204 Routes.No_content, s')
    /\ Routes.GET_article id s'
       = (Routes.mkResponse 404 (Routes.Json_error "Article not found"), s')
    /\ Routes.POST_like id s'
       = (Routes.mkResponse 404 (Routes.Json_error "Article not found"), s')
    /\ Routes.DELETE_article id s'
       = (Routes.mkResponse 404 (Routes.Json_error "Article not found"), s')
    /\ (forall now body updates,
          Zod.parse Zod.insertArticleSchema_partial body = inr updates ->
          Routes.PUT_article now id body s'
          = (Routes.mkResponse 404 (Routes.Json_error "Article not found"),
             s'))
    /\ (forall q l,
          Routes.GET_articles q s'
          = Routes.mkResponse 200 (Routes.Json_articles l) ->
          forall x, In x l -> Article.id x <> id)
    /\ (forall articleId,
          Routes.GET_comments articleId s' = Routes.GET_comments articleId s).
Proof.
  intros Hr Hl.
  pose proof (reachable_wf _ Hr) as Hwf.
  assert (id ∈ keys (MemStorage.articles s)) as Hk.
  { destruct (decide (id ∈ keys (MemStorage.articles s))) as [|Hn]; [done|].
    apply lookup_None_keys in Hn; [congruence|done]. }
  set (s' := (MemStorage.deleteArticle id s).2).
  assert (Trace.reachable s') as Hr'
    by apply (Trace.reach_exec (Trace.DeleteArticle id) s Hr).
  pose proof (reachable_wf _ Hr') as Hwf'.
  pose proof (reachable_own_ids _ Hr') as Hown'.
  assert (Trace.lookup s' id = None) as Hl'
    by by apply lookup_deleteArticle_eq.
  assert (id ∉ keys (MemStorage.articles s')) as Hk'
    by by apply lookup_None_keys.
  assert (MemStorage.get_object id s' = None) as Hobj'
    by by apply get_object_lookup.
  exists s'. split_and!.
  - unfold Routes.DELETE_article, s', MemStorage.deleteArticle, delete.
    apply has_true_keys in Hk. by rewrite Hk.
  - by apply GET_article_absent.
  - unfold Routes.POST_like, MemStorage.toggleLike. by rewrite Hobj'.
  - unfold Routes.DELETE_article. by rewrite deleteArticle_absent.
  - intros now body updates Hp. unfold Routes.PUT_article. rewrite Hp.
    unfold MemStorage.updateArticle. by rewrite Hobj'.
  - intros q l Hq x Hx Hid. unfold Routes.GET_articles in Hq.
    injection Hq as <-. rewrite getArticles_params in Hx.
    apply sort_In, filter_In in Hx as [Hx _].
    apply all_articles_In_lookup in Hx; [|done..].
    rewrite Hid in Hx. congruence.
  - done.
Qed.

End DeleteArticle.

(** ** Categories *)

Section Categories.
Import JS.
Implicit Types (s : MemStorage.t) (id : string).

Lemma POST_categories_parsed uuid body s data :
  Zod.parse Zod.insertCategorySchema body = inr data ->
  Routes.POST_categories uuid body s
  = (Routes.mkResponse 201
       (Routes.Json_category
          (Category.mk uuid (InsertCategory.name data)
             (InsertCategory.slug data)
             (str_or_null (mjoin (InsertCategory.description data)))
             (InsertCategory.color data))),
     MemStorage.mk (MemStorage.heap s) (MemStorage.articles s)
       (MemStorage.comments s)
       (set uuid
          (Category.mk uuid (InsertCategory.name data)
             (InsertCategory.slug data)
             (str_or_null (mjoin (InsertCategory.description data)))
             (InsertCategory.color data))
          (MemStorage.categories s))).
Proof. intros H. unfold Routes.POST_categories. by rewrite H. Qed.

Lemma find_append {A : Type} (p : A -> bool) (l k : list A) :
  List.find p (l ++ k)
  = match List.find p l with
    | Some x => Some x
    | None => List.find p k
    end.
Proof. induction l as [|x l IH]; cbn; [done|]. by destruct (p x). Qed.

Lemma str_or_null_not_empty o : str_or_null o <> Some "".
Proof.
  unfold str_or_null, truthy. destruct o as [x|]; [|done].
  destruct (String.eqb_spec x ""); cbn; congruence.
Qed.

(** X11. [POST /api/categories] with a body that passes the schema and an
    identifier that is new to the store answers 201 with the category stored
    under it; its description is [null] when the body has none or an empty
    one. [GET /api/categories] then lists the category after the ones listed
    before. [GET /api/categories/:slug] answers for every slug as before
    when a category with that slug was stored already, so that a second
    category with a slug in use is never served by its slug; for a slug not
    in use it serves the new category. *)
Theorem category_route_and_slug_lookup (uuid : string) (body : option JSON)
    (data : InsertCategory.t) (s : MemStorage.t) :
  uuid ∉ keys (MemStorage.categories s) ->
  Zod.parse Zod.insertCategorySchema body = inr data ->
  exists category s',
    Routes.POST_categories uuid body s
    = (Routes.mkResponse 201 (Routes.Json_category category), s')
    /\ Category.id category = uuid
    /\ Category.name category = InsertCategory.name data
    /\ Category.slug category = InsertCategory.slug data
    /\ Category.color category = InsertCategory.color data
    /\ Category.description category <> Some ""
    /\ Routes.GET_categories s'
       = Routes.mkResponse 200
           (Routes.Json_categories (MemStorage.getCategories s ++ [category]))
    /\ (forall slug,
          Routes.GET_category slug s'
          = match MemStorage.getCategoryBySlug slug s with
            | Some earlier =>
                Routes.mkResponse 200 (Routes.Json_category earlier)
            | None =>
                if String.eqb (InsertCategory.slug data) slug
                then Routes.mkResponse 200 (Routes.Json_category category)
                else Routes.mkResponse 404
                       (Routes.Json_error "Category not found")
            end).
Proof.
  intros Hfresh Hp. eexists _, _.
  split; [by apply POST_categories_parsed|].
  split_and!; try done.
  - apply str_or_null_not_empty.
  - unfold Routes.GET_categories, MemStorage.getCategories.
    cbn [MemStorage.categories]. by rewrite values_set_absent.
  - intros slug. unfold Routes.GET_category, MemStorage.getCategoryBySlug.
    cbn [MemStorage.categories]. rewrite values_set_absent by done.
    rewrite find_append.
    destruct (find _ (values (MemStorage.categories s))); [done|].
    cbn. by destruct (String.eqb (InsertCategory.slug data) slug).
Qed.

(** X12. [GET /api/categories/:slug] answers 404 exactly when no stored
    category has the slug; otherwise it answers 200 with the first of the
    stored categories that has it. *)
Theorem category_by_slug_is_first_match (s : MemStorage.t) (slug : string) :
  (Routes.GET_category slug s
   = Routes.mkResponse 404 (Routes.Json_error "Category not found")
   <-> forall c, In c (MemStorage.getCategories s) -> Category.slug c <> slug)
  /\ (forall c,
        Routes.GET_category slug s
        = Routes.mkResponse 200 (Routes.Json_category c) <->
        exists before after,
          MemStorage.getCategories s = before ++ c :: after
          /\ Category.slug c = slug
          /\ forall c', In c' before -> Category.slug c' <> slug).
Proof.
  unfold Routes.GET_category, MemStorage.getCategoryBySlug,
    MemStorage.getCategories.
  generalize (values (MemStorage.categories s)). intros l. split.
  - destruct (find _ l) as [c|] eqn:E.
    + split; [discriminate|]. intros H. apply find_some in E as [Hin Hs].
      apply String.eqb_eq in Hs. by destruct (H c Hin).
    + split; [|done]. intros _ c Hin Hs.
      apply (find_none _ _ E) in Hin. apply String.eqb_neq in Hin. done.
  - intros c. induction l as [|x l IH]; cbn.
    + split; [discriminate|]. intros (b & a & H & _). by destruct b.
    + destruct (String.eqb_spec (Category.slug x) slug) as [Hx|Hx].
      * split.
        -- intros [= ->]. exists [], l. split_and!; [done..|]. by intros ? [].
        -- intros (b & a & H & Hs & Hb). destruct b as [|y b].
           ++ by injection H as -> _.
           ++ injection H as -> _. destruct (Hb y); [by left|done].
      * rewrite IH. split.
        -- intros (b & a & -> & Hs & Hb). exists (x :: b), a.
           split_and!; [done..|]. intros c' [<-|Hin]; [done|by apply Hb].
        -- intros (b & a & H & Hs & Hb). destruct b as [|y b].
           ++ injection H as -> _. congruence.
           ++ injection H as -> ->. exists b, a. split_and!; [done..|].
              intros c' Hin. apply Hb. by right.
Qed.

End Categories.

(** ** Articles without a [published] flag *)

Section Unpublished.
Import JS.
Implicit Types (s : MemStorage.t) (id : string).

Lemma lookup_In_all_articles s id a :
  Trace.lookup s id = Some a -> In a (Trace.all_articles s).
Proof.
  intros Hl. apply lookup_Some in Hl as (r & Hg & Hh).
  rewrite <- read_refs_all. unfold Routes.read_refs.
  apply list_elem_of_In, list_elem_of_omap. exists r. split; [|done].
  by eapply get_values.
Qed.

Lemma strict_eq_bool_None b : strict_eq_bool None b = false.
Proof. done. Qed.

(** X13. An article posted without a [published] property, or with [null]
    for it, is stored with no flag at all. [GET /api/articles] lists it when
    the request has no parameter, and does not list it when the request has
    a [published] parameter, whatever the value of the parameter. *)
Theorem article_without_published_flag (uuid : string) (now : Z)
    (fields : list (string * JSON)) (data : InsertArticle.t)
    (s : MemStorage.t) :
  Zod.parse Zod.insertArticleSchema (Some (JObj fields)) = inr data ->
  prop "published" fields = None \/ prop "published" fields = Some JNull ->
  exists a s',
    Routes.POST_articles uuid now (Some (JObj fields)) s
    = (Routes.mkResponse 201 (Routes.Json_article a), s')
    /\ Article.published a = None
    /\ (exists l,
          Routes.GET_articles (Routes.mkQuery None None None None) s'
          = Routes.mkResponse 200 (Routes.Json_articles l)
          /\ In a l)
    /\ (forall q v l,
          Routes.q_published q = Some v ->
          Routes.GET_articles q s'
          = Routes.mkResponse 200 (Routes.Json_articles l) ->
          ~ In a l).
Proof.
  intros Hp Hflag.
  assert (mjoin (InsertArticle.published data) = None) as Hpub.
  { clear -Hp Hflag.
    unfold Zod.parse, Zod.insertArticleSchema, Zod.z_object in Hp.
    repeat (apply ap_inr in Hp as (? & ? & Hp & ? & ->)).
    injection Hp as <-. cbn.
    match goal with
    | H : Zod.field _ "published" _ _ = _ |- _ =>
        unfold Zod.field, Zod.optional, Zod.nullable in H;
        destruct Hflag as [E|E]; rewrite E in H; cbn in H;
        by injection H as <-
    end. }
  unfold Routes.POST_articles. rewrite Hp.
  unfold MemStorage.createArticle. rewrite Hpub.
  set (a := Article.mk uuid _ _ _ _ _ _ _ _ _ _ _ _ _ _ _).
  set (s' := (MemStorage.store_new uuid a s).2).
  assert (Trace.lookup s' uuid = Some a) as Hl by apply lookup_store_new_eq.
  exists a, s'. split_and!.
  - unfold s', MemStorage.store_new, Routes.json_ref. cbn [snd MemStorage.heap].
    rewrite lookup_app_r by lia. by rewrite Nat.sub_diag.
  - done.
  - eexists. split; [reflexivity|].
    rewrite getArticles_params. apply sort_In, filter_In.
    split; [by eapply lookup_In_all_articles|done].
  - intros q v l Hq Hget Hin. unfold Routes.GET_articles in Hget.
    injection Hget as <-. rewrite getArticles_params in Hin.
    apply sort_In, filter_In in Hin as [_ Hm].
    unfold Spec.matches, Spec.matches_published, Routes.safeParams in Hm.
    cbn [SearchParams.published] in Hm. rewrite Hq in Hm. cbn in Hm.
    by rewrite andb_false_r in Hm.
Qed.

End Unpublished.

(** ** Looking an article up by the slug of its title *)

Section Slugs.
Import JS.
Implicit Types (s : MemStorage.t) (slug : string).

(** The characters a slug is made of. *)
Lemma replace_runs_chars b (t : string) :
  Forall (fun c => is_lower_alnum c = true \/ c = "-"%char)
         (list_ascii_of_string (replace_runs b t)).
Proof.
  revert b. induction t as [|c t IH]; intros b; cbn; [constructor|].
  destruct (is_lower_alnum c) eqn:E.
  - constructor; [by left|apply IH].
  - destruct b; [apply IH|]. constructor; [by right|apply IH].
Qed.

(** X14. [getArticleBySlug] returns an article of the store whose title, in
    lower case and with every run of other characters turned into one dash,
    is the slug asked for; it returns [undefined] exactly when the store has
    no such article. A slug with a character other than a lower-case letter,
    a digit or a dash therefore finds nothing. *)
Theorem article_by_slug_matches_title_form (s : MemStorage.t)
    (slug : string) :
  (forall r,
     MemStorage.getArticleBySlug slug s = Some r ->
     exists a,
       MemStorage.heap s !! r = Some a
       /\ In a (Trace.all_articles s)
       /\ replace_runs false (toLowerCase (Article.title a)) = slug)
  /\ (MemStorage.getArticleBySlug slug s = None <->
      forall a,
        In a (Trace.all_articles s) ->
        replace_runs false (toLowerCase (Article.title a)) <> slug)
  /\ (Exists (fun c => is_lower_alnum c = false /\ c <> "-"%char)
             (list_ascii_of_string slug) ->
      MemStorage.getArticleBySlug slug s = None).
Proof.
  assert (forall r, MemStorage.getArticleBySlug slug s = Some r ->
            exists a, MemStorage.heap s !! r = Some a
                      /\ In a (Trace.all_articles s)
                      /\ replace_runs false (toLowerCase (Article.title a))
                         = slug) as Hsound.
  { intros r. unfold MemStorage.getArticleBySlug.
    destruct (find _ _) as [[r' a]|] eqn:E; [|done]. intros [= <-].
    apply find_some in E as [Hin Heq]. apply String.eqb_eq in Heq.
    exists a. split_and!; [|by apply (in_map snd) in Hin|done].
    pose proof (objects_in_heap s) as Hh. rewrite Forall_forall in Hh.
    apply (Hh (r', a)). by apply list_elem_of_In. }
  split_and!; [done| |].
  - unfold MemStorage.getArticleBySlug, Trace.all_articles.
    destruct (find _ _) as [[r a]|] eqn:E; cbn.
    + split; [done|]. intros H. apply find_some in E as [Hin Heq].
      apply String.eqb_eq in Heq. apply (in_map snd) in Hin.
      by destruct (H a Hin).
    + split; [|done]. intros _ a Hin Heq.
      apply in_map_iff in Hin as ([r a'] & <- & Hin).
      apply (find_none _ _ E) in Hin. cbn in Hin.
      apply String.eqb_neq in Hin. done.
  - intros Hex.
    destruct (MemStorage.getArticleBySlug slug s) as [r|] eqn:E; [|done].
    destruct (Hsound r eq_refl) as (a & _ & _ & <-).
    pose proof (replace_runs_chars false (toLowerCase (Article.title a)))
      as Hall.
    rewrite Forall_forall in Hall. apply Exists_exists in Hex
      as (c & Hc & Hn & Hd).
    destruct (Hall c Hc) as [H|H]; congruence.
Qed.

End Slugs.

(** ** The database implementation *)

Section Database.
Import JS.
Implicit Types (s : MemStorage.t) (db : DatabaseStorage.t).

Lemma head_filter_find {A : Type} (p : A -> bool) (l : list A) :
  List.head (List.filter p l) = List.find p l.
Proof. induction l as [|x l IH]; cbn; [done|]. by destruct (p x). Qed.

Lemma find_by_key {V : Type} (key : V -> string) (m : Map V) k :
  NoDup (keys m) ->
  (forall k' v, get k' m = Some v -> key v = k') ->
  List.find (fun v => String.eqb (key v) k) (values m) = get k m.
Proof.
  intros Hnd Hown.
  destruct (List.find _ (values m)) as [v|] eqn:E.
  - apply find_some in E as [Hin Hk]. apply String.eqb_eq in Hk.
    apply in_map_iff in Hin as ([k' v'] & <- & Hin). cbn in *.
    apply list_elem_of_In in Hin.
    apply (elem_get_Some _ _ _ Hnd) in Hin as Hg.
    rewrite (Hown _ _ Hg) in Hk. by subst.
  - destruct (get k m) as [v|] eqn:Hg; [|done].
    pose proof (Hown _ _ Hg) as Hk.
    apply get_values, list_elem_of_In in Hg.
    apply (find_none _ _ E) in Hg. cbn in Hg.
    apply String.eqb_neq in Hg. done.
Qed.

Lemma find_article_by_id s id :
  Trace.wf s -> Trace.own_ids s ->
  List.find (fun row => String.eqb (Article.id row) id) (Trace.all_articles s)
  = Trace.lookup s id.
Proof.
  intros Hwf Hown.
  destruct (List.find _ _) as [a|] eqn:E.
  - apply find_some in E as [Hin Hk]. apply String.eqb_eq in Hk.
    apply all_articles_In_lookup in Hin; [|done..]. by rewrite Hk in Hin.
  - destruct (Trace.lookup s id) as [a|] eqn:Hl; [|done].
    pose proof (proj1 Hown _ _ Hl) as Hk.
    apply lookup_In_all_articles in Hl.
    apply (find_none _ _ E) in Hl. cbn in Hl.
    apply String.eqb_neq in Hl. done.
Qed.

(** X15. On the rows of a state of the in-memory store, the database
    implementation returns from [getArticle], [getCategories], [getCategory]
    and [getCategoryBySlug] what the in-memory implementation returns. Its
    [getArticleBySlug] returns the article whose id is the slug. *)
Theorem database_reads_agree (db : DatabaseStorage.t) (s : MemStorage.t) :
  Trace.reachable s ->
  DatabaseStorage.articles db = Trace.all_articles s ->
  DatabaseStorage.categories db = values (MemStorage.categories s) ->
  (forall id,
     DatabaseStorage.getArticle id db
     = (r ← MemStorage.getArticle id s; MemStorage.heap s !! r))
  /\ (forall slug,
        DatabaseStorage.getArticleBySlug slug db
        = (r ← MemStorage.getArticle slug s; MemStorage.heap s !! r))
  /\ DatabaseStorage.getCategories db = MemStorage.getCategories s
  /\ (forall id,
        DatabaseStorage.getCategory id db = MemStorage.getCategory id s)
  /\ (forall slug,
        DatabaseStorage.getCategoryBySlug slug db
        = MemStorage.getCategoryBySlug slug s).
Proof.
  intros Hr Ha Hc.
  pose proof (reachable_wf _ Hr) as Hwf.
  pose proof (reachable_own_ids _ Hr) as Hown.
  assert (forall id,
            (r ← MemStorage.getArticle id s; MemStorage.heap s !! r)
            = Trace.lookup s id) as Hget.
  { intros id. unfold MemStorage.getArticle, Trace.lookup.
    destruct (MemStorage.get_object id s) as [[r a]|] eqn:E; [|done].
    cbn. by apply get_object_Some in E as [_ ->]. }
  unfold DatabaseStorage.getArticle, DatabaseStorage.getArticleBySlug,
    DatabaseStorage.getCategories, DatabaseStorage.getCategory,
    DatabaseStorage.getCategoryBySlug.
  rewrite Ha, Hc. split_and!.
  - intros id. rewrite Hget, head_filter_find. by apply find_article_by_id.
  - intros id. rewrite Hget, head_filter_find. by apply find_article_by_id.
  - done.
  - intros id. rewrite head_filter_find. unfold MemStorage.getCategory.
    apply (find_by_key Category.id); [apply Hwf|apply Hown].
  - intros slug. by rewrite head_filter_find.
Qed.

(** *** Patterns *)

Lemma like_percent_all (text : string) : DatabaseStorage.like "%" text = true.
Proof.
  induction text as [|c text IH]; [done|].
  cbn in *. exact IH.
Qed.

Lemma like_prefix (c text : string) :
  DatabaseStorage.literal c = true ->
  DatabaseStorage.like (c +:+ "%") text = String.prefix c text.
Proof.
  revert text. induction c as [|a c IH]; intros text Hc.
  - rewrite like_percent_all. by destruct text.
  - cbn [DatabaseStorage.literal] in Hc. apply andb_true_iff in Hc as [Ha Hc].
    unfold DatabaseStorage.is_wildcard in Ha.
    apply negb_true_iff, orb_false_iff in Ha as [Ha H3].
    apply orb_false_iff in Ha as [H1 H2].
    change (String a c +:+ "%") with (String a (c +:+ "%")).
    cbn [DatabaseStorage.like]. rewrite H1, H2, H3.
    destruct text as [|x text]; [done|].
    rewrite prefix_cons. destruct (Ascii.eqb a x); [|done].
    cbn. by apply IH.
Qed.

Lemma like_percent (p text : string) :
  DatabaseStorage.like (String "%" p) text
  = DatabaseStorage.like p text
    || match text with
       | EmptyString => false
       | String _ text' => DatabaseStorage.like (String "%" p) text'
       end.
Proof. by destruct text. Qed.

Lemma like_contains (c text : string) :
  DatabaseStorage.literal c = true ->
  DatabaseStorage.like ("%" +:+ c +:+ "%") text = includes text c.
Proof.
  intros Hc. change ("%" +:+ c +:+ "%") with (String "%" (c +:+ "%")).
  induction text as [|x text IH]; rewrite like_percent, like_prefix by done.
  - done.
  - cbn [includes]. by rewrite IH.
Qed.

Lemma toLowerCase_append (a b : string) :
  toLowerCase (a +:+ b) = toLowerCase a +:+ toLowerCase b.
Proof.
  induction a as [|c a IH]; [done|].
  change (toLowerCase (String c (a +:+ b))
          = String (lower_char c) (toLowerCase a +:+ toLowerCase b)).
  cbn [toLowerCase]. by rewrite IH.
Qed.

Lemma lower_char_wildcard (c : ascii) :
  DatabaseStorage.is_wildcard (lower_char c) = DatabaseStorage.is_wildcard c.
Proof. by destruct c as [[] [] [] [] [] [] [] []]. Qed.

Lemma literal_toLowerCase (c : string) :
  DatabaseStorage.literal (toLowerCase c) = DatabaseStorage.literal c.
Proof.
  induction c as [|a c IH]; cbn; [done|]. by rewrite lower_char_wildcard, IH.
Qed.

Lemma ilike_contains (column c : string) :
  DatabaseStorage.literal c = true ->
  DatabaseStorage.ilike column ("%" +:+ c +:+ "%")
  = includes (toLowerCase column) (toLowerCase c).
Proof.
  intros Hc. unfold DatabaseStorage.ilike.
  rewrite !toLowerCase_append. change (toLowerCase "%") with "%".
  apply like_contains. by rewrite literal_toLowerCase.
Qed.

Lemma orderBy_In (orderBy : DatabaseStorage.OrderBy) rows (row : Article.t) :
  DatabaseStorage.sorts_newest_first orderBy ->
  In row (orderBy rows) <-> In row rows.
Proof.
  intros H. destruct (H rows) as [P _]. split; intros Hin.
  - by eapply Permutation.Permutation_in.
  - eapply Permutation.Permutation_in; [|done]. by symmetry.
Qed.

Lemma truthy_ne (x : string) : truthy x = true <-> x <> "".
Proof.
  unfold truthy. destruct (String.eqb_spec x ""); cbn; split; congruence.
Qed.

Lemma DatabaseStorage_getArticles_filter (orderBy : DatabaseStorage.OrderBy)
    db (params : SearchParams.t) :
  DatabaseStorage.getArticles orderBy (Some params) db
  = orderBy
      (List.filter
         (fun row =>
            match SearchParams.category params with
            | Some c =>
                if truthy c
                then DatabaseStorage.ilike (Article.category row)
                                           ("%" +:+ c +:+ "%")
                else true
            | None => true
            end
            && match SearchParams.query params with
               | Some q =>
                   if truthy q
                   then DatabaseStorage.ilike (Article.title row)
                                              ("%" +:+ q +:+ "%")
                   else true
               | None => true
               end
            && match SearchParams.featured params with
               | Some b => DatabaseStorage.eq (Article.featured row) b
               | None => true
               end)
         (DatabaseStorage.articles db)).
Proof.
  destruct params as [q c p f].
  unfold DatabaseStorage.getArticles, opt_chain.
  cbn [SearchParams.category SearchParams.query SearchParams.featured].
  f_equal.
  destruct c as [c|]; [destruct (truthy c)|];
    (destruct q as [q|]; [destruct (truthy q)|]);
    destruct f as [f|]; cbn [app length Nat.ltb Nat.leb];
    try (symmetry; apply filter_true);
    apply filter_ext_eq; intros row; unfold DatabaseStorage.and;
    cbn [forallb]; by rewrite ?andb_true_r, ?andb_assoc.
Qed.

(** X16. [DatabaseStorage.getArticles] selects by containment when the
    category and the query of the request hold none of the characters [%],
    [_] and backslash: the rows whose category contains the category asked
    for and whose title contains the query, both without regard to case, and
    whose [featured] flag is the one asked for. With such a character in it
    the parameter is a pattern: a category or a query [%] is contained in
    every text. *)
Theorem database_selects_by_containment (orderBy : DatabaseStorage.OrderBy)
    (db : DatabaseStorage.t) (params : SearchParams.t) :
  DatabaseStorage.sorts_newest_first orderBy ->
  (forall c, SearchParams.category params = Some c ->
             DatabaseStorage.literal c = true) ->
  (forall q, SearchParams.query params = Some q ->
             DatabaseStorage.literal q = true) ->
  (forall row,
     In row (DatabaseStorage.getArticles orderBy (Some params) db) <->
     In row (DatabaseStorage.articles db)
     /\ (forall c,
           SearchParams.category params = Some c -> c <> "" ->
           includes (toLowerCase (Article.category row)) (toLowerCase c)
           = true)
     /\ (forall q,
           SearchParams.query params = Some q -> q <> "" ->
           includes (toLowerCase (Article.title row)) (toLowerCase q) = true)
     /\ (forall b,
           SearchParams.featured params = Some b ->
           Article.featured row = Some b))
  /\ (forall column, DatabaseStorage.ilike column ("%" +:+ "%" +:+ "%") = true).
Proof.
  intros Hsort Hc Hq. split.
  2:{ intros column. unfold DatabaseStorage.ilike.
      change (toLowerCase ("%" +:+ "%" +:+ "%")) with (String "%" "%%").
      rewrite like_percent.
      change "%%" with (String "%" "%") at 1.
      by rewrite like_percent, like_percent_all. }
  intros row. rewrite DatabaseStorage_getArticles_filter.
  rewrite (orderBy_In _ _ _ Hsort), filter_In, !andb_true_iff.
  assert (forall b, DatabaseStorage.eq (Article.featured row) b = true
                    <-> Article.featured row = Some b) as Hf.
  { intros b. unfold DatabaseStorage.eq, strict_eq_bool.
    destruct (Article.featured row) as [[]|], b; cbn; split; congruence. }
  split.
  - intros (Hin & (H1 & H2) & H3). split_and!; [done| | |].
    + intros c Ec Hne. rewrite Ec in H1. apply truthy_ne in Hne.
      rewrite Hne, ilike_contains in H1; [done|by apply Hc].
    + intros q Eq Hne. rewrite Eq in H2. apply truthy_ne in Hne.
      rewrite Hne, ilike_contains in H2; [done|by apply Hq].
    + intros b Eb. rewrite Eb in H3. by apply Hf.
  - intros (Hin & H1 & H2 & H3). split_and!; [done| | |].
    + destruct (SearchParams.category params) as [c|]; [|done].
      destruct (truthy c) eqn:T; [|done]. apply truthy_ne in T.
      rewrite ilike_contains; [by apply H1|by apply Hc].
    + destruct (SearchParams.query params) as [q|]; [|done].
      destruct (truthy q) eqn:T; [|done]. apply truthy_ne in T.
      rewrite ilike_contains; [by apply H2|by apply Hq].
    + destruct (SearchParams.featured params) as [b|]; [|done].
      by apply Hf, H3.
Qed.

End Database.

(* ================================================================== *)
(** * Properties of the client *)
(* ================================================================== *)

(** ** What the pages ask the server for *)

Section Requests.
Import JS.
Implicit Types (s : MemStorage.t).

Lemma GET_articles_In q s l a :
  Routes.GET_articles q s = Routes.mkResponse 200 (Routes.Json_articles l) ->
  In a l <->
  In a (Trace.all_articles s) /\ Spec.matches (Routes.safeParams q) a = true.
Proof.
  unfold Routes.GET_articles. intros [= <-].
  by rewrite getArticles_params, sort_In, filter_In.
Qed.

Lemma strict_eq_bool_true o : strict_eq_bool o true = true <-> o = Some true.
Proof. destruct o as [[]|]; cbn; split; congruence. Qed.

(** X17. The search page sends [undefined] for the part of the search that
    is not filled in, and the server reads it as the word "undefined". A
    search for a text alone answers with published articles of the category
    "undefined" only, a search for a category alone with published articles
    that hold the text "undefined" in their title, content or author only.
    With both filled in the answer is the list of the published articles of
    the category that hold the text. *)
Theorem search_page_asks_for_undefined (searchQuery selectedCategory : string)
    (s : MemStorage.t) :
  exists l,
    Client.SearchPage.queryFn searchQuery selectedCategory s
    = Routes.mkResponse 200 (Routes.Json_articles l)
    /\ (searchQuery <> "" -> selectedCategory = "" ->
        forall a, In a l -> toLowerCase (Article.category a) = "undefined")
    /\ (searchQuery = "" -> selectedCategory <> "" ->
        forall a,
          In a l ->
          includes (toLowerCase (Article.title a)) "undefined"
          || includes (toLowerCase (Article.content a)) "undefined"
          || includes (toLowerCase (Article.author a)) "undefined" = true)
    /\ (searchQuery <> "" -> selectedCategory <> "" ->
        forall a,
          In a l <->
          In a (Trace.all_articles s)
          /\ (includes (toLowerCase (Article.title a))
                       (toLowerCase searchQuery)
              || includes (toLowerCase (Article.content a))
                          (toLowerCase searchQuery)
              || includes (toLowerCase (Article.author a))
                          (toLowerCase searchQuery) = true)
          /\ toLowerCase (Article.category a) = toLowerCase selectedCategory
          /\ Article.published a = Some true).
Proof.
  eexists. split; [reflexivity|].
  unfold Client.SearchPage.queryFn, Client.api_search, Routes.GET_search.
  split_and!.
  - intros Hq -> a. rewrite getArticles_params, sort_In, filter_In.
    intros [_ Hm]. apply truthy_ne in Hq.
    unfold Spec.matches, Spec.matches_category, Routes.safeParams,
      Client.req_query, Client.URLSearchParams, Client.or_undefined in Hm.
    cbn in Hm. rewrite !andb_true_iff in Hm.
    destruct Hm as [[[_ Hc] _] _]. by apply String.eqb_eq in Hc.
  - intros -> Hc a. rewrite getArticles_params, sort_In, filter_In.
    intros [_ Hm].
    unfold Spec.matches, Spec.matches_query, Routes.safeParams,
      Client.req_query, Client.URLSearchParams, Client.or_undefined in Hm.
    cbn in Hm. rewrite !andb_true_iff in Hm.
    by destruct Hm as [[[Hq _] _] _].
  - intros Hq Hc a. rewrite getArticles_params, sort_In, filter_In.
    apply truthy_ne in Hq, Hc.
    unfold Spec.matches, Spec.matches_query, Spec.matches_category,
      Spec.matches_published, Spec.matches_featured, Routes.safeParams,
      Client.req_query, Client.URLSearchParams, Client.or_undefined.
    rewrite Hq, Hc. cbn. rewrite Hq, Hc. cbn. rewrite Hq, Hc.
    rewrite andb_true_r, !andb_true_iff, String.eqb_eq, strict_eq_bool_true.
    tauto.
Qed.

Lemma slice_In {A : Type} (from to : nat) (l : list A) x :
  In x (slice from to l) -> In x l.
Proof.
  unfold slice. intros H. apply list_elem_of_In in H.
  apply list_elem_of_In.
  apply (subseteq_take (to - from)), (subseteq_drop from) in H. exact H.
Qed.

Lemma head_In {A : Type} (l : list A) x :
  In x (option_list (List.head l)) -> In x l.
Proof. destruct l as [|y l]; cbn; [done|]. intros [<-|[]]. by left. Qed.

Lemma Home_rendered_In articles categories a :
  In a (Client.Home.rendered articles categories) -> In a articles.
Proof.
  unfold Client.Home.rendered, Client.Home.featuredArticle,
    Client.Home.secondaryArticles, Client.Home.featuredArticles,
    Client.Home.regularArticles.
  rewrite !in_app_iff.
  intros [H|[H|[[H|H]|H]]].
  - apply head_In, filter_In in H. tauto.
  - apply slice_In, filter_In in H. tauto.
  - apply head_In, filter_In in H. tauto.
  - apply slice_In, filter_In in H. tauto.
  - apply in_concat in H as (l & Hl & H).
    apply in_map_iff in Hl as (c & <- & _).
    unfold Client.Home.categoryArticles in H.
    apply in_app_iff in H as [H|H].
    + apply head_In, slice_In, filter_In in H. tauto.
    + apply slice_In, slice_In, filter_In in H. tauto.
Qed.

(** X18. The home page asks for [published: true], which reaches the server
    as the string "true": the answer holds exactly the stored articles whose
    [published] flag is [true], newest first, and every article that the
    main column renders is one of them. *)
Theorem home_page_lists_published_articles (s : MemStorage.t) :
  exists l,
    Client.Home.queryFn s = Routes.mkResponse 200 (Routes.Json_articles l)
    /\ (forall a,
          In a l <->
          In a (Trace.all_articles s) /\ Article.published a = Some true)
    /\ StronglySorted (descending Article.createdAt) l
    /\ (forall categories a,
          In a (Client.Home.rendered l categories) ->
          In a (Trace.all_articles s) /\ Article.published a = Some true).
Proof.
  eexists. split; [reflexivity|].
  assert (forall a,
            In a (Routes.read_refs s
                    (MemStorage.getArticles
                       (Some (Routes.safeParams
                                (Client.req_query
                                   (Client.URLSearchParams
                                      (Some [("published",
                                              Client.PBool true)])))))
                       s))
            <-> In a (Trace.all_articles s) /\ Article.published a = Some true)
    as Hin.
  { intros a. rewrite getArticles_params, sort_In, filter_In.
    unfold Spec.matches, Spec.matches_published. cbn.
    destruct (Article.published a) as [[]|]; cbn; intuition congruence. }
  split_and!.
  - exact Hin.
  - rewrite getArticles_params. apply sort_descending.
  - intros categories a H. by apply Home_rendered_In, Hin in H.
Qed.

End Requests.

(** ** What the pages derive from the lists they fetched *)

Section Pages.
Import JS.

Lemma head_slice_firstn {A : Type} (n : nat) (l : list A) :
  option_list (List.head l) ++ slice 1 (S n) l = List.firstn (S n) l.
Proof.
  unfold slice. rewrite Nat.sub_succ, Nat.sub_0_r.
  destruct l as [|x l]; cbn; [by destruct n|done].
Qed.

Lemma length_head_slice {A : Type} (n : nat) (l : list A) :
  (length (option_list (List.head l) ++ slice 1 (S n) l) <= S n)%nat.
Proof. rewrite head_slice_firstn, length_firstn. lia. Qed.

Lemma length_concat_le {A : Type} (n : nat) (ls : list (list A)) :
  Forall (fun l => (length l <= n)%nat) ls ->
  (length (List.concat ls) <= length ls * n)%nat.
Proof.
  induction 1 as [|l ls Hl _ IH]; cbn; [done|].
  rewrite length_app. lia.
Qed.

(** X19. The main column of the home page renders the first four articles
    with the [featured] flag, and no other article with the flag: the other
    lists of the column leave flagged articles out. It renders at most 29
    articles. *)
Theorem home_renders_four_featured (articles : list Article.t)
    (categories : list Category.t) :
  (forall a,
     In a (Client.Home.rendered articles categories) ->
     Article.featured a = Some true ->
     In a (List.firstn 4 (Client.Home.featuredArticles articles)))
  /\ (forall a,
        In a (List.firstn 4 (Client.Home.featuredArticles articles)) ->
        In a (Client.Home.rendered articles categories)
        /\ Article.featured a = Some true)
  /\ (length (Client.Home.rendered articles categories) <= 29)%nat.
Proof.
  unfold Client.Home.rendered, Client.Home.featuredArticle,
    Client.Home.secondaryArticles.
  rewrite app_assoc, (head_slice_firstn 3).
  split_and!.
  - intros a Hin Hf. rewrite !in_app_iff in Hin.
    destruct Hin as [H|[[H|H]|H]]; [done|exfalso..].
    + apply head_In, filter_In in H as [_ H]. by rewrite Hf in H.
    + apply slice_In, filter_In in H as [_ H]. by rewrite Hf in H.
    + apply in_concat in H as (l & Hl & H).
      apply in_map_iff in Hl as (c & <- & _).
      assert (In a (Client.Home.categoryArticles articles c)) as H'.
      { apply in_app_iff in H as [H|H]; [by apply head_In|by eapply slice_In]. }
      apply slice_In, filter_In in H' as [_ H'].
      rewrite Hf in H'. by rewrite andb_false_r in H'.
  - intros a Hin. split; [apply in_app_iff; by left|].
    apply list_elem_of_In, (subseteq_take 4), list_elem_of_In in Hin.
    apply filter_In in Hin as [_ H].
    by destruct (Article.featured a) as [[]|].
  - rewrite !length_app, length_firstn.
    pose proof (length_head_slice 4 (Client.Home.regularArticles articles))
      as H1. rewrite length_app in H1.
    assert (length
              (List.concat
                 (List.map
                    (fun category =>
                       option_list
                         (List.head
                            (Client.Home.categoryArticles articles category))
                       ++ slice 1 5
                            (Client.Home.categoryArticles articles category))
                    (slice 0 4 categories))) <= 4 * 5)%nat as H2.
    { etransitivity; [apply (length_concat_le 5)|].
      - apply Forall_forall. intros l Hl.
        apply list_elem_of_In, in_map_iff in Hl as (c & <- & _).
        apply (length_head_slice 4).
      - rewrite length_map. unfold slice. rewrite length_firstn. lia. }
    lia.
Qed.

Lemma StronglySorted_app_le {A : Type} (R : A -> A -> Prop) (l k : list A) :
  StronglySorted R (l ++ k) -> forall a b, In a l -> In b k -> R a b.
Proof.
  induction l as [|x l IH]; cbn; [done|].
  intros H a b [<-|Ha] Hb.
  - apply StronglySorted_inv in H as [_ H]. rewrite Forall_forall in H.
    apply H, list_elem_of_In, in_app_iff. by right.
  - apply StronglySorted_inv in H as [H _]. by apply IH.
Qed.

(** X20. One rendering of the sidebar sorts the fetched array by views, the
    most viewed first, and leaves it sorted. The recent stories are cut from
    the sorted array: they are the first four of the trending articles, and
    no article of the array outside them has more views than one of them. *)
Theorem sidebar_recent_stories_are_most_viewed (articles : list Article.t) :
  let after := fst (Client.Sidebar.render articles) in
  let trending := fst (snd (Client.Sidebar.render articles)) in
  let recent := snd (snd (Client.Sidebar.render articles)) in
  Permutation after articles
  /\ StronglySorted (descending (fun a => num_or (Article.views a) 0)) after
  /\ trending = List.firstn 5 after
  /\ recent = List.firstn 4 trending
  /\ (forall a b,
        In a recent -> In b articles -> ~ In b recent ->
        (num_or (Article.views b) 0 <= num_or (Article.views a) 0)%Z).
Proof.
  cbn. unfold slice. cbn [Nat.sub skipn].
  set (views := fun a => num_or (Article.views a) 0).
  set (after := sort _ articles).
  assert (StronglySorted (descending views) after) as Hs
    by apply (sort_descending views).
  assert (Permutation after articles) as Hp by apply sort_perm.
  split_and!; [done|done|done| |].
  - rewrite firstn_firstn. done.
  - intros a b Ha Hb Hnb.
    rewrite <- (firstn_skipn 4 after) in Hs.
    apply (StronglySorted_app_le _ _ _ Hs a b Ha).
    apply (Permutation.Permutation_in _ (Permutation.Permutation_sym Hp))
      in Hb.
    rewrite <- (firstn_skipn 4 after) in Hb.
    apply in_app_iff in Hb as [Hb|Hb]; [by destruct Hnb|done].
Qed.

End Pages.

(** ** Related articles *)

Section Related.
Import JS.

(** A comparison function that is total and transitive sorts. *)
Lemma insert_sorted_total {A : Type} (cmp : A -> A -> Z) :
  (forall a b, (cmp a b <= 0)%Z \/ (cmp b a <= 0)%Z) ->
  (forall a b c, (cmp a b <= 0)%Z -> (cmp b c <= 0)%Z -> (cmp a c <= 0)%Z) ->
  forall x l,
    StronglySorted (fun a b => (cmp a b <= 0)%Z) l ->
    StronglySorted (fun a b => (cmp a b <= 0)%Z) (insert_sorted cmp x l).
Proof.
  intros Htot Htrans x l. induction l as [|y l IH]; intros Hs; cbn.
  - repeat constructor.
  - apply StronglySorted_inv in Hs as [Hs Hy].
    destruct (Z.leb_spec (cmp x y) 0) as [Hle|Hgt].
    + constructor; [by constructor|]. constructor; [done|].
      eapply Forall_impl; [exact Hy|]. cbn. intros z Hz. by eapply Htrans.
    + constructor; [by apply IH|].
      assert (cmp y x <= 0)%Z as Hyx by (destruct (Htot x y); [lia|done]).
      apply Forall_forall. intros z Hz.
      apply list_elem_of_In in Hz.
      apply (Permutation.Permutation_in _ (insert_sorted_perm cmp x l)) in Hz.
      destruct Hz as [<-|Hz]; [done|].
      rewrite Forall_forall in Hy. by apply Hy, list_elem_of_In.
Qed.

Lemma sort_total {A : Type} (cmp : A -> A -> Z) :
  (forall a b, (cmp a b <= 0)%Z \/ (cmp b a <= 0)%Z) ->
  (forall a b c, (cmp a b <= 0)%Z -> (cmp b c <= 0)%Z -> (cmp a c <= 0)%Z) ->
  forall l, StronglySorted (fun a b => (cmp a b <= 0)%Z) (sort cmp l).
Proof.
  intros Htot Htrans l. induction l as [|x l IH]; cbn; [constructor|].
  by apply insert_sorted_total.
Qed.

Lemma StronglySorted_weaken {A : Type} (R S : A -> A -> Prop) (l : list A) :
  (forall a b, R a b -> S a b) -> StronglySorted R l -> StronglySorted S l.
Proof.
  intros H. induction 1 as [|x l _ IH Hx]; constructor; [done|].
  eapply Forall_impl; [exact Hx|]. intros y. apply H.
Qed.

Lemma StronglySorted_firstn {A : Type} (R : A -> A -> Prop) n (l : list A) :
  StronglySorted R l -> StronglySorted R (List.firstn n l).
Proof.
  revert n. induction l as [|x l IH]; intros [|n] Hs; cbn; try constructor.
  - apply IH. by apply StronglySorted_inv in Hs as [Hs _].
  - apply StronglySorted_inv in Hs as [_ Hx].
    apply Forall_forall. intros y Hy. rewrite Forall_forall in Hx.
    apply Hx. by apply (subseteq_take n).
Qed.

Lemma arr_includes_In l x : arr_includes l x = true <-> In x l.
Proof.
  unfold arr_includes. rewrite existsb_exists. split.
  - intros (y & Hy & E). apply String.eqb_eq in E. by subst.
  - intros H. exists x. split; [done|]. apply String.eqb_refl.
Qed.

(** X21. The related articles of an article are at most [maxResults]
    articles of the list, none with the id of the article itself, each of
    the same category or with a tag in common. Articles of the same category
    come before the others, and among articles that are alike in this the
    newer come first; an article that qualifies and is left out ranks no
    higher than any article that is shown. *)
Theorem related_articles_ranking (currentArticle : Article.t)
    (maxResults : nat) (allArticles : list Article.t) :
  let related :=
    Client.RelatedArticles currentArticle maxResults allArticles in
  let same_category (a : Article.t) : Prop :=
    Article.category a = Article.category currentArticle in
  let qualifies (a : Article.t) : Prop :=
    In a allArticles
    /\ Article.id a <> Article.id currentArticle
    /\ (same_category a
        \/ exists tag,
             In tag (default [] (Article.tags currentArticle))
             /\ In tag (default [] (Article.tags a))) in
  let ranks_before (a b : Article.t) : Prop :=
    (same_category a /\ ~ same_category b)
    \/ ((same_category a <-> same_category b)
        /\ (Article.createdAt b <= Article.createdAt a)%Z) in
  (length related <= maxResults)%nat
  /\ (forall a, In a related -> qualifies a)
  /\ StronglySorted ranks_before related
  /\ (forall a b,
        In a related -> qualifies b -> ~ In b related -> ranks_before a b)
  /\ ((length related < maxResults)%nat ->
      forall b, qualifies b -> In b related).
Proof.
  intros related same_category qualifies ranks_before.
  unfold Client.RelatedArticles in related.
  set (cmp := fun a b : Article.t => _) in related.
  set (keep := fun article : Article.t => _) in related.
  assert (forall a, keep a = true <->
            Article.id a <> Article.id currentArticle
            /\ (same_category a
                \/ exists tag,
                     In tag (default [] (Article.tags currentArticle))
                     /\ In tag (default [] (Article.tags a)))) as Hkeep.
  { intros a. unfold keep, same_category.
    destruct (String.eqb_spec (Article.id a) (Article.id currentArticle))
      as [Hid|Hid]; [split; [done|tauto]|].
    destruct (String.eqb_spec (Article.category a)
                              (Article.category currentArticle)) as [Hc|Hc];
      [tauto|].
    rewrite existsb_exists. setoid_rewrite arr_includes_In.
    split; [intros (t & ? & ?); eauto 6|].
    intros [_ [?|(t & ? & ?)]]; [done|eauto]. }
  assert (forall a b, (cmp a b <= 0)%Z <-> ranks_before a b) as Hcmp.
  { intros a b. unfold cmp, ranks_before, same_category.
    destruct (String.eqb_spec (Article.category a)
                              (Article.category currentArticle)) as [Ha|Ha],
        (String.eqb_spec (Article.category b)
                         (Article.category currentArticle)) as [Hb|Hb];
      cbn; intuition (try lia; try congruence). }
  assert (StronglySorted ranks_before
            (sort cmp (List.filter keep allArticles))) as Hsorted.
  { eapply StronglySorted_weaken.
    2:{ apply (sort_total cmp).
        - intros a b. unfold cmp.
          destruct (String.eqb (Article.category a) _),
            (String.eqb (Article.category b) _); cbn; lia.
        - intros a b c. unfold cmp.
          destruct (String.eqb (Article.category a) _),
            (String.eqb (Article.category b) _),
            (String.eqb (Article.category c) _); cbn; lia. }
    intros a b. apply Hcmp. }
  assert (forall b, qualifies b <->
            In b (sort cmp (List.filter keep allArticles))) as Hq.
  { intros b. rewrite sort_In, filter_In, Hkeep. done. }
  assert (related
          = List.firstn maxResults (sort cmp (List.filter keep allArticles)))
    as Hrel.
  { unfold related, slice. cbn [skipn]. by rewrite Nat.sub_0_r. }
  clearbody related. subst related.
  split_and!.
  - rewrite length_firstn. lia.
  - intros a Ha. apply Hq.
    by apply list_elem_of_In, (subseteq_take maxResults), list_elem_of_In
      in Ha.
  - by apply StronglySorted_firstn.
  - intros a b Ha Hb Hnb. apply Hq in Hb.
    rewrite <- (firstn_skipn maxResults) in Hsorted, Hb.
    apply in_app_iff in Hb as [Hb|Hb]; [by destruct Hnb|].
    by apply (StronglySorted_app_le _ _ _ Hsorted).
  - intros Hlen b Hb. apply Hq in Hb.
    rewrite firstn_all2; [done|]. rewrite length_firstn in Hlen. lia.
Qed.

End Related.

(** ** The category page *)

Section CategoryPage.
Import JS.

Lemma GET_articles_ids q s l :
  Trace.reachable s ->
  Routes.GET_articles q s = Routes.mkResponse 200 (Routes.Json_articles l) ->
  NoDup (List.map Article.id l).
Proof.
  intros Hr. unfold Routes.GET_articles. intros [= <-].
  rewrite getArticles_params.
  match goal with
  | |- NoDup (List.map _ (sort ?cmp ?l)) =>
      assert (Permutation (List.map Article.id (sort cmp l))
                          (List.map Article.id l)) as ->
        by apply Permutation_map, sort_perm
  end.
  apply NoDup_map_filter.
  rewrite all_articles_ids; [|by apply reachable_wf|by apply reachable_own_ids].
  apply reachable_wf, Hr.
Qed.

Lemma find_split {A : Type} (p : A -> bool) (l : list A) (f : A) :
  List.find p l = Some f ->
  exists before after,
    l = before ++ f :: after /\ p f = true
    /\ forall a, In a before -> p a = false.
Proof.
  induction l as [|x l IH]; [done|]. cbn [List.find].
  destruct (p x) eqn:Hx.
  - intros [= <-]. by exists [], l.
  - intros Hf. destruct (IH Hf) as (before & after & -> & Hp & Hb).
    exists (x :: before), after. split_and!; [done..|].
    intros a [<-|Ha]; [done | by apply Hb].
Qed.

Lemma filter_other_ids (before after : list Article.t) (f : Article.t) :
  NoDup (List.map Article.id (before ++ f :: after)) ->
  List.filter (fun x => negb (String.eqb (Article.id x) (Article.id f)))
              (before ++ f :: after)
  = before ++ after.
Proof.
  intros Hnd.
  assert (forall x, In x before \/ In x after ->
            negb (String.eqb (Article.id x) (Article.id f)) = true) as Hne.
  { intros x Hx. apply negb_true_iff, String.eqb_neq. intros E.
    rewrite List.map_app in Hnd. cbn [List.map] in Hnd.
    apply NoDup_app in Hnd as (_ & Hdisj & Hnd).
    apply NoDup_cons in Hnd as [Hnotin _].
    destruct Hx as [Hx|Hx].
    - apply (Hdisj (Article.id f)).
      + rewrite <- E. apply list_elem_of_In. by apply in_map.
      + left.
    - apply Hnotin. rewrite <- E. apply list_elem_of_In. by apply in_map. }
  rewrite List.filter_app. cbn [List.filter].
  rewrite String.eqb_refl. cbn [negb].
  rewrite (List.filter_ext_in _ (fun _ => true) before), filter_true
    by (intros; apply Hne; tauto).
  rewrite (List.filter_ext_in _ (fun _ => true) after), filter_true
    by (intros; apply Hne; tauto).
  done.
Qed.

(** X22. The category page asks for the published articles of its category
    and shows each article of the answer once: one as the featured article,
    which is the first with the [featured] flag or, when none has the flag,
    the first of the answer, and the others in the order of the answer. An
    empty answer gives no featured article and no other. *)
Theorem category_page_shows_each_article_once (s : MemStorage.t)
    (name : string) :
  Trace.reachable s ->
  exists articles,
    Client.api_getArticles
      (Some [("category", Client.PStr name);
             ("published", Client.PBool true)]) s
    = Routes.mkResponse 200 (Routes.Json_articles articles)
    /\ match Client.CategoryPage.featuredArticle articles with
       | None =>
           articles = [] /\ Client.CategoryPage.regularArticles articles = []
       | Some featured =>
           exists before after,
             articles = before ++ featured :: after
             /\ Client.CategoryPage.regularArticles articles = before ++ after
             /\ (forall a, In a before -> Article.featured a <> Some true)
             /\ (Article.featured featured = Some true
                 \/ (before = []
                     /\ forall a, In a articles ->
                                  Article.featured a <> Some true))
             /\ ~ In featured before
             /\ ~ In featured after
       end.
Proof.
  intros Hr. eexists. split; [reflexivity|].
  match goal with
  | |- context [Client.CategoryPage.featuredArticle ?l] =>
      assert (NoDup (List.map Article.id l)) as Hnd
        by (by eapply (GET_articles_ids _ s));
      generalize dependent l
  end.
  intros articles Hnd. unfold Client.CategoryPage.regularArticles.
  assert (forall a : Article.t,
            truthy_bool (Article.featured a) = false ->
            Article.featured a <> Some true) as Hflag.
  { intros a Ha E. rewrite E in Ha. discriminate. }
  assert (forall before f after,
            articles = before ++ f :: after ->
            ~ In f before /\ ~ In f after) as Honce.
  { intros before f after ->.
    rewrite List.map_app in Hnd. cbn [List.map] in Hnd.
    apply NoDup_app in Hnd as (_ & Hdisj & Hnd).
    apply NoDup_cons in Hnd as [Hnotin _]. split.
    - intros Hin. apply (Hdisj (Article.id f)); [|left].
      apply list_elem_of_In. by apply in_map.
    - intros Hin. apply Hnotin. apply list_elem_of_In. by apply in_map. }
  destruct (Client.CategoryPage.featuredArticle articles) as [f|] eqn:E.
  - unfold Client.CategoryPage.featuredArticle in E.
    destruct (find _ articles) as [a|] eqn:F.
    + injection E as <-.
      destruct (find_split _ _ _ F) as (before & after & Heq & Hp & Hb).
      destruct (Honce _ _ _ Heq) as [Ho1 Ho2].
      exists before, after. subst articles.
      split_and!; [done|by apply filter_other_ids| | |done|done].
      * intros x Hx. by apply Hflag, Hb.
      * left. by destruct (Article.featured a) as [[]|].
    + destruct articles as [|x rest]; [done|]. injection E as <-.
      destruct (Honce [] x rest eq_refl) as [Ho1 Ho2].
      exists [], rest.
      split_and!; [done|by apply (filter_other_ids [] rest x)|done| |done|done].
      right. split; [done|]. intros a Ha.
      apply Hflag. by apply (find_none _ _ F).
  - unfold Client.CategoryPage.featuredArticle in E.
    destruct (find _ articles); [done|]. by destruct articles.
Qed.

End CategoryPage.

(** ** Texts of the article card and the article page *)

Section Texts.
Import JS.
Local Open Scope Z_scope.

(** X23. [formatTimeAgo] by the time that has passed since the date: less
    than an hour, a date in the future included, reads "Just now"; from one
    hour and less than a day it counts whole hours; from one day on it
    counts whole days of 24 hours. The unit is in the plural from two on. *)
Theorem time_ago_counts_whole_hours_and_days (now date : Z) :
  let diff := now - date in
  (diff < 3600000 -> Client.formatTimeAgo now date = "Just now")
  /\ (3600000 <= diff < 86400000 ->
      1 <= diff / 3600000 <= 23
      /\ Client.formatTimeAgo now date
         = Number_toString (diff / 3600000) +:+ " hour"
           +:+ (if diff <? 7200000 then "" else "s") +:+ " ago")
  /\ (86400000 <= diff ->
      1 <= diff / 86400000
      /\ Client.formatTimeAgo now date
         = Number_toString (diff / 86400000) +:+ " day"
           +:+ (if diff <? 172800000 then "" else "s") +:+ " ago").
Proof.
  intros diff. unfold Client.formatTimeAgo, floor_div. fold diff.
  change (1000 * 60 * 60) with 3600000.
  assert (diff / 3600000 / 24 = diff / 86400000) as Hdays.
  { rewrite Z.div_div by lia. done. }
  rewrite Hdays.
  pose proof (Z.div_mod diff 3600000 ltac:(lia)) as E1.
  pose proof (Z.mod_pos_bound diff 3600000 ltac:(lia)) as B1.
  pose proof (Z.div_mod diff 86400000 ltac:(lia)) as E2.
  pose proof (Z.mod_pos_bound diff 86400000 ltac:(lia)) as B2.
  split_and!.
  - intros H.
    destruct (Z.ltb_spec 0 (diff / 86400000)); [lia|].
    destruct (Z.ltb_spec 0 (diff / 3600000)); [lia|]. done.
  - intros H. split; [lia|].
    destruct (Z.ltb_spec 0 (diff / 86400000)); [lia|].
    destruct (Z.ltb_spec 0 (diff / 3600000)); [|lia].
    destruct (Z.ltb_spec 1 (diff / 3600000)), (Z.ltb_spec diff 7200000);
      try lia; done.
  - intros H. split; [lia|].
    destruct (Z.ltb_spec 0 (diff / 86400000)); [|lia].
    destruct (Z.ltb_spec 1 (diff / 86400000)), (Z.ltb_spec diff 172800000);
      try lia; done.
Qed.

Lemma length_split (sep : ascii) (content : string) :
  length (split sep content)
  = S (length (List.filter (fun c => Ascii.eqb c sep)
                           (list_ascii_of_string content))).
Proof.
  induction content as [|c content IH]; [done|].
  cbn. destruct (Ascii.eqb c sep); cbn; [by rewrite IH|].
  destruct (split sep content); cbn in *; done.
Qed.

(** X24. [formatReadingTime] counts one word more than the content has
    spaces and reads the number of minutes that 200 words a minute give,
    rounded up: it is never less than one, also for an empty content. *)
Theorem reading_time_is_at_least_a_minute (content : string) :
  let words :=
    Z.of_nat
      (S (length (List.filter (fun c => Ascii.eqb c " ")
                              (list_ascii_of_string content)))) in
  exists minutes,
    Client.formatReadingTime content
    = Number_toString minutes +:+ " min read"
    /\ 1 <= minutes
    /\ 200 * (minutes - 1) < words <= 200 * minutes.
Proof.
  intros words. unfold Client.formatReadingTime, ceil_div.
  rewrite length_split. fold words.
  eexists. split; [reflexivity|].
  assert (1 <= words) by (unfold words; lia).
  pose proof (Z.div_mod (- words) 200 ltac:(lia)) as E.
  pose proof (Z.mod_pos_bound (- words) 200 ltac:(lia)) as B.
  lia.
Qed.

End Texts.

(** ** The tags of the article form *)

Section Tags.
Import JS.

(** X25. Adding a tag keeps the list free of duplicates and of empty tags;
    after it the trimmed text of the input, when it is not empty, is in the
    list. Removing a tag takes every occurrence of it out and nothing else,
    so that removing the tag just added gives the list back. *)
Theorem tags_stay_distinct_and_filled (st : Client.ArticleForm.t)
    (tag : string) :
  (NoDup (Client.ArticleForm.tags st) ->
   NoDup (Client.ArticleForm.tags (Client.ArticleForm.addTag st)))
  /\ (Forall (fun t => t <> "") (Client.ArticleForm.tags st) ->
      Forall (fun t => t <> "")
             (Client.ArticleForm.tags (Client.ArticleForm.addTag st)))
  /\ (trim (Client.ArticleForm.newTag st) <> "" ->
      In (trim (Client.ArticleForm.newTag st))
         (Client.ArticleForm.tags (Client.ArticleForm.addTag st)))
  /\ (trim (Client.ArticleForm.newTag st) = "" ->
      Client.ArticleForm.addTag st = st)
  /\ (forall t,
        In t (Client.ArticleForm.tags (Client.ArticleForm.removeTag tag st))
        <-> In t (Client.ArticleForm.tags st) /\ t <> tag)
  /\ (~ In (trim (Client.ArticleForm.newTag st)) (Client.ArticleForm.tags st) ->
      Client.ArticleForm.tags
        (Client.ArticleForm.removeTag (trim (Client.ArticleForm.newTag st))
           (Client.ArticleForm.addTag st))
      = Client.ArticleForm.tags st).
Proof.
  destruct st as [newTag tags]. unfold Client.ArticleForm.addTag.
  cbn [Client.ArticleForm.newTag Client.ArticleForm.tags].
  set (t0 := trim newTag).
  assert (forall l, ~ In t0 l ->
            List.filter (fun t => negb (String.eqb t t0)) l = l) as Hfilter.
  { intros l. induction l as [|x l IH]; cbn; [done|]. intros Hn.
    destruct (String.eqb_spec x t0) as [->|Hne]; cbn; [tauto|].
    f_equal. apply IH. tauto. }
  destruct (truthy t0) eqn:T, (arr_includes tags t0) eqn:I; cbn;
    try apply truthy_ne in T;
    try (apply not_true_iff_false in T; rewrite truthy_ne in T;
         apply dec_stable in T);
    try apply arr_includes_In in I;
    try (apply not_true_iff_false in I; rewrite arr_includes_In in I).
  all: split_and!; try done; try tauto.
  all: try (intros t; rewrite filter_In, negb_true_iff, String.eqb_neq; tauto).
  all: try (intros _; by apply Hfilter).
  - intros Hnd. apply NoDup_app. split_and!; [done| |apply NoDup_singleton].
    intros x Hx Hx'. apply list_elem_of_singleton in Hx' as ->.
    by apply I, list_elem_of_In.
  - intros Hf. apply Forall_app. split; [done|]. by constructor.
  - intros _. apply in_app_iff. right. by left.
  - intros _. rewrite List.filter_app. cbn. rewrite String.eqb_refl. cbn.
    rewrite app_nil_r. by apply Hfilter.
Qed.

End Tags.

(** ** Texts that contain other texts *)

Section Containment.
Import JS.

Lemma prefix_append (sub s : string) :
  String.prefix sub s = true <-> exists post, s = sub +:+ post.
Proof.
  revert s. induction sub as [|a sub IH]; intros s.
  - split; [|by destruct s]. intros _. exists s. reflexivity.
  - destruct s as [|b s].
    + split; [done|]. intros [post H]. discriminate.
    + rewrite prefix_cons. destruct (Ascii.eqb_spec a b) as [->|Hne].
      * rewrite IH. split; intros [post H]; exists post.
        -- by rewrite H.
        -- by injection H.
      * split; [done|]. intros [post H]. by injection H.
Qed.

(** [includes] is containment. *)
Lemma includes_within (s sub : string) :
  includes s sub = true <-> exists pre post, s = pre +:+ sub +:+ post.
Proof.
  induction s as [|c s IH].
  - cbn [includes]. rewrite orb_false_r, prefix_append. split.
    + intros [post H]. by exists "", post.
    + intros (pre & post & H). exists post.
      destruct pre; [done|discriminate].
  - cbn [includes]. rewrite orb_true_iff, prefix_append, IH. split.
    + intros [[post H]|(pre & post & H)].
      * by exists "", post.
      * exists (String c pre), post. by rewrite H.
    + intros (pre & post & H). destruct pre as [|c' pre].
      * left. by exists post.
      * right. exists pre, post. by injection H.
Qed.

Lemma includes_middle (pre sub post : string) :
  includes (pre +:+ sub +:+ post) sub = true.
Proof. apply includes_within. eauto. Qed.

Lemma includes_append_l (a b sub : string) :
  includes a sub = true -> includes (a +:+ b) sub = true.
Proof.
  rewrite !includes_within. intros (pre & post & ->).
  exists pre, (post +:+ b). by rewrite !append_assoc.
Qed.

Lemma includes_append_r (a b sub : string) :
  includes b sub = true -> includes (a +:+ b) sub = true.
Proof.
  rewrite !includes_within. intros (pre & post & ->).
  exists (a +:+ pre), post. by rewrite !append_assoc.
Qed.

Lemma includes_join_map {X : Type} (f : X -> string) (l : list X) x sub :
  In x l -> includes (f x) sub = true ->
  includes (Routes.join_map f l) sub = true.
Proof.
  induction l as [|y l IH]; [done|]. intros [->|Hin] Hx; cbn.
  - by apply includes_append_l.
  - apply includes_append_r. by apply IH.
Qed.

End Containment.

(** ** Searching for a text *)

Section SearchText.
Import JS.
Implicit Types (s : MemStorage.t).

(** X26. [GET /api/search] with a text as [query] and no other parameter
    answers with the stored articles whose title, content or author contains
    the text, without regard to case, newest first. An empty text does
    not filter: the answer is the one given without a [query], every
    stored article, newest first. A [query] given several times is
    searched for as one text, its values joined by commas. *)
Theorem search_finds_text_in_title_content_author (s : MemStorage.t) :
  (forall text,
     text <> "" ->
     exists l,
       Routes.GET_search
         (Routes.mkQuery (Some (QStr text)) None None None) s
       = Routes.mkResponse 200 (Routes.Json_articles l)
       /\ (forall a,
             In a l <->
             In a (Trace.all_articles s)
             /\ exists field,
                  In field [Article.title a; Article.content a;
                            Article.author a]
                  /\ exists pre post,
                       toLowerCase field = pre +:+ toLowerCase text +:+ post)
       /\ StronglySorted (descending Article.createdAt) l)
  /\ Routes.GET_search (Routes.mkQuery (Some (QStr "")) None None None) s
     = Routes.GET_search (Routes.mkQuery None None None None) s
  /\ (forall texts,
        Routes.GET_search (Routes.mkQuery (Some (QArr texts)) None None None) s
        = Routes.GET_search
            (Routes.mkQuery (Some (QStr (join "," texts))) None None None) s)
  /\ (exists l,
        Routes.GET_search (Routes.mkQuery (Some (QStr "")) None None None) s
        = Routes.mkResponse 200 (Routes.Json_articles l)
        /\ (forall a, In a l <-> In a (Trace.all_articles s))
        /\ Permutation l (Trace.all_articles s)
        /\ StronglySorted (descending Article.createdAt) l).
Proof.
  split_and!.
  - intros text Hne. eexists. split; [reflexivity|].
    unfold Routes.GET_search. rewrite getArticles_params. split.
    + intros a. rewrite sort_In, filter_In.
      apply truthy_ne in Hne.
      unfold Spec.matches, Spec.matches_query, Routes.safeParams. cbn.
      rewrite Hne. cbn. rewrite Hne, !andb_true_r, !orb_true_iff.
      rewrite !includes_within. split.
      * intros [Hin [[H|H]|H]]; (split; [done|]);
          [exists (Article.title a)|exists (Article.content a)
          |exists (Article.author a)]; (split; [cbn; tauto|done]).
      * intros [Hin (field & Hf & H)]. split; [done|].
        cbn in Hf. destruct Hf as [<-|[<-|[<-|[]]]]; tauto.
    + apply sort_descending.
  - reflexivity.
  - intros texts. unfold Routes.GET_search, Routes.safeParams. cbn.
    destruct (truthy (join "," texts)) eqn:T;
      unfold MemStorage.getArticles, opt_chain; cbn; by rewrite ?T.
  - eexists. split; [reflexivity|].
    unfold Routes.GET_search. rewrite getArticles_params.
    assert (List.filter
              (Spec.matches
                 (Routes.safeParams
                    (Routes.mkQuery (Some (QStr "")) None None None)))
              (Trace.all_articles s)
            = Trace.all_articles s) as ->.
    { rewrite (List.filter_ext _ (fun _ => true)); [apply filter_true|].
      intros a. reflexivity. }
    split_and!.
    + intros a. apply sort_In.
    + apply sort_perm.
    + apply sort_descending.
Qed.

End SearchText.

(** ** The pages named by the sitemap and by robots.txt *)

Section SitemapPages.
Import JS.
Implicit Types (s : MemStorage.t).

Lemma url_entry_loc (loc lastmod changefreq priority : string) :
  includes (Routes.url_entry loc lastmod changefreq priority)
           ("<loc>" +:+ loc +:+ "</loc>") = true.
Proof.
  apply includes_within.
  exists ("  <url>" +:+ Routes.nl +:+ "    "). eexists.
  unfold Routes.url_entry. rewrite !append_assoc. reflexivity.
Qed.

Ltac find_loc :=
  lazymatch goal with
  | |- includes (Routes.url_entry ?l _ _ _ +:+ _)
                ("<loc>" +:+ ?l +:+ "</loc>") = true =>
      apply includes_append_l; apply url_entry_loc
  | |- includes (Routes.url_entry ?l _ _ _)
                ("<loc>" +:+ ?l +:+ "</loc>") = true =>
      apply url_entry_loc
  | |- includes (_ +:+ _) _ = true => apply includes_append_r; find_loc
  end.

(** X27. The text sent by [GET /sitemap.xml] holds a [loc] element for the
    home page, the search page and the admin page, for the page of every
    stored category and for the page of every stored article. The text sent
    by [GET /robots.txt] names the sitemap under the same base address, and
    disallows the admin page that the sitemap lists. *)
Theorem sitemap_names_every_page (env : Routes.Env) (now : Z)
    (s : MemStorage.t) :
  let sitemap := Spec.sent_text (Routes.GET_sitemap env now s) in
  let loc (path : string) : string :=
    "<loc>" +:+ (Routes.baseUrl env +:+ path) +:+ "</loc>" in
  includes sitemap (loc "/") = true
  /\ includes sitemap (loc "/search") = true
  /\ includes sitemap (loc "/admin") = true
  /\ (forall c,
        In c (MemStorage.getCategories s) ->
        includes sitemap (loc ("/category/" +:+ Category.slug c)) = true)
  /\ (forall a,
        In a (Trace.all_articles s) ->
        includes sitemap (loc ("/article/" +:+ Article.id a)) = true)
  /\ includes (Routes.robotsTxt env)
              ("Sitemap: " +:+ Routes.baseUrl env +:+ "/sitemap.xml") = true
  /\ includes (Routes.robotsTxt env) "Disallow: /admin" = true.
Proof.
  intros sitemap loc. unfold sitemap, loc. rewrite sitemap_text.
  split_and!.
  - apply includes_append_l. unfold Routes.sitemap_head. find_loc.
  - apply includes_append_l. unfold Routes.sitemap_head. find_loc.
  - apply includes_append_l. unfold Routes.sitemap_head. find_loc.
  - intros c Hc. apply includes_append_r, includes_append_l.
    apply (includes_join_map _ _ c); [done|]. apply url_entry_loc.
  - intros a Ha. do 2 apply includes_append_r. apply includes_append_l.
    apply (includes_join_map _ _ a); [by apply sort_In|]. apply url_entry_loc.
  - unfold Routes.robotsTxt. cbv zeta.
    do 7 apply includes_append_r.
    apply includes_within. exists "". eexists.
    rewrite !append_assoc. reflexivity.
  - unfold Routes.robotsTxt. cbv zeta.
    do 16 apply includes_append_r. apply includes_append_l.
    reflexivity.
Qed.

End SitemapPages.

(** ** A new article, fetched back *)

Section CreateAndFetch.
Import JS.
Implicit Types (s : MemStorage.t).

(** X28. [POST /api/articles] with a body that passes the schema and an
    identifier that is new to the store puts the article after the stored
    ones and changes none of them. The stored article has a list of tags,
    empty when the body has none or [null]; its images are [null] when the
    body has none or an empty text; both its dates are the date of the
    request. Fetching it by its id sends it back with one view. *)
Theorem created_article_is_fetched_back (uuid : string) (now : Z)
    (body : option JSON) (data : InsertArticle.t) (s : MemStorage.t) :
  Trace.reachable s ->
  uuid ∉ keys (MemStorage.articles s) ->
  Zod.parse Zod.insertArticleSchema body = inr data ->
  exists a s1 s2 a1,
    Routes.POST_articles uuid now body s
    = (Routes.mkResponse 201 (Routes.Json_article a), s1)
    /\ Article.views a = Some 0%Z
    /\ Article.tags a = Some (default [] (mjoin (InsertArticle.tags data)))
    /\ Article.authorImage a <> Some ""
    /\ Article.imageUrl a <> Some ""
    /\ Article.createdAt a = now
    /\ Article.updatedAt a = now
    /\ keys (MemStorage.articles s1) = keys (MemStorage.articles s) ++ [uuid]
    /\ (forall id, id <> uuid -> Trace.lookup s1 id = Trace.lookup s id)
    /\ Routes.GET_article uuid s1
       = (Routes.mkResponse 200 (Routes.Json_article a1), s2)
    /\ Article.views a1 = Some 1%Z
    /\ a1 = Article.set_views 1 a
    /\ Trace.lookup s2 uuid = Some a1.
Proof.
  intros Hr Hfresh Hp.
  pose proof (reachable_wf _ Hr) as Hwf.
  unfold Routes.POST_articles. rewrite Hp.
  unfold MemStorage.createArticle.
  set (a := Article.mk uuid _ _ _ _ _ _ _ _ _ _ _ _ _ _ _).
  set (s1 := (MemStorage.store_new uuid a s).2).
  assert (Trace.wf s1) as Hwf1 by by apply wf_store_new.
  assert (Trace.lookup s1 uuid = Some a) as Hl1 by apply lookup_store_new_eq.
  destruct (GET_article_present s1 uuid a 0 Hwf1 Hl1 eq_refl ltac:(lia))
    as (r & Hg & Hget).
  exists a, s1, (Trace.poke uuid r (Article.set_views (0 + 1) a) s1),
    (Article.set_views 1 a).
  split_and!; try done.
  - unfold s1, MemStorage.store_new, Routes.json_ref.
    cbn [snd MemStorage.heap].
    rewrite lookup_app_r by lia. by rewrite Nat.sub_diag.
  - apply str_or_null_not_empty.
  - apply str_or_null_not_empty.
  - unfold s1. rewrite keys_store_new. by destruct (decide _).
  - intros id Hne. by apply lookup_store_new_ne.
  - apply lookup_Some in Hl1 as (r' & Hg' & Hh).
    assert (r' = r) as -> by congruence.
    by eapply lookup_poke_eq.
Qed.

(** X29. [updateCategory] for an id that is not stored returns [undefined]
    and leaves the store as it is. For a stored id it returns the category
    that is stored from then on under the same id and at the same place: the
    properties that the update names are replaced, the others and the id are
    as before, and no other entry changes. *)
Theorem update_category_keeps_id_and_place (s : MemStorage.t) (id : string)
    (updates : PartialCategory.t) :
  (get id (MemStorage.categories s) = None ->
   MemStorage.updateCategory id updates s = (None, s))
  /\ (forall c,
        get id (MemStorage.categories s) = Some c ->
        exists c' s',
          MemStorage.updateCategory id updates s = (Some c', s')
          /\ get id (MemStorage.categories s') = Some c'
          /\ Category.id c' = Category.id c
          /\ Category.name c'
             = default (Category.name c) (PartialCategory.name updates)
          /\ Category.slug c'
             = default (Category.slug c) (PartialCategory.slug updates)
          /\ Category.description c'
             = default (Category.description c)
                       (PartialCategory.description updates)
          /\ Category.color c'
             = default (Category.color c) (PartialCategory.color updates)
          /\ keys (MemStorage.categories s') = keys (MemStorage.categories s)
          /\ (forall id', id' <> id ->
                get id' (MemStorage.categories s')
                = get id' (MemStorage.categories s))
          /\ MemStorage.articles s' = MemStorage.articles s
          /\ MemStorage.heap s' = MemStorage.heap s
          /\ MemStorage.comments s' = MemStorage.comments s).
Proof.
  unfold MemStorage.updateCategory. split.
  - by intros ->.
  - intros c Hc. rewrite Hc. eexists _, _. split; [reflexivity|].
    cbn. split_and!; try done.
    + apply get_set_eq.
    + apply keys_set_present. apply has_true_keys. unfold has. by rewrite Hc.
    + intros id' Hne. by apply get_set_ne.
Qed.

End CreateAndFetch.

(** ** The further properties at work on the seeded store *)

Section MoreWitnesses.
Import JS.

Lemma like_route_counts_one_like_witness :
  exists a,
    Trace.lookup Examples.seeded "uuid-h" = Some a
    /\ exists l s' s'',
         Article.likes a = Some l
         /\ Routes.POST_like "uuid-h" Examples.seeded
            = (Routes.mkResponse 200 (Routes.Json_likes (Some (l + 1)%Z)), s')
         /\ Trace.lookup s' "uuid-h" = Some (Article.set_likes (l + 1) a)
         /\ (forall id', id' <> "uuid-h" ->
               Trace.lookup s' id' = Trace.lookup Examples.seeded id')
         /\ MemStorage.articles s' = MemStorage.articles Examples.seeded
         /\ Routes.POST_like "uuid-h" s'
            = (Routes.mkResponse 200 (Routes.Json_likes (Some (l + 2)%Z)), s'')
         /\ Trace.lookup s'' "uuid-h" = Some (Article.set_likes (l + 2) a).
Proof.
  eexists. split.
  - vm_compute. reflexivity.
  - apply (like_route_counts_one_like Examples.seeded "uuid-h").
    + apply Trace.reach_construct.
    + vm_compute. reflexivity.
Defined.

Lemma views_route_always_answers_200_witness :
  fst (Routes.POST_views "no-such-id" Examples.seeded)
  = Routes.mkResponse 200 (Routes.Json_message "View counted")
  /\ snd (Routes.POST_views "no-such-id" Examples.seeded) = Examples.seeded
  /\ exists a',
       Trace.lookup (snd (Routes.POST_views "uuid-h" Examples.seeded)) "uuid-h"
       = Some a'
       /\ Article.views a' = Some 1251%Z.
Proof.
  destruct (views_route_always_answers_200 Examples.seeded "no-such-id")
    as (H200 & Hsame & _).
  { apply Trace.reach_construct. }
  destruct (views_route_always_answers_200 Examples.seeded "uuid-h")
    as (_ & _ & Hstored).
  { apply Trace.reach_construct. }
  split_and!.
  - exact H200.
  - apply Hsame. vm_compute. reflexivity.
  - edestruct Hstored as (v & a' & Hv & Hl' & Hv' & _).
    { vm_compute. reflexivity. }
    vm_compute in Hv. injection Hv as <-.
    exists a'. split; [exact Hl' | exact Hv'].
Defined.

Lemma fetch_then_view_counts_two_witness :
  exists a s1 a1 a2,
    Trace.lookup Examples.seeded "uuid-h" = Some a
    /\ Article.views a = Some 1250%Z
    /\ Routes.GET_article "uuid-h" Examples.seeded
       = (Routes.mkResponse 200 (Routes.Json_article a1), s1)
    /\ Article.views a1 = Some 1251%Z
    /\ Trace.lookup (snd (Routes.POST_views "uuid-h" s1)) "uuid-h" = Some a2
    /\ Article.views a2 = Some 1252%Z.
Proof.
  eexists.
  assert (Trace.lookup Examples.seeded "uuid-h" = Some _) as Hl
    by (vm_compute; reflexivity).
  destruct (fetch_then_view_counts_two Examples.seeded "uuid-h" _
              (Trace.reach_construct Examples.uuid Examples.clock) Hl)
    as (v & s1 & a1 & a2 & Hv & Hget & Hv1 & _ & Hpost & Hv2 & _).
  vm_compute in Hv. injection Hv as <-.
  exists s1, a1, a2. split_and!.
  - exact Hl.
  - reflexivity.
  - exact Hget.
  - exact Hv1.
  - exact Hpost.
  - exact Hv2.
Defined.

Lemma entries_filed_under_own_id_witness :
  List.map Article.id (Trace.all_articles Examples.seeded)
  = keys (MemStorage.articles Examples.seeded).
Proof.
  apply (entries_filed_under_own_id Examples.seeded).
  apply Trace.reach_construct.
Defined.


Lemma partial_schema_accepts_article_bodies_witness :
  Zod.parse Zod.insertArticleSchema_partial Examples.article_body
  = inr (PartialArticle.mk
           (Some "Budget vote") (Some "The council votes on Monday.")
           (Some "Council vote") (Some "Ann Lee") (Some "Reporter") None
           (Some "Politics") None None None None).
Proof.
  apply (proj1 partial_schema_accepts_article_bodies
           Examples.article_body Examples.new_article).
  vm_compute. reflexivity.
Defined.

Lemma comment_route_files_under_route_article_witness :
  exists s',
    Routes.POST_comments "c-1" 1700000000001 "uuid-h"
                         (Some (JObj Examples.comment_fields)) Examples.seeded
    = (Routes.mkResponse 201
         (Routes.Json_comment
            (Comment.mk "c-1" "uuid-h" "Bo" "bo@example.org" "Well said."
                        1700000000001)), s')
    /\ get "c-1" (MemStorage.comments s')
       = Some (Comment.mk "c-1" "uuid-h" "Bo" "bo@example.org" "Well said."
                          1700000000001).
Proof.
  destruct (proj1 (comment_route_files_under_route_article
                     "c-1" 1700000000001 "uuid-h" Examples.comment_fields
                     Examples.seeded)
              "Bo" "bo@example.org" "Well said."
              eq_refl eq_refl eq_refl)
    as (s' & Hpost & Hget & _).
  exists s'. split; assumption.
Defined.

Lemma two_comments_less_one_witness :
  let s1 :=
    snd (Routes.POST_comments "c-1" 1700000000001 "uuid-h"
                              Examples.comment_body Examples.seeded) in
  let s2 :=
    snd (Routes.POST_comments "c-2" 1700000000002 "uuid-h"
                              Examples.comment_body s1) in
  Routes.GET_comments "uuid-h" (snd (Routes.DELETE_comment "c-1" s2))
  = Routes.mkResponse 200
      (Routes.Json_comments
         [Comment.mk "c-2" "uuid-h" "Bo" "bo@example.org" "Well said."
                     1700000000002]).
Proof.
  apply (two_comments_less_one "c-1" "c-2" 1700000000001 1700000000002
           "uuid-h" Examples.comment_body Examples.comment_body
           Examples.seeded Examples.new_comment Examples.new_comment).
  - apply (bool_decide_unpack _). vm_compute. exact I.
  - apply (bool_decide_unpack _). vm_compute. exact I.
  - discriminate.
  - vm_compute. reflexivity.
  - vm_compute. reflexivity.
  - vm_compute. reflexivity.
Defined.

Lemma deleted_article_is_gone_but_for_its_comments_witness :
  exists s',
    Routes.DELETE_article "uuid-h" Examples.seeded
    = (Routes.mkResponse 204 Routes.No_content, s')
    /\ Routes.GET_article "uuid-h" s'
       = (Routes.mkResponse 404 (Routes.Json_error "Article not found"), s').
Proof.
  assert (Trace.lookup Examples.seeded "uuid-h" = Some _) as Hl
    by (vm_compute; reflexivity).
  destruct (deleted_article_is_gone_but_for_its_comments Examples.seeded
              "uuid-h" _
              (Trace.reach_construct Examples.uuid Examples.clock) Hl)
    as (s' & Hdel & Hget & _).
  exists s'. split; assumption.
Defined.

Lemma category_route_and_slug_lookup_witness :
  exists category s',
    Routes.POST_categories "uuid-z" Examples.category_body Examples.seeded
    = (Routes.mkResponse 201 (Routes.Json_category category), s')
    /\ Category.description category <> Some ""
    /\ Routes.GET_category "opinion" s'
       = Routes.mkResponse 200 (Routes.Json_category category)
    /\ Routes.GET_category "technology" s'
       = Routes.GET_category "technology" Examples.seeded.
Proof.
  destruct (category_route_and_slug_lookup "uuid-z" Examples.category_body
              Examples.new_category Examples.seeded)
    as (category & s' & Hpost & _ & _ & _ & _ & Hd & _ & Hslug).
  - apply (bool_decide_unpack _). vm_compute. exact I.
  - vm_compute. reflexivity.
  - exists category, s'. split_and!; [assumption..| |].
    + rewrite (Hslug "opinion"). vm_compute. reflexivity.
    + rewrite (Hslug "technology"). vm_compute. reflexivity.
Defined.

Lemma article_without_published_flag_witness :
  exists a s',
    Routes.POST_articles "uuid-z" 1700000000006
      (Some (JObj Examples.article_fields)) Examples.seeded
    = (Routes.mkResponse 201 (Routes.Json_article a), s')
    /\ Article.published a = None
    /\ forall l,
         Client.Home.queryFn s'
         = Routes.mkResponse 200 (Routes.Json_articles l) ->
         ~ In a l.
Proof.
  destruct (article_without_published_flag "uuid-z" 1700000000006
              Examples.article_fields Examples.new_article Examples.seeded)
    as (a & s' & Hpost & Hpub & _ & Hnot).
  - vm_compute. reflexivity.
  - left. reflexivity.
  - exists a, s'. split_and!; [assumption..|].
    intros l. apply (Hnot _ (QStr "true")). reflexivity.
Defined.

Lemma article_by_slug_matches_title_form_witness :
  MemStorage.getArticleBySlug "Remote-Work" Examples.seeded = None.
Proof.
  apply (article_by_slug_matches_title_form Examples.seeded "Remote-Work").
  apply Exists_cons_hd. split; [reflexivity|discriminate].
Defined.

Lemma database_reads_agree_witness :
  DatabaseStorage.getArticle "uuid-h" Examples.seeded_db
  = (r ← MemStorage.getArticle "uuid-h" Examples.seeded;
     MemStorage.heap Examples.seeded !! r).
Proof.
  apply (database_reads_agree Examples.seeded_db Examples.seeded).
  - apply Trace.reach_construct.
  - reflexivity.
  - reflexivity.
Defined.

Lemma database_selects_by_containment_witness :
  In Examples.draft
     (DatabaseStorage.getArticles DatabaseStorage.scan_order
        (Some Examples.politics) Examples.rows_db).
Proof.
  apply (database_selects_by_containment DatabaseStorage.scan_order
           Examples.rows_db Examples.politics).
  - apply stable_sorts_newest_first.
  - intros c [= <-]. reflexivity.
  - intros q [= <-]. reflexivity.
  - split_and!.
    + left. reflexivity.
    + intros c [= <-] _. reflexivity.
    + intros q [= <-] _. reflexivity.
    + intros b. discriminate.
Defined.

End MoreWitnesses.

Section ClientWitnesses.
Import JS.

Lemma search_page_asks_for_undefined_witness :
  exists l,
    Client.SearchPage.queryFn "council" "" Examples.seeded
    = Routes.mkResponse 200 (Routes.Json_articles l)
    /\ forall a, In a l -> toLowerCase (Article.category a) = "undefined".
Proof.
  destruct (search_page_asks_for_undefined "council" "" Examples.seeded)
    as (l & Hl & Htext & _).
  exists l. split; [exact Hl|]. apply Htext; [discriminate|reflexivity].
Defined.

Lemma home_renders_four_featured_witness :
  In Examples.lead (Client.Home.rendered Examples.front_page [])
  /\ Article.featured Examples.lead = Some true.
Proof.
  apply (home_renders_four_featured Examples.front_page []).
  cbn. left. reflexivity.
Defined.

Lemma sidebar_recent_stories_are_most_viewed_witness :
  (num_or (Article.views (Article.set_views 1 Examples.draft)) 0
   <= num_or (Article.views (Article.set_views 3 Examples.draft)) 0)%Z.
Proof.
  apply (sidebar_recent_stories_are_most_viewed Examples.by_views).
  - cbn. do 3 right. left. reflexivity.
  - cbn. right. left. reflexivity.
  - cbn. intros [H|[H|[H|[H|[]]]]]; discriminate.
Defined.

Lemma related_articles_ranking_witness :
  In Examples.lead
     (Client.RelatedArticles Examples.draft 4 Examples.front_page).
Proof.
  apply (related_articles_ranking Examples.draft 4 Examples.front_page).
  - cbn. lia.
  - split_and!.
    + right. left. reflexivity.
    + discriminate.
    + left. reflexivity.
Defined.

Lemma category_page_shows_each_article_once_witness :
  exists articles featured,
    Client.api_getArticles
      (Some [("category", Client.PStr "Business");
             ("published", Client.PBool true)]) Examples.seeded
    = Routes.mkResponse 200 (Routes.Json_articles articles)
    /\ List.map Article.id articles
       = ["uuid-i"; "uuid-j"; "uuid-k"; "uuid-l"; "uuid-m"]
    /\ Client.CategoryPage.featuredArticle articles = Some featured
    /\ Article.id featured = "uuid-i"
    /\ exists before after,
         articles = before ++ featured :: after
         /\ Client.CategoryPage.regularArticles articles = before ++ after
         /\ before = []
         /\ List.map Article.id after
            = ["uuid-j"; "uuid-k"; "uuid-l"; "uuid-m"].
Proof.
  destruct (category_page_shows_each_article_once Examples.seeded "Business")
    as (articles & Hget & Hpage).
  { apply Trace.reach_construct. }
  vm_compute in Hget. injection Hget as <-.
  match type of Hpage with
  | match ?x with _ => _ end =>
      let v := eval vm_compute in x in
      change x with v in Hpage
  end.
  destruct Hpage as (before & after & Heq & Hreg & _ & [Hflag|[-> _]] & _).
  { vm_compute in Hflag. discriminate. }
  cbn [app] in Heq, Hreg.
  eexists _, _. split_and!.
  - vm_compute. reflexivity.
  - vm_compute. reflexivity.
  - vm_compute. reflexivity.
  - reflexivity.
  - exists [], after. split_and!.
    + exact Heq.
    + exact Hreg.
    + reflexivity.
    + pose proof (f_equal (fun l => List.map Article.id (List.tl l)) Heq)
        as E.
      cbv beta in E. cbn [List.tl] in E. rewrite <- E.
      vm_compute. reflexivity.
Defined.

Lemma time_ago_counts_whole_hours_and_days_witness :
  Client.formatTimeAgo 1700000000000 1700003600000 = "Just now"
  /\ Client.formatTimeAgo 1700172800000 1700000000000 = "2 days ago".
Proof.
  split.
  - apply (time_ago_counts_whole_hours_and_days 1700000000000 1700003600000).
    lia.
  - destruct (time_ago_counts_whole_hours_and_days
                1700172800000 1700000000000) as (_ & _ & Hdays).
    destruct Hdays as [_ ->]; [lia|]. vm_compute. reflexivity.
Defined.

Lemma tags_stay_distinct_and_filled_witness :
  Client.ArticleForm.tags
    (Client.ArticleForm.removeTag "budget"
       (Client.ArticleForm.addTag Examples.tag_input))
  = ["Politics"].
Proof.
  apply (tags_stay_distinct_and_filled Examples.tag_input "budget").
  intros [H|[]]. discriminate.
Defined.

Lemma search_finds_text_in_title_content_author_witness :
  (exists l,
     Routes.GET_search
       (Routes.mkQuery (Some (QStr "council")) None None None) Examples.seeded
     = Routes.mkResponse 200 (Routes.Json_articles l)
     /\ (forall a,
           In a l <->
           In a (Trace.all_articles Examples.seeded)
           /\ exists field,
                In field [Article.title a; Article.content a; Article.author a]
                /\ exists pre post,
                     toLowerCase field = pre +:+ toLowerCase "council" +:+ post)
     /\ StronglySorted (descending Article.createdAt) l)
  /\ exists l,
       Routes.GET_search
         (Routes.mkQuery (Some (QStr "")) None None None) Examples.seeded
       = Routes.mkResponse 200 (Routes.Json_articles l)
       /\ length l = 9%nat.
Proof.
  destruct (search_finds_text_in_title_content_author Examples.seeded)
    as (Htext & _ & _ & (l & Hget & _ & Hperm & _)).
  split.
  - apply Htext. discriminate.
  - exists l. split; [exact Hget|].
    rewrite (Permutation_length Hperm). vm_compute. reflexivity.
Defined.

Lemma sitemap_names_every_page_witness :
  includes
    (Spec.sent_text
       (Routes.GET_sitemap Examples.env 1700000000000 Examples.seeded))
    ("<loc>"
     +:+ (Routes.baseUrl Examples.env
          +:+ ("/category/" +:+ Category.slug Examples.technology))
     +:+ "</loc>")
  = true.
Proof.
  destruct (sitemap_names_every_page Examples.env 1700000000000
              Examples.seeded) as (_ & _ & _ & Hcategory & _).
  apply (Hcategory Examples.technology).
  vm_compute. left. reflexivity.
Defined.

Lemma created_article_is_fetched_back_witness :
  exists a s1 s2 a1,
    Routes.POST_articles "uuid-z" 1700000000006 Examples.article_body
                         Examples.seeded
    = (Routes.mkResponse 201 (Routes.Json_article a), s1)
    /\ Article.views a = Some 0%Z
    /\ Article.tags a = Some []
    /\ Routes.GET_article "uuid-z" s1
       = (Routes.mkResponse 200 (Routes.Json_article a1), s2)
    /\ Article.views a1 = Some 1%Z
    /\ Trace.lookup s2 "uuid-z" = Some a1.
Proof.
  destruct (created_article_is_fetched_back "uuid-z" 1700000000006
              Examples.article_body Examples.new_article Examples.seeded)
    as (a & s1 & s2 & a1 & Hpost & Hv0 & Htags & _ & _ & _ & _ & _ & _ & Hget
        & Hv1 & _ & Hl).
  - apply Trace.reach_construct.
  - apply (bool_decide_unpack _). vm_compute. exact I.
  - vm_compute. reflexivity.
  - exists a, s1, s2, a1. split_and!; assumption.
Defined.

Lemma update_category_keeps_id_and_place_witness :
  exists c' s',
    MemStorage.updateCategory "uuid-a" Examples.recolour Examples.seeded
    = (Some c', s')
    /\ Category.id c' = "uuid-a"
    /\ Category.name c' = "Technology"
    /\ Category.color c' = "bg-gray-100 text-gray-700".
Proof.
  destruct (proj2 (update_category_keeps_id_and_place Examples.seeded "uuid-a"
                     Examples.recolour) Examples.technology)
    as (c' & s' & Hup & _ & Hid & Hname & _ & _ & Hcolor & _).
  - vm_compute. reflexivity.
  - exists c', s'. split_and!; assumption.
Defined.

Lemma category_by_slug_is_first_match_witness :
  Routes.GET_category "no-such-slug" Examples.seeded
  = Routes.mkResponse 404 (Routes.Json_error "Category not found").
Proof.
  apply (category_by_slug_is_first_match Examples.seeded "no-such-slug").
  intros c Hc. vm_compute in Hc.
  repeat (destruct Hc as [<-|Hc]; [discriminate|]). destruct Hc.
Defined.

Lemma home_page_lists_published_articles_witness :
  exists l,
    Client.Home.queryFn Examples.seeded
    = Routes.mkResponse 200 (Routes.Json_articles l)
    /\ In (default Examples.draft (Trace.lookup Examples.seeded "uuid-h")) l.
Proof.
  destruct (home_page_lists_published_articles Examples.seeded)
    as (l & Hl & Hin & _).
  exists l. split; [exact Hl|]. apply Hin. split.
  - vm_compute. left. reflexivity.
  - vm_compute. reflexivity.
Defined.

End ClientWitnesses.

(** ** The sitemap of the seeded store *)

Section SitemapWitness.
Import JS.

Lemma sitemap_lists_every_page_of_plain_names_witness :
  Spec.markup_free Examples.env Examples.seeded
  /\ Spec.sitemap_lists_every_page Examples.env 1700000000000 Examples.seeded.
Proof.
  assert (Spec.markup_free Examples.env Examples.seeded) as Hplain.
  { unfold Spec.markup_free. split_and!.
    - vm_compute. reflexivity.
    - apply (bool_decide_unpack _). vm_compute. exact I.
    - apply (bool_decide_unpack _). vm_compute. exact I. }
  split; [exact Hplain|].
  apply (sitemap_lists_every_page_of_plain_names
           Examples.env 1700000000000 Examples.seeded).
  exact Hplain.
Defined.

End SitemapWitness.
